(** * FlashCard vault: a shallow embedding of the storage engine

    The development follows the Python sources

    - [models/content_blocks.py]  (content blocks and their factories),
    - [models/flashcard.py]       ([FlashCard], [FlashCardSet]),
    - [utils/file_manager.py]     ([FileManager]),
    - [vault/icon_manager.py]     ([IconManager]: the list of icon sets),
    - [vault/vault_manager.py]    ([VaultManager]).

    Modelling conventions.

    - Python values that travel through JSON are values of [pyval]; a
      dictionary is an association list in insertion order.
    - A method that mutates [self] is a computation in the monad [M St],
      a state transformer that may raise: the state reached when an
      exception is raised is kept, exactly as a Python object keeps the
      mutations made before a [raise].
    - [datetime.now()] and [uuid.uuid4()] read an environment [env]; every
      call advances a counter, so two calls may answer differently.
    - A directory is an association list of named nodes, in the order in
      which [iterdir] lists it.  The two directories the vault manager
      addresses by name ([sets/] and [icons/]) are finite maps.  A name is
      one directory entry: names are not interpreted as paths.  Where the
      code forms [sets_path / name] from a name that its caller chooses,
      this is the code only for names that [FS.is_entry_name] accepts;
      the empty name, [.], [..] and names with a separator lead the code
      to another place, and a statement that depends on the difference
      assumes an entry name.  Names are compared exactly, as on a
      case-sensitive file system.
    - A file is known by what reading it gives: a JSON document, text that
      is not JSON, or bytes that are not UTF-8 text.  [json.load] after
      [json.dump] gives the value back.
    - The file system itself does not fail (no permission or disk-full
      errors); the failures that remain are those the directory contents
      cause (a file where a directory is expected and the like).
    - An archive to import is known by the tree that [extractall] unpacks
      from it; an archive that was exported is the list of its entries.
    - Exception messages are not modelled, only exception classes. *)

From Stdlib Require Import ZArith String Ascii List Lia.
From stdpp Require Import base option list strings gmap fin_maps pretty sorting.

Set Warnings "-register-all".
Set Warnings "-clear-no-such-hyp".
Local Open Scope string_scope.
Local Open Scope list_scope.

(** ** Python values *)

Inductive pyval : Type :=
| VNone
| VBool (b : bool)
| VInt (z : Z)
| VStr (s : string)
| VList (l : list pyval)
| VDict (d : list (string * pyval)).

(** Truth value of an object, as [if x:] tests it. *)
Definition truthy (v : pyval) : bool :=
  match v with
  | VNone => false
  | VBool b => b
  | VInt z => negb (Z.eqb z 0)
  | VStr s => negb (String.eqb s "")
  | VList l => match l with [] => false | _ => true end
  | VDict d => match d with [] => false | _ => true end
  end.

(** [v == s] for a string literal [s]. *)
Definition str_eqb (v : pyval) (s : string) : bool :=
  match v with
  | VStr s' => String.eqb s' s
  | _ => false
  end.

(** ** Exceptions and the state-and-exception monad *)

Inductive exn : Type :=
| ValueError
| JSONDecodeError       (* subclass of ValueError *)
| UnicodeDecodeError    (* subclass of ValueError *)
| IOError               (* alias of OSError *)
| FileNotFoundError     (* subclass of OSError *)
| NotADirectoryError    (* subclass of OSError *)
| IsADirectoryError     (* subclass of OSError *)
| FileExistsError       (* subclass of OSError *)
| IndexError
| KeyError
| TypeError
| AttributeError
| BadZipFile.

(** [isinstance(e, ValueError)] *)
Definition is_ValueError (e : exn) : bool :=
  match e with
  | ValueError | JSONDecodeError | UnicodeDecodeError => true
  | _ => false
  end.

(** [isinstance(e, OSError)] *)
Definition is_OSError (e : exn) : bool :=
  match e with
  | IOError | FileNotFoundError | NotADirectoryError
  | IsADirectoryError | FileExistsError => true
  | _ => false
  end.

Inductive result (A : Type) : Type :=
| Ok (a : A)
| Raise (e : exn).
Arguments Ok {A} a.
Arguments Raise {A} e.

Definition M (St A : Type) : Type := St -> result A * St.

Definition ret {St A} (a : A) : M St A := fun s => (Ok a, s).
Definition raise {St A} (e : exn) : M St A := fun s => (Raise e, s).
Definition bind {St A B} (m : M St A) (k : A -> M St B) : M St B :=
  fun s => match m s with
           | (Ok a, s') => k a s'
           | (Raise e, s') => (Raise e, s')
           end.
Definition get {St} : M St St := fun s => (Ok s, s).
Definition put {St} (s : St) : M St unit := fun _ => (Ok tt, s).
Definition modify {St} (f : St -> St) : M St unit := fun s => (Ok tt, f s).
(** A pure computation that may raise. *)
Definition lift {St A} (r : result A) : M St A := fun s => (r, s).
(** [try: m except Exception as e: h e] *)
Definition try_except {St A} (m : M St A) (h : exn -> M St A) : M St A :=
  fun s => match m s with
           | (Ok a, s') => (Ok a, s')
           | (Raise e, s') => h e s'
           end.

Declare Scope py_scope.
Delimit Scope py_scope with py.
Notation "'let*' x ':=' m 'in' k" := (bind m (fun x => k))
  (at level 10, x pattern, m at level 100, k at level 200) : py_scope.
Notation "m ';;' k" := (bind m (fun _ => k))
  (at level 100, k at level 200, right associativity) : py_scope.
Local Open Scope py_scope.

(** [for x in l: body x], with the state threaded through. *)
Fixpoint for_each {St A} (l : list A) (body : A -> M St unit) : M St unit :=
  match l with
  | [] => ret tt
  | x :: l' => body x;; for_each l' body
  end.

(** The environment: clock and identifier source.  [tick] counts the calls. *)
Record env : Type := Env {
  clock : nat -> string;     (* datetime.now().isoformat() at the n-th call *)
  uuid_src : nat -> string;  (* str(uuid.uuid4()) at the n-th call *)
  default_png : nat -> string (* the default icon drawn at a given size *)
}.

(** ** Python lists and dictionaries *)

Module Py.

(** [d.get(k)]: the first binding of [k]. *)
Fixpoint dict_lookup (d : list (string * pyval)) (k : string) : option pyval :=
  match d with
  | [] => None
  | (k', v) :: d' => if String.eqb k' k then Some v else dict_lookup d' k
  end.

(** [d[k] = v]: replaces the binding of [k], or adds one at the end. *)
Fixpoint dict_set (d : list (string * pyval)) (k : string) (v : pyval)
  : list (string * pyval) :=
  match d with
  | [] => [(k, v)]
  | (k', v') :: d' =>
      if String.eqb k' k then (k, v) :: d' else (k', v') :: dict_set d' k v
  end.

(** [data.get(k, default)]; an object without [.get] raises. *)
Definition get_default (data : pyval) (k : string) (default : pyval)
  : result pyval :=
  match data with
  | VDict d => Ok (from_option id default (dict_lookup d k))
  | _ => Raise AttributeError
  end.

(** [data[k]] *)
Definition getitem (data : pyval) (k : string) : result pyval :=
  match data with
  | VDict d => match dict_lookup d k with
               | Some v => Ok v
               | None => Raise KeyError
               end
  | _ => Raise TypeError
  end.

(** [data[k] = v] *)
Definition setitem (data : pyval) (k : string) (v : pyval) : result pyval :=
  match data with
  | VDict d => Ok (VDict (dict_set d k v))
  | _ => Raise TypeError
  end.

Fixpoint chars (s : string) : list pyval :=
  match s with
  | EmptyString => []
  | String c s' => VStr (String c EmptyString) :: chars s'
  end.

(** The items [for x in v] runs over. *)
Definition iter (v : pyval) : result (list pyval) :=
  match v with
  | VList l => Ok l
  | VDict d => Ok (map (fun kv => VStr (fst kv)) d)
  | VStr s => Ok (chars s)
  | _ => Raise TypeError
  end.

(** Index normalisation of [l.pop(i)] and [del l[i]]. *)
Definition index {A} (l : list A) (i : Z) : option nat :=
  let n := Z.of_nat (length l) in
  if (0 <=? i)%Z && (i <? n)%Z then Some (Z.to_nat i)
  else if (i <? 0)%Z && (0 <=? i + n)%Z then Some (Z.to_nat (i + n))
  else None.

(** [l.pop(i)]: the element and the list without it. *)
Definition pop {A} (l : list A) (i : Z) : result (A * list A) :=
  match index l i with
  | Some k => match l !! k with
              | Some x => Ok (x, take k l ++ drop (S k) l)
              | None => Raise IndexError
              end
  | None => Raise IndexError
  end.

(** [l.insert(i, x)]: out-of-range positions are clamped. *)
Definition insert {A} (l : list A) (i : Z) (x : A) : list A :=
  let n := Z.of_nat (length l) in
  let k := if (i <? 0)%Z then Z.max 0 (i + n) else Z.min i n in
  take (Z.to_nat k) l ++ x :: drop (Z.to_nat k) l.

End Py.

(** [datetime.now().isoformat()] and [str(uuid.uuid4())]: state is the call
    counter. *)
Definition now (e : env) : M nat pyval :=
  fun t => (Ok (VStr (clock e t)), S t).
Definition uuid4 (e : env) : M nat pyval :=
  fun t => (Ok (VStr (uuid_src e t)), S t).

(** ** models/content_blocks.py *)

Module ContentBlock.

(** The variant-specific attributes of [TextBlock], [ImageBlock],
    [AudioBlock] and [VideoBlock].  The limits [max_chars], [max_width],
    [max_height] and [max_duration] are constants of the classes and are
    never serialized. *)
Inductive payload : Type :=
| TextBlock (text_content font_size alignment : pyval)
| ImageBlock (image_path original_filename width height : pyval)
| AudioBlock (audio_path original_filename duration : pyval)
| VideoBlock (video_path original_filename duration thumbnail_path : pyval).

Record t : Type := Block {
  block_id : pyval;
  created_date : pyval;
  content : payload
}.

(** [self.block_type], fixed by each class's [__init__]. *)
Definition block_type (b : t) : string :=
  match content b with
  | TextBlock _ _ _ => "text"
  | ImageBlock _ _ _ _ => "image"
  | AudioBlock _ _ _ => "audio"
  | VideoBlock _ _ _ _ => "video"
  end.

(** [ContentBlock.__init__] followed by the subclass defaults. *)
Definition init (e : env) (p : payload) : M nat t :=
  let* bid := uuid4 e in
  let* cd := now e in
  ret (Block bid cd p).

Definition new_text (e : env) : M nat t :=
  init e (TextBlock (VStr "") (VInt 12) (VStr "left")).
Definition new_image (e : env) : M nat t :=
  init e (ImageBlock (VStr "") (VStr "") (VInt 0) (VInt 0)).
Definition new_audio (e : env) : M nat t :=
  init e (AudioBlock (VStr "") (VStr "") (VInt 0)).
Definition new_video (e : env) : M nat t :=
  init e (VideoBlock (VStr "") (VStr "") (VInt 0) (VStr "")).

Definition to_dict (b : t) : pyval :=
  match content b with
  | TextBlock tc fs al =>
      VDict [("block_id", block_id b); ("block_type", VStr (block_type b));
             ("text_content", tc); ("font_size", fs); ("alignment", al);
             ("created_date", created_date b)]
  | ImageBlock ip ofn w h =>
      VDict [("block_id", block_id b); ("block_type", VStr (block_type b));
             ("image_path", ip); ("original_filename", ofn);
             ("width", w); ("height", h);
             ("created_date", created_date b)]
  | AudioBlock ap ofn du =>
      VDict [("block_id", block_id b); ("block_type", VStr (block_type b));
             ("audio_path", ap); ("original_filename", ofn);
             ("duration", du); ("created_date", created_date b)]
  | VideoBlock vp ofn du th =>
      VDict [("block_id", block_id b); ("block_type", VStr (block_type b));
             ("video_path", vp); ("original_filename", ofn);
             ("duration", du); ("thumbnail_path", th);
             ("created_date", created_date b)]
  end.

Definition text_from_dict (e : env) (data : pyval) : M nat t :=
  let* block := new_text e in
  let* bid := lift (Py.get_default data "block_id" (block_id block)) in
  let* tc := lift (Py.get_default data "text_content" (VStr "")) in
  let* fs := lift (Py.get_default data "font_size" (VInt 12)) in
  let* al := lift (Py.get_default data "alignment" (VStr "left")) in
  let* cd := lift (Py.get_default data "created_date" (created_date block)) in
  ret (Block bid cd (TextBlock tc fs al)).

Definition image_from_dict (e : env) (data : pyval) : M nat t :=
  let* block := new_image e in
  let* bid := lift (Py.get_default data "block_id" (block_id block)) in
  let* ip := lift (Py.get_default data "image_path" (VStr "")) in
  let* ofn := lift (Py.get_default data "original_filename" (VStr "")) in
  let* w := lift (Py.get_default data "width" (VInt 0)) in
  let* h := lift (Py.get_default data "height" (VInt 0)) in
  let* cd := lift (Py.get_default data "created_date" (created_date block)) in
  ret (Block bid cd (ImageBlock ip ofn w h)).

Definition audio_from_dict (e : env) (data : pyval) : M nat t :=
  let* block := new_audio e in
  let* bid := lift (Py.get_default data "block_id" (block_id block)) in
  let* ap := lift (Py.get_default data "audio_path" (VStr "")) in
  let* ofn := lift (Py.get_default data "original_filename" (VStr "")) in
  let* du := lift (Py.get_default data "duration" (VInt 0)) in
  let* cd := lift (Py.get_default data "created_date" (created_date block)) in
  ret (Block bid cd (AudioBlock ap ofn du)).

Definition video_from_dict (e : env) (data : pyval) : M nat t :=
  let* block := new_video e in
  let* bid := lift (Py.get_default data "block_id" (block_id block)) in
  let* vp := lift (Py.get_default data "video_path" (VStr "")) in
  let* ofn := lift (Py.get_default data "original_filename" (VStr "")) in
  let* du := lift (Py.get_default data "duration" (VInt 0)) in
  let* th := lift (Py.get_default data "thumbnail_path" (VStr "")) in
  let* cd := lift (Py.get_default data "created_date" (created_date block)) in
  ret (Block bid cd (VideoBlock vp ofn du th)).

(** Factory on the stored discriminator. *)
Definition create_block_from_dict (e : env) (data : pyval) : M nat t :=
  let* block_type := lift (Py.get_default data "block_type" VNone) in
  if str_eqb block_type "text" then text_from_dict e data
  else if str_eqb block_type "image" then image_from_dict e data
  else if str_eqb block_type "audio" then audio_from_dict e data
  else if str_eqb block_type "video" then video_from_dict e data
  else raise ValueError.

(** [len(x)] *)
Definition py_len (v : pyval) : result nat :=
  match v with
  | VStr s => Ok (String.length s)
  | VList l => Ok (length l)
  | VDict d => Ok (length d)
  | _ => Raise TypeError
  end.

(** [x > n] for an integer literal [n]; booleans count as 0 and 1. *)
Definition py_gt (v : pyval) (n : Z) : result bool :=
  match v with
  | VInt z => Ok (n <? z)%Z
  | VBool b => Ok (n <? (if b then 1 else 0))%Z
  | _ => Raise TypeError
  end.

Definition max_chars : nat := 1024.
Definition max_width : Z := 3840.
Definition max_height : Z := 2160.
Definition max_duration : Z := 300.

(** [TextBlock.set_text(content)]; the other classes have no such method. *)
Definition set_text (text : string) (b : t) : result t :=
  match content b with
  | TextBlock _ fs al =>
      if (max_chars <? String.length text)%nat then Raise ValueError
      else Ok (Block (block_id b) (created_date b) (TextBlock (VStr text) fs al))
  | _ => Raise AttributeError
  end.

(** [TextBlock.set_formatting(font_size, alignment)] *)
Definition set_formatting (font_size alignment : pyval) (b : t) : result t :=
  match content b with
  | TextBlock tc _ _ =>
      Ok (Block (block_id b) (created_date b) (TextBlock tc font_size alignment))
  | _ => Raise AttributeError
  end.

(** [block.validate()[0]], for each of the four classes. *)
Definition validate (b : t) : result bool :=
  match content b with
  | TextBlock tc _ _ =>
      match py_len tc with
      | Ok n => Ok (negb (max_chars <? n)%nat)
      | Raise ex => Raise ex
      end
  | ImageBlock ip _ w h =>
      if negb (truthy ip) then Ok false
      else
        match py_gt w max_width with
        | Ok true => Ok false
        | Ok false =>
            match py_gt h max_height with
            | Ok bad => Ok (negb bad)
            | Raise ex => Raise ex
            end
        | Raise ex => Raise ex
        end
  | AudioBlock ap _ _ => Ok (truthy ap)
  | VideoBlock vp _ du _ =>
      if negb (truthy vp) then Ok false
      else
        match py_gt du max_duration with
        | Ok bad => Ok (negb bad)
        | Raise ex => Raise ex
        end
  end.

(** Factory on a type name. *)
Definition create_block_from_type (e : env) (block_type : string) : M nat t :=
  if String.eqb block_type "text" then new_text e
  else if String.eqb block_type "image" then new_image e
  else if String.eqb block_type "audio" then new_audio e
  else if String.eqb block_type "video" then new_video e
  else raise ValueError.

End ContentBlock.

(** ** models/flashcard.py *)

Module FlashCard.

Record t : Type := Card {
  card_id : pyval;
  information_side : list ContentBlock.t;
  answer_side : list ContentBlock.t;
  status : pyval;
  created_date : pyval;
  last_studied : pyval
}.

Definition set_information_side (l : list ContentBlock.t) (c : t) : t :=
  Card (card_id c) l (answer_side c) (status c) (created_date c)
       (last_studied c).
Definition set_answer_side (l : list ContentBlock.t) (c : t) : t :=
  Card (card_id c) (information_side c) l (status c) (created_date c)
       (last_studied c).

(** [FlashCard.__init__(card_id)] *)
Definition init (e : env) (cid : pyval) : M nat t :=
  let* cid' := (if truthy cid then ret cid else uuid4 e) in
  let* cd := now e in
  ret (Card cid' [] [] (VStr "Unknown") cd VNone).

Definition add_block_to_side (side : string) (block : ContentBlock.t)
  : M t unit :=
  let* self := get in
  if String.eqb side "information" then
    if (10 <=? length (information_side self))%nat then raise ValueError
    else put (set_information_side (information_side self ++ [block]) self)
  else if String.eqb side "answer" then
    if (10 <=? length (answer_side self))%nat then raise ValueError
    else put (set_answer_side (answer_side self ++ [block]) self)
  else raise ValueError.

Definition remove_block_from_side (side : string) (block_index : Z)
  : M t unit :=
  let* self := get in
  if String.eqb side "information" then
    if (0 <=? block_index)%Z
       && (block_index <? Z.of_nat (length (information_side self)))%Z
    then let* r := lift (Py.pop (information_side self) block_index) in
         put (set_information_side (snd r) self)
    else raise IndexError
  else if String.eqb side "answer" then
    if (0 <=? block_index)%Z
       && (block_index <? Z.of_nat (length (answer_side self)))%Z
    then let* r := lift (Py.pop (answer_side self) block_index) in
         put (set_answer_side (snd r) self)
    else raise IndexError
  else raise ValueError.

Definition move_block (side : string) (from_index to_index : Z)
  : M t unit :=
  let* self := get in
  let* sel :=
    (if String.eqb side "information"
     then ret (information_side self, set_information_side)
     else if String.eqb side "answer"
     then ret (answer_side self, set_answer_side)
     else raise ValueError) in
  let '(blocks, store) := sel in
  let n := Z.of_nat (length blocks) in
  if negb ((0 <=? from_index)%Z && (from_index <? n)%Z
           && ((0 <=? to_index)%Z && (to_index <? n)%Z))
  then raise IndexError
  else
    let* r := lift (Py.pop blocks from_index) in
    let* self' := get in
    put (store (Py.insert (snd r) to_index (fst r)) self').

Definition get_side_blocks (side : string) (self : t)
  : result (list ContentBlock.t) :=
  if String.eqb side "information" then Ok (information_side self)
  else if String.eqb side "answer" then Ok (answer_side self)
  else Raise ValueError.

Definition to_dict (self : t) : pyval :=
  VDict [("card_id", card_id self);
         ("information_side",
           VList (map ContentBlock.to_dict (information_side self)));
         ("answer_side",
           VList (map ContentBlock.to_dict (answer_side self)));
         ("status", status self);
         ("created_date", created_date self);
         ("last_studied", last_studied self)].

(** The loop [for block_data in ...: side.append(create_block_from_dict
    (block_data))]; the blocks built so far are in the accumulator. *)
Fixpoint load_blocks (e : env) (items : list pyval)
    (acc : list ContentBlock.t) : M nat (list ContentBlock.t) :=
  match items with
  | [] => ret acc
  | block_data :: rest =>
      let* block := ContentBlock.create_block_from_dict e block_data in
      load_blocks e rest (acc ++ [block])
  end.

Definition from_dict (e : env) (data : pyval) : M nat t :=
  let* cid := lift (Py.get_default data "card_id" VNone) in
  let* card := init e cid in
  let* info := lift (Py.get_default data "information_side" (VList [])) in
  let* info_items := lift (Py.iter info) in
  let* info_blocks := load_blocks e info_items (information_side card) in
  let* answ := lift (Py.get_default data "answer_side" (VList [])) in
  let* answ_items := lift (Py.iter answ) in
  let* answ_blocks := load_blocks e answ_items (answer_side card) in
  let* st := lift (Py.get_default data "status" (VStr "Unknown")) in
  let* cd := lift (Py.get_default data "created_date" (created_date card)) in
  let* ls := lift (Py.get_default data "last_studied" VNone) in
  ret (Card (card_id card) info_blocks answ_blocks st cd ls).

Definition valid_statuses : list string := ["Known"; "Review"; "Unknown"].

(** [set_status(status)]: the card after the call; the state is the clock. *)
Definition set_status (e : env) (new_status : pyval) (self : t) : M nat t :=
  if negb (existsb (str_eqb new_status) valid_statuses) then raise ValueError
  else
    let* stamp := now e in
    ret (Card (card_id self) (information_side self) (answer_side self)
              new_status (created_date self) stamp).

End FlashCard.

Module FlashCardSet.

Record t : Type := CardSet {
  name : pyval;
  description : pyval;
  icon_set : pyval;
  tags : pyval;
  difficulty_level : pyval;
  created_date : pyval;
  last_accessed : pyval;
  cards : list FlashCard.t
}.

Definition set_cards (l : list FlashCard.t) (s : t) : t :=
  CardSet (name s) (description s) (icon_set s) (tags s)
          (difficulty_level s) (created_date s) (last_accessed s) l.
Definition set_last_accessed (v : pyval) (s : t) : t :=
  CardSet (name s) (description s) (icon_set s) (tags s)
          (difficulty_level s) (created_date s) v (cards s).
Definition set_name (v : pyval) (s : t) : t :=
  CardSet v (description s) (icon_set s) (tags s)
          (difficulty_level s) (created_date s) (last_accessed s) (cards s).

(** [FlashCardSet.__init__(name, description)] *)
Definition init (e : env) (nm descr : pyval) : M nat t :=
  let* cd := now e in
  ret (CardSet nm descr (VStr "default") (VList []) (VInt 1) cd VNone []).

Definition card_count (self : t) : nat := length (cards self).

Definition move_card (from_index to_index : Z) : M t unit :=
  let* self := get in
  let n := Z.of_nat (length (cards self)) in
  if negb ((0 <=? from_index)%Z && (from_index <? n)%Z
           && ((0 <=? to_index)%Z && (to_index <? n)%Z))
  then raise IndexError
  else
    let* r := lift (Py.pop (cards self) from_index) in
    let* self' := get in
    put (set_cards (Py.insert (snd r) to_index (fst r)) self').

Definition update_last_accessed (e : env) (self : t) : M nat t :=
  let* ts := now e in
  ret (set_last_accessed ts self).

Definition to_dict (self : t) : pyval :=
  VDict [("name", name self);
         ("description", description self);
         ("icon_set", icon_set self);
         ("tags", tags self);
         ("difficulty_level", difficulty_level self);
         ("created_date", created_date self);
         ("last_accessed", last_accessed self);
         ("card_count", VInt (Z.of_nat (card_count self)))].

Definition cards_to_dict (self : t) : pyval :=
  VDict [("cards", VList (map FlashCard.to_dict (cards self)))].

Fixpoint load_cards (e : env) (items : list pyval) (acc : list FlashCard.t)
  : M nat (list FlashCard.t) :=
  match items with
  | [] => ret acc
  | card_data :: rest =>
      let* card := FlashCard.from_dict e card_data in
      load_cards e rest (acc ++ [card])
  end.

(** [cards_data] is [None] when the caller has no card file. *)
Definition from_dict (e : env) (set_data : pyval) (cards_data : pyval)
  : M nat t :=
  let* nm := lift (Py.getitem set_data "name") in
  let* descr := lift (Py.get_default set_data "description" (VStr "")) in
  let* flash_set := init e nm descr in
  let* ic := lift (Py.get_default set_data "icon_set" (VStr "default")) in
  let* tg := lift (Py.get_default set_data "tags" (VList [])) in
  let* dl := lift (Py.get_default set_data "difficulty_level" (VInt 1)) in
  let* cd := lift (Py.get_default set_data "created_date"
                     (created_date flash_set)) in
  let* la := lift (Py.get_default set_data "last_accessed" VNone) in
  let* cs :=
    (if truthy cards_data then
       let* lst := lift (Py.get_default cards_data "cards" (VList [])) in
       let* items := lift (Py.iter lst) in
       load_cards e items (cards flash_set)
     else ret (cards flash_set)) in
  ret (CardSet nm descr ic tg dl cd la cs).

(** [add_card(card)]; the argument is a [FlashCard] by its type. *)
Definition add_card (card : FlashCard.t) : M t unit :=
  let* self := get in
  put (set_cards (cards self ++ [card]) self).

(** [remove_card(card_id)] for a string [card_id]: a card stays when its
    identifier is not that string. *)
Definition remove_card (card_id : string) : M t unit :=
  let* self := get in
  put (set_cards
         (List.filter (fun card => negb (str_eqb (FlashCard.card_id card) card_id))
                      (cards self))
         self).

(** [get_card(card_id)] for a string [card_id]; [None] when absent. *)
Definition get_card (card_id : string) (self : t) : option FlashCard.t :=
  List.find (fun card => str_eqb (FlashCard.card_id card) card_id) (cards self).

Definition get_card_by_index (index : Z) (self : t) : result FlashCard.t :=
  if (0 <=? index)%Z && (index <? Z.of_nat (length (cards self)))%Z then
    match cards self !! Z.to_nat index with
    | Some card => Ok card
    | None => Raise IndexError
    end
  else Raise IndexError.

(** [get_cards_by_status(status)] for a string [status]. *)
Definition get_cards_by_status (status : string) (self : t)
  : list FlashCard.t :=
  List.filter (fun card => str_eqb (FlashCard.status card) status) (cards self).

(** [update_metadata(description, tags, difficulty, icon_set)]; an argument
    left out is [None].  [tags] that is not a list is wrapped in one;
    [difficulty] is an integer when given. *)
Definition update_metadata (descr tgs : pyval) (difficulty : option Z)
    (icon : pyval) : M t unit :=
  (match descr with
   | VNone => ret tt
   | v =>
       modify (fun s => CardSet (name s) v (icon_set s) (tags s)
                          (difficulty_level s) (created_date s)
                          (last_accessed s) (cards s))
   end);;
  (match tgs with
   | VNone => ret tt
   | v =>
       let v' := match v with VList _ => v | _ => VList [v] end in
       modify (fun s => CardSet (name s) (description s) (icon_set s) v'
                          (difficulty_level s) (created_date s)
                          (last_accessed s) (cards s))
   end);;
  (match difficulty with
   | Some z =>
       if (1 <=? z)%Z && (z <=? 5)%Z then
         modify (fun s => CardSet (name s) (description s) (icon_set s) (tags s)
                            (VInt z) (created_date s) (last_accessed s)
                            (cards s))
       else raise ValueError
   | None => ret tt
   end);;
  (match icon with
   | VNone => ret tt
   | v =>
       modify (fun s => CardSet (name s) (description s) v (tags s)
                          (difficulty_level s) (created_date s)
                          (last_accessed s) (cards s))
   end).

(** [create_empty_card()]: the new card and the set that holds it. *)
Definition create_empty_card (e : env) (self : t) : M nat (FlashCard.t * t) :=
  let* card := FlashCard.init e VNone in
  ret (card, set_cards (cards self ++ [card]) self).

End FlashCardSet.

(** ** The file system *)

Module FS.

(** What reading a file gives. *)
Inductive content : Type :=
| Json (v : pyval)       (* a JSON document *)
| Text (s : string)      (* UTF-8 text that is not JSON *)
| Binary (s : string).   (* bytes that are not UTF-8 text *)

Inductive node : Type :=
| File (c : content)
| Dir (entries : list (string * node)).

Abbreviation dir := (list (string * node)).

(** The entry [name] of a directory: what the code reaches with
    [parent / name] when [name] is the name of one entry. *)
Fixpoint lookup (es : dir) (name : string) : option node :=
  match es with
  | [] => None
  | (n, x) :: es' => if String.eqb n name then Some x else lookup es' name
  end.

Fixpoint remove (name : string) (es : dir) : dir :=
  match es with
  | [] => []
  | (n, x) :: es' =>
      if String.eqb n name then remove name es' else (n, x) :: remove name es'
  end.

(** Creates the entry, or replaces it where it stands. *)
Fixpoint store (name : string) (x : node) (es : dir) : dir :=
  match es with
  | [] => [(name, x)]
  | (n, y) :: es' =>
      if String.eqb n name then (name, x) :: es'
      else (n, y) :: store name x es'
  end.

(** The names that stand for one entry of a directory: [parent / name]
    is then the entry [name] of [parent].  Not the empty name, [.] and
    [..], not a name with a slash, a backslash or a null character, and
    at most 255 characters. *)
Definition is_entry_name (name : string) : bool :=
  negb (String.eqb name "") && negb (String.eqb name ".")
  && negb (String.eqb name "..")
  && forallb (fun c => negb (existsb (Ascii.eqb c) (map ascii_of_nat [47; 92; 0])))
             (list_ascii_of_string name)
  && (String.length name <=? 255)%nat.

(** [p.exists()], [p.is_dir()] for what stands at path [p]. *)
Definition exists_ (p : option node) : bool :=
  match p with Some _ => true | None => false end.
Definition is_dir (p : option node) : bool :=
  match p with Some (Dir _) => true | _ => false end.

(** [p / name] *)
Definition child (p : option node) (name : string) : option node :=
  match p with
  | Some (Dir es) => lookup es name
  | _ => None
  end.

(** [p.iterdir()] *)
Definition iterdir (p : option node) : result dir :=
  match p with
  | Some (Dir es) => Ok es
  | Some (File _) => Raise NotADirectoryError
  | None => Raise FileNotFoundError
  end.

(** [shutil.rmtree(parent / name)] *)
Definition rmtree (name : string) (parent : dir) : result dir :=
  match lookup parent name with
  | Some (Dir _) => Ok (remove name parent)
  | Some (File _) => Raise NotADirectoryError
  | None => Raise FileNotFoundError
  end.

(** [shutil.copytree(src, parent / name)] *)
Definition copytree (src : option node) (name : string) (parent : dir)
  : result dir :=
  match src with
  | Some (Dir t) =>
      match lookup parent name with
      | None => Ok (store name (Dir t) parent)
      | Some _ => Raise FileExistsError
      end
  | Some (File _) => Raise NotADirectoryError
  | None => Raise FileNotFoundError
  end.

(** [(parent / name).mkdir(parents=True, exist_ok=True)], the parent
    being there. *)
Definition mkdir (name : string) (parent : dir) : result dir :=
  match lookup parent name with
  | Some (Dir _) => Ok parent
  | Some (File _) => Raise FileExistsError
  | None => Ok (store name (Dir []) parent)
  end.

(** [with open(p, 'r', encoding='utf-8') as f: json.load(f)] *)
Definition read_json (p : option node) : result pyval :=
  match p with
  | Some (File (Json v)) => Ok v
  | Some (File (Text _)) => Raise JSONDecodeError
  | Some (File (Binary _)) => Raise UnicodeDecodeError
  | Some (Dir _) => Raise IsADirectoryError
  | None => Raise FileNotFoundError
  end.

(** Opening [parent / name] for writing and writing [c]. *)
Definition write_file (name : string) (c : content) (parent : dir)
  : result dir :=
  match lookup parent name with
  | Some (Dir _) => Raise IsADirectoryError
  | _ => Ok (store name (File c) parent)
  end.

(** [with open(p, 'w', encoding='utf-8') as f: json.dump(v, f, ...)] *)
Definition write_json (name : string) (v : pyval) (parent : dir)
  : result dir :=
  write_file name (Json v) parent.

(** The directory reached from [es] along [path]. *)
Fixpoint get_dir (es : dir) (path : list string) : option dir :=
  match path with
  | [] => Some es
  | n :: path' =>
      match lookup es n with
      | Some (Dir es') => get_dir es' path'
      | _ => None
      end
  end.

(** Replaces the directory reached along [path]. *)
Fixpoint put_dir (es : dir) (path : list string) (d : dir) : dir :=
  match path with
  | [] => d
  | n :: path' =>
      match lookup es n with
      | Some (Dir es') => store n (Dir (put_dir es' path' d)) es
      | _ => es
      end
  end.

(** [list(root.rglob(name))[0].parent]: the first directory, in the
    top-down order of [rglob], that has an entry [name]; the answer is
    its path from the root. *)
Fixpoint rglob_parent (name : string) (n : node) : option (list string) :=
  match n with
  | File _ => None
  | Dir es =>
      if exists_ (lookup es name) then Some []
      else
        (fix scan (l : dir) : option (list string) :=
           match l with
           | [] => None
           | (cn, c) :: l' =>
               match rglob_parent name c with
               | Some p => Some (cn :: p)
               | None => scan l'
               end
           end) es
  end.

End FS.

(** ** utils/file_manager.py *)

Module FileManager.

Definition dot : ascii := ascii_of_nat 46.
Definition space : ascii := ascii_of_nat 32.
Definition underscore : ascii := ascii_of_nat 95.

(** The character class of the regular expression, by code point:
    [<], [>], [:], the double quote, [/], the backslash, [|], [?], [*]. *)
Definition unsafe_chars : list ascii :=
  map ascii_of_nat [60; 62; 58; 34; 47; 92; 124; 63; 42].
Definition is_unsafe (c : ascii) : bool :=
  existsb (Ascii.eqb c) unsafe_chars.

(** [re.sub(class, '_', filename)] *)
Definition sub_unsafe (l : list ascii) : list ascii :=
  map (fun c => if is_unsafe c then underscore else c) l.

Fixpoint lstrip (p : ascii -> bool) (l : list ascii) : list ascii :=
  match l with
  | [] => []
  | c :: l' => if p c then lstrip p l' else l
  end.

(** [s.strip(chars)] *)
Definition strip (p : ascii -> bool) (l : list ascii) : list ascii :=
  rev (lstrip p (rev (lstrip p l))).

Definition space_or_dot (c : ascii) : bool :=
  Ascii.eqb c space || Ascii.eqb c dot.

(** [name.rfind('.')]: the position of the last dot. *)
Fixpoint rfind_dot (l : list ascii) : option nat :=
  match l with
  | [] => None
  | c :: l' =>
      match rfind_dot l' with
      | Some i => Some (S i)
      | None => if Ascii.eqb c dot then Some 0%nat else None
      end
  end.

(** The split point of [PurePath.suffix] and [PurePath.stem]: the last
    dot, unless it is the first or the last character of the name. *)
Definition suffix_start (name : list ascii) : option nat :=
  match rfind_dot name with
  | Some i =>
      if (0 <? i)%nat && (i <? length name - 1)%nat then Some i else None
  | None => None
  end.

Definition path_suffix (name : list ascii) : list ascii :=
  match suffix_start name with
  | Some i => drop i name
  | None => []
  end.

Definition path_stem (name : list ascii) : list ascii :=
  match suffix_start name with
  | Some i => take i name
  | None => name
  end.

(** The slice [l[:k]]; a negative [k] counts from the end. *)
Definition slice_to {A} (l : list A) (k : Z) : list A :=
  if (k <? 0)%Z then take (Z.to_nat (Z.max 0 (Z.of_nat (length l) + k))) l
  else take (Z.to_nat k) l.

Definition untitled : list ascii := list_ascii_of_string "untitled".

Definition safe_filename_chars (filename : list ascii) : list ascii :=
  let filename := sub_unsafe filename in
  let filename := strip space_or_dot filename in
  let filename := match filename with [] => untitled | _ => filename end in
  if (255 <? length filename)%nat then
    let name := path_stem filename in
    let ext := path_suffix filename in
    slice_to name (255 - Z.of_nat (length ext)) ++ ext
  else filename.

Definition safe_filename (filename : string) : string :=
  string_of_list_ascii (safe_filename_chars (list_ascii_of_string filename)).

(** [Path(name).stem] and [Path(name).suffix] of a one-component name. *)
Definition stem (name : string) : string :=
  string_of_list_ascii (path_stem (list_ascii_of_string name)).
Definition suffix (name : string) : string :=
  string_of_list_ascii (path_suffix (list_ascii_of_string name)).

(** [shutil.copy2(source, parent / dest_name)]: a destination that is
    a directory receives the file under the name of the source. *)
Definition copy2 (source_name : string) (source : option FS.node)
    (dest_name : string) (parent : FS.dir) : result FS.dir :=
  match source with
  | Some (FS.File c) =>
      match FS.lookup parent dest_name with
      | Some (FS.Dir inner) =>
          match FS.write_file source_name c inner with
          | Ok inner' => Ok (FS.store dest_name (FS.Dir inner') parent)
          | Raise ex => Raise ex
          end
      | _ => Ok (FS.store dest_name (FS.File c) parent)
      end
  | Some (FS.Dir _) => Raise IsADirectoryError
  | None => Raise FileNotFoundError
  end.

(** [copy_file(source, destination)], the directory of the destination
    being there: every failure is reported as [IOError]. *)
Definition copy_file (source_name : string) (source : option FS.node)
    (dest_name : string) (parent : FS.dir) : result FS.dir :=
  match copy2 source_name source dest_name parent with
  | Ok d => Ok d
  | Raise _ => Raise IOError
  end.

End FileManager.

(** ** vault/icon_manager.py *)

Module IconManager.

Record t : Type := IconMgr {
  icons_dir : FS.dir;                 (* the entries of [self.icons_path] *)
  available_icon_sets : list string
}.

Definition icon_sizes : list nat := [256; 128; 64; 32; 16]%nat.

(** [f"{size}.png"] *)
Definition icon_file (size : nat) : string := pretty size +:+ ".png".

(** [validate_icon_set(icon_set_path)], on what stands at the path. *)
Definition validate_icon_set (icon_set_path : option FS.node) : bool :=
  if negb (FS.exists_ icon_set_path) || negb (FS.is_dir icon_set_path)
  then false
  else forallb (fun size => FS.exists_ (FS.child icon_set_path (icon_file size)))
               icon_sizes.

(** The loop of [install_default_icon_collection] over the sizes. *)
Definition fill_default (e : env) (d : FS.dir) : FS.dir :=
  fold_left
    (fun d size =>
       if FS.exists_ (FS.lookup d (icon_file size)) then d
       else FS.store (icon_file size) (FS.File (FS.Binary (default_png e size))) d)
    icon_sizes d.

Definition install_default_icon_collection (e : env) : M t unit :=
  let* self := get in
  let* icons := lift (FS.mkdir "default" (icons_dir self)) in
  put (IconMgr icons (available_icon_sets self));;
  match FS.lookup icons "default" with
  | Some (FS.Dir d) =>
      put (IconMgr (FS.store "default" (FS.Dir (fill_default e d)) icons)
                   (available_icon_sets self))
  | _ => ret tt
  end.

Definition append_available (n : string) : M t unit :=
  modify (fun self => IconMgr (icons_dir self) (available_icon_sets self ++ [n])).

Definition refresh_available_icons (e : env) : M t unit :=
  modify (fun self => IconMgr (icons_dir self) []);;
  try_except
    (let* self := get in
     for_each (icons_dir self)
       (fun icon_dir =>
          if FS.is_dir (Some (snd icon_dir))
             && validate_icon_set (Some (snd icon_dir))
          then append_available (fst icon_dir)
          else ret tt);;
     let* self := get in
     if negb (existsb (String.eqb "default") (available_icon_sets self))
     then install_default_icon_collection e;; append_available "default"
     else ret tt)
    (fun _ => ret tt).

Definition get_available_icon_sets (self : t) : list string :=
  available_icon_sets self.

(** [delete_icon_set(icon_set_name)] *)
Definition delete_icon_set (e : env) (icon_set_name : string) : M t unit :=
  if String.eqb icon_set_name "default" then raise ValueError
  else
    let* self := get in
    if FS.exists_ (FS.lookup (icons_dir self) icon_set_name) then
      let* icons := lift (FS.rmtree icon_set_name (icons_dir self)) in
      put (IconMgr icons (available_icon_sets self));;
      refresh_available_icons e
    else raise FileNotFoundError.

End IconManager.

(** ** vault/vault_manager.py *)

Module VaultManager.

Record t : Type := Vault {
  sets_dir : FS.dir;                          (* entries of [self.sets_path] *)
  sets_cache : gmap string FlashCardSet.t;
  icon_manager : option IconManager.t;
  tick : nat                                  (* calls to the clock so far *)
}.

Definition set_sets_dir (d : FS.dir) (s : t) : t :=
  Vault d (sets_cache s) (icon_manager s) (tick s).
Definition set_sets_cache (c : gmap string FlashCardSet.t) (s : t) : t :=
  Vault (sets_dir s) c (icon_manager s) (tick s).
Definition set_icon_manager (im : option IconManager.t) (s : t) : t :=
  Vault (sets_dir s) (sets_cache s) im (tick s).
Definition set_tick (n : nat) (s : t) : t :=
  Vault (sets_dir s) (sets_cache s) (icon_manager s) n.

(** Runs a computation that only reads the clock and identifier source. *)
Definition with_tick {A} (m : M nat A) : M t A :=
  fun s => let '(r, n) := m (tick s) in (r, set_tick n s).

(** Runs a method of the icon manager [im] and stores the manager back. *)
Definition with_icons {A} (im : IconManager.t) (m : M IconManager.t A)
  : M t A :=
  fun s => let '(r, im') := m im in (r, set_icon_manager (Some im') s).

(** What an archive path holds. *)
Inductive zip_source : Type :=
| ZipMissing                  (* no such file *)
| ZipCorrupt                  (* not a ZIP archive *)
| ZipOf (tree : FS.dir).      (* the tree [extractall] unpacks *)

(** [zipfile.ZipFile(path, 'r').extractall(temp)] into an empty [temp]. *)
Definition extractall (z : zip_source) : result FS.dir :=
  match z with
  | ZipMissing => Raise FileNotFoundError
  | ZipCorrupt => Raise BadZipFile
  | ZipOf tree => Ok tree
  end.

(** A directory of [sets/] counts as a set when it holds [set.json]. *)
Definition is_set (n : FS.node) : bool :=
  FS.is_dir (Some n) && FS.exists_ (FS.child (Some n) "set.json").

Definition available (d : FS.dir) : list string :=
  merge_sort String.le (map fst (List.filter (fun kv => is_set (snd kv)) d)).

Definition get_available_sets : M t (list string) :=
  let* self := get in
  ret (available (sets_dir self)).

Definition load_set (e : env) (set_name : string) : M t FlashCardSet.t :=
  let* self := get in
  match sets_cache self !! set_name with
  | Some cached => ret cached
  | None =>
      let set_path := FS.lookup (sets_dir self) set_name in
      let set_file := FS.child set_path "set.json" in
      let cards_file := FS.child set_path "cards.json" in
      if negb (FS.exists_ set_file) then raise FileNotFoundError
      else
        try_except
          (let* set_data := lift (FS.read_json set_file) in
           let* cards_data :=
             (if FS.exists_ cards_file then lift (FS.read_json cards_file)
              else ret VNone) in
           let* flash_set :=
             with_tick (FlashCardSet.from_dict e set_data cards_data) in
           let* flash_set :=
             with_tick (FlashCardSet.update_last_accessed e flash_set) in
           modify (fun s => set_sets_cache (<[set_name := flash_set]> (sets_cache s)) s);;
           ret flash_set)
          (fun ex =>
             match ex with
             | JSONDecodeError => raise ValueError
             | _ => raise IOError
             end)
  end.

(** Applies a fallible update to the directory of the set [set_name]. *)
Definition in_set_dir (set_name : string) (f : FS.dir -> result FS.dir)
  : M t unit :=
  let* self := get in
  match FS.lookup (sets_dir self) set_name with
  | Some (FS.Dir d) =>
      let* d' := lift (f d) in
      put (set_sets_dir (FS.store set_name (FS.Dir d') (sets_dir self)) self)
  | Some (FS.File _) => raise NotADirectoryError
  | None => raise FileNotFoundError
  end.

Definition save_set (flash_card_set : FlashCardSet.t) : M t unit :=
  match FlashCardSet.name flash_card_set with
  | VStr set_name =>
      let* self := get in
      let* sets := lift (FS.mkdir set_name (sets_dir self)) in
      put (set_sets_dir sets self);;
      in_set_dir set_name (FS.mkdir "images");;
      in_set_dir set_name (FS.mkdir "sounds");;
      try_except
        (in_set_dir set_name
           (FS.write_json "set.json" (FlashCardSet.to_dict flash_card_set));;
         in_set_dir set_name
           (FS.write_json "cards.json" (FlashCardSet.cards_to_dict flash_card_set));;
         modify (fun s => set_sets_cache (<[set_name := flash_card_set]> (sets_cache s)) s))
        (fun _ => raise IOError)
  | _ => raise TypeError     (* [self.sets_path / set_name] *)
  end.

(** Whitespace in the sense of [str.strip()], for code points below 256. *)
Definition is_whitespace (c : ascii) : bool :=
  let n := nat_of_ascii c in
  ((9 <=? n) && (n <=? 13) || (28 <=? n) && (n <=? 32)
   || (n =? 133) || (n =? 160))%nat.

(** [validate_set_name(name)[0]] *)
Definition validate_set_name (name : string) : M t bool :=
  let chars := list_ascii_of_string name in
  if negb (truthy (VStr name))
     || (length (FileManager.strip is_whitespace chars) =? 0)%nat
  then ret false
  else if (128 <? length chars)%nat then ret false
  else if existsb (fun char => existsb (Ascii.eqb char) chars)
                  FileManager.unsafe_chars
  then ret false
  else
    let* sets := get_available_sets in
    if bool_decide (name ∈ sets) then ret false else ret true.

(** *** Single-set import *)

(** [import_name in names], for a value that need not be a string. *)
Definition name_in (import_name : pyval) (names : list string) : bool :=
  match import_name with
  | VStr n => bool_decide (n ∈ names)
  | _ => false
  end.

(** The merge of one bundled icon set in [import_set]: an icon set that
    is already there is replaced only when it does not validate. *)
Definition import_icon_set (icon_set_dir : string * FS.node)
  : M IconManager.t unit :=
  if FS.is_dir (Some (snd icon_set_dir)) then
    let icon_set_name := fst icon_set_dir in
    let* im := get in
    let icon_set_dest := FS.lookup (IconManager.icons_dir im) icon_set_name in
    if FS.exists_ icon_set_dest then
      if negb (IconManager.validate_icon_set icon_set_dest) then
        let* icons := lift (FS.rmtree icon_set_name (IconManager.icons_dir im)) in
        put (IconManager.IconMgr icons (IconManager.available_icon_sets im));;
        let* icons := lift (FS.copytree (Some (snd icon_set_dir)) icon_set_name icons) in
        put (IconManager.IconMgr icons (IconManager.available_icon_sets im))
      else ret tt
    else
      let* icons := lift (FS.copytree (Some (snd icon_set_dir)) icon_set_name
                                      (IconManager.icons_dir im)) in
      put (IconManager.IconMgr icons (IconManager.available_icon_sets im))
  else ret tt.

(** [import_set(zip_path, new_name)]; [new_name] is [None] by default.
    The suggested name that the conflict branch computes goes into the
    message of the exception only.  [import_name != original_name] can
    hold only when [new_name] was given, since [import_name] is
    [original_name] otherwise. *)
Definition import_set (e : env) (zip_path : zip_source)
    (new_name : option string) : M t string :=
  try_except
    (let* temp := lift (extractall zip_path) in
     match FS.rglob_parent "set.json" (FS.Dir temp) with
     | None => raise ValueError
     | Some parent =>
         let set_source := default [] (FS.get_dir temp parent) in
         let* set_data := lift (FS.read_json (FS.lookup set_source "set.json")) in
         let* original_name :=
           lift (Py.get_default set_data "name" (VStr "Unknown")) in
         let given :=
           match new_name with
           | Some n => truthy (VStr n)
           | None => false
           end in
         let import_name :=
           if given then VStr (default "" new_name) else original_name in
         let* sets := get_available_sets in
         if name_in import_name sets then raise ValueError
         else
           let* temp :=
             (if given && negb (str_eqb original_name (default "" new_name))
              then
                let* set_data := lift (Py.setitem set_data "name" import_name) in
                let* src := lift (FS.write_json "set.json" set_data set_source) in
                ret (FS.put_dir temp parent src)
              else ret temp) in
           let set_source := default [] (FS.get_dir temp parent) in
           match import_name with
           | VStr import_name =>
               let* self := get in
               let* sets :=
                 (if FS.exists_ (FS.lookup (sets_dir self) import_name)
                  then lift (FS.rmtree import_name (sets_dir self))
                  else ret (sets_dir self)) in
               put (set_sets_dir sets self);;
               let* sets := lift (FS.copytree (Some (FS.Dir set_source)) import_name sets) in
               modify (set_sets_dir sets);;
               let* self := get in
               match icon_manager self with
               | Some im =>
                   let icons_source := FS.lookup temp "icons" in
                   if FS.exists_ icons_source && FS.is_dir icons_source then
                     let* bundled := lift (FS.iterdir icons_source) in
                     with_icons im
                       (for_each bundled import_icon_set;;
                        IconManager.refresh_available_icons e)
                   else ret tt
               | None => ret tt
               end;;
               ret import_name
           | _ => raise TypeError      (* [self.sets_path / import_name] *)
           end
     end)
    (fun ex =>
       match ex with
       | BadZipFile => raise ValueError
       | _ => raise IOError
       end).

(** *** Vault import, merge mode *)

(** What the conflict dialog was closed with.  [Closed] is a dialog
    dismissed without pressing a button ([result_action] stays [None]). *)
Inductive decision : Type :=
| Import (new_name : string)
| Ignore
| IgnoreAll
| Closed.

(** The interactive decision-maker: [None] when [PYQT_AVAILABLE] is
    false, otherwise the answer of the dialog opened with the
    conflicting name and the suggested name. *)
Definition resolver : Type := option (string -> string -> decision).

Record import_results : Type := Results {
  imported : list string;
  ignored : list string;
  renamed : list (string * string)
}.

Record merge_state : Type := MergeState {
  existing_sets : gset string;
  results : import_results;
  ignore_all : bool
}.

Definition add_ignored (n : string) (ms : merge_state) : merge_state :=
  MergeState (existing_sets ms)
    (Results (imported (results ms)) (ignored (results ms) ++ [n])
             (renamed (results ms)))
    (ignore_all ms).
Definition add_renamed (o n : string) (ms : merge_state) : merge_state :=
  MergeState (existing_sets ms)
    (Results (imported (results ms)) (ignored (results ms))
             (renamed (results ms) ++ [(o, n)]))
    (ignore_all ms).
Definition add_imported (n : string) (ms : merge_state) : merge_state :=
  MergeState ({[n]} ∪ existing_sets ms)
    (Results (imported (results ms) ++ [n]) (ignored (results ms))
             (renamed (results ms)))
    (ignore_all ms).
Definition set_ignore_all (ms : merge_state) : merge_state :=
  MergeState (existing_sets ms) (results ms) true.

(** [f"{original_name} {counter}"] *)
Definition numbered (original_name : string) (counter : nat) : string :=
  original_name +:+ " " +:+ pretty counter.

(** The loop [while import_name in existing_sets: counter += 1;
    import_name = f"{original_name} {counter}"], entered with the
    candidate for [counter].  It runs at most [fuel] rounds; [fuel] is
    the number of existing names, which no run exceeds. *)
Fixpoint rename_loop (fuel : nat) (existing : gset string)
    (original_name : string) (counter : nat) : nat :=
  match fuel with
  | O => counter
  | S fuel' =>
      if bool_decide (numbered original_name counter ∈ existing)
      then rename_loop fuel' existing original_name (S counter)
      else counter
  end.

Definition auto_rename (existing : gset string) (original_name : string)
  : nat :=
  rename_loop (size existing) existing original_name 2.

(** Merging the bundled icon sets in [import_vault]. *)
Definition merge_icon_set (icon_set_dir : string * FS.node)
  : M IconManager.t unit :=
  if FS.is_dir (Some (snd icon_set_dir)) then
    let icon_set_name := fst icon_set_dir in
    let* im := get in
    let icon_set_dest := FS.lookup (IconManager.icons_dir im) icon_set_name in
    let* icons :=
      (if FS.exists_ icon_set_dest
       then lift (FS.rmtree icon_set_name (IconManager.icons_dir im))
       else ret (IconManager.icons_dir im)) in
    put (IconManager.IconMgr icons (IconManager.available_icon_sets im));;
    let* icons := lift (FS.copytree (Some (snd icon_set_dir)) icon_set_name icons) in
    put (IconManager.IconMgr icons (IconManager.available_icon_sets im))
  else ret tt.

(** The body of the inner [try] of the loop over the staged sets. *)
Definition copy_set (e : env) (set_dir : FS.node)
    (original_name import_name : string) : M t unit :=
  let* self := get in
  let* sets :=
    (if FS.exists_ (FS.lookup (sets_dir self) import_name)
     then lift (FS.rmtree import_name (sets_dir self))
     else ret (sets_dir self)) in
  put (set_sets_dir sets self);;
  let* sets := lift (FS.copytree (Some set_dir) import_name sets) in
  modify (set_sets_dir sets);;
  if negb (String.eqb import_name original_name) then
    let set_json_path := FS.child (FS.lookup sets import_name) "set.json" in
    if FS.exists_ set_json_path then
      try_except
        (let* set_data := lift (FS.read_json set_json_path) in
         let* set_data := lift (Py.setitem set_data "name" (VStr import_name)) in
         let* stamp := with_tick (now e) in
         let* set_data := lift (Py.setitem set_data "last_modified" stamp) in
         in_set_dir import_name (FS.write_json "set.json" set_data))
        (fun ex =>
           match ex with
           | JSONDecodeError | KeyError => ret tt
           | _ => raise ex
           end)
    else ret tt
  else ret tt.

(** Conflict resolution for one staged set: [None] stands for
    [continue], [Some import_name] for going on to the copy. *)
Definition resolve (ui : resolver) (original_name : string)
    (ms : merge_state) : M t (option string * merge_state) :=
  if bool_decide (original_name ∈ existing_sets ms) then
    if ignore_all ms then ret (None, add_ignored original_name ms)
    else
      match ui with
      | Some dialog =>
          let suggested_name :=
            numbered original_name (auto_rename (existing_sets ms) original_name) in
          match dialog original_name suggested_name with
          | Ignore => ret (None, add_ignored original_name ms)
          | IgnoreAll =>
              ret (None, add_ignored original_name (set_ignore_all ms))
          | Import new_name =>
              let* valid := validate_set_name new_name in
              if negb valid then ret (None, add_ignored original_name ms)
              else ret (Some new_name, add_renamed original_name new_name ms)
          | Closed => ret (Some original_name, ms)
          end
      | None =>
          let import_name :=
            numbered original_name (auto_rename (existing_sets ms) original_name) in
          ret (Some import_name, add_renamed original_name import_name ms)
      end
  else ret (Some original_name, ms).

(** One round of [for set_dir in imported_sets_path.iterdir()]. *)
Definition import_step (e : env) (ui : resolver)
    (set_dir : string * FS.node) (ms : merge_state) : M t merge_state :=
  if negb (FS.is_dir (Some (snd set_dir))) then ret ms
  else
    let original_name := fst set_dir in
    let* r := resolve ui original_name ms in
    match r with
    | (None, ms) => ret ms
    | (Some import_name, ms) =>
        try_except
          (copy_set e (snd set_dir) original_name import_name;;
           ret (add_imported import_name ms))
          (fun _ => ret (add_ignored original_name ms))
    end.

Fixpoint import_loop (e : env) (ui : resolver) (staged : FS.dir)
    (ms : merge_state) : M t merge_state :=
  match staged with
  | [] => ret ms
  | set_dir :: rest =>
      let* ms := import_step e ui set_dir ms in
      import_loop e ui rest ms
  end.

(** Where the staged sets are: under [vault/] when the archive has such a
    directory, at the top otherwise. *)
Definition imported_sets_path (temp : FS.dir) : option FS.node :=
  let temp_path := FS.lookup temp "vault" in
  if FS.exists_ temp_path then FS.child temp_path "sets"
  else FS.lookup temp "sets".

Definition imported_icons_path (temp : FS.dir) : option FS.node :=
  FS.lookup temp "icons".

(** The merge of the bundled icon sets, first part of the merge branch. *)
Definition merge_icons (e : env) (temp : FS.dir) : M t unit :=
  let* self := get in
  match icon_manager self with
  | Some im =>
      if FS.exists_ (imported_icons_path temp) then
        let* bundled := lift (FS.iterdir (imported_icons_path temp)) in
        with_icons im
          (for_each bundled merge_icon_set;;
           IconManager.refresh_available_icons e)
      else ret tt
  | None => ret tt
  end.

(** The state in which the loop over the staged sets starts:
    [existing_sets = set(self.get_available_sets())], empty results,
    [ignore_all = False]. *)
Definition merge_start (sets : list string) : merge_state :=
  MergeState (list_to_set sets) (Results [] [] []) false.

(** [import_vault(vault_zip_path, merge_mode)] for [merge_mode == "merge"].
    The answer is the dictionary of results, or [None] when the archive
    has no sets directory. *)
Definition import_vault_merge (e : env) (ui : resolver)
    (vault_zip_path : zip_source) : M t (option import_results) :=
  try_except
    (let* temp := lift (extractall vault_zip_path) in
     merge_icons e temp;;
     if FS.exists_ (imported_sets_path temp) then
       let* sets := get_available_sets in
       let ms := merge_start sets in
       let* staged := lift (FS.iterdir (imported_sets_path temp)) in
       let* ms := import_loop e ui staged ms in
       ret (Some (results ms))
     else
       modify (set_sets_cache ∅);;
       ret None)
    (fun ex =>
       match ex with
       | BadZipFile => raise ValueError
       | _ => raise IOError
       end).

(** *** Media files *)

(** [f"{stem}_{counter}{suffix}"] *)
Definition suffixed (safe_name : string) (counter : nat) : string :=
  FileManager.stem safe_name +:+ "_" +:+ pretty counter
    +:+ FileManager.suffix safe_name.

(** The loop [while dest_path.exists(): dest_path = dest_dir /
    f"{stem}_{counter}{suffix}"; counter += 1], at most [fuel] rounds;
    [fuel] is the number of entries of the directory. *)
Fixpoint free_name_loop (fuel : nat) (dest_dir : FS.dir)
    (safe_name dest_name : string) (counter : nat) : string :=
  match fuel with
  | O => dest_name
  | S fuel' =>
      if FS.exists_ (FS.lookup dest_dir dest_name)
      then free_name_loop fuel' dest_dir safe_name
             (suffixed safe_name counter) (S counter)
      else dest_name
  end.

(** [copy_media_file(source_path, set_name, media_type)]: the source
    path is given by its last component and by what stands there.  The
    single [mkdir(parents=True, exist_ok=True)] of the media directory
    is taken in two steps, the directory of the set first. *)
Definition copy_media_file (source_name : string) (source : option FS.node)
    (set_name media_type : string) : M t string :=
  if negb (existsb (String.eqb media_type) ["image"; "audio"; "video"])
  then raise ValueError
  else if negb (FS.exists_ source) then raise FileNotFoundError
  else
    let sub := if String.eqb media_type "image" then "images" else "sounds" in
    let* self := get in
    (match FS.lookup (sets_dir self) set_name with
     | Some (FS.File _) => raise NotADirectoryError
     | Some (FS.Dir _) => ret tt
     | None => put (set_sets_dir (FS.store set_name (FS.Dir []) (sets_dir self)) self)
     end);;
    in_set_dir set_name (FS.mkdir sub);;
    let* self := get in
    let dest_dir :=
      match FS.child (FS.lookup (sets_dir self) set_name) sub with
      | Some (FS.Dir d) => d
      | _ => []
      end in
    let safe_name := FileManager.safe_filename source_name in
    let dest_name :=
      free_name_loop (length dest_dir) dest_dir safe_name safe_name 1 in
    in_set_dir set_name
      (fun d =>
         match FileManager.copy_file source_name source dest_name dest_dir with
         | Ok dest_dir' => Ok (FS.store sub (FS.Dir dest_dir') d)
         | Raise ex => Raise ex
         end);;
    ret dest_name.

(** *** The other operations on sets *)

(** [get_set_metadata(set_name)] *)
Definition get_set_metadata (set_name : string) : M t pyval :=
  let* self := get in
  let set_file := FS.child (FS.lookup (sets_dir self) set_name) "set.json" in
  if negb (FS.exists_ set_file) then raise FileNotFoundError
  else
    try_except (lift (FS.read_json set_file))
      (fun ex =>
         match ex with
         | JSONDecodeError => raise ValueError
         | _ => raise ex
         end).

(** [create_set(name, description, icon_set, tags, difficulty)] *)
Definition create_set (e : env) (name : string)
    (description icon_set tags difficulty : pyval) : M t FlashCardSet.t :=
  let* valid := validate_set_name name in
  if negb valid then raise ValueError
  else
    let* flash_set := with_tick (FlashCardSet.init e (VStr name) description) in
    let flash_set :=
      FlashCardSet.CardSet (FlashCardSet.name flash_set)
        (FlashCardSet.description flash_set) icon_set
        (if truthy tags then tags else VList []) difficulty
        (FlashCardSet.created_date flash_set)
        (FlashCardSet.last_accessed flash_set) (FlashCardSet.cards flash_set) in
    let* r := with_tick (FlashCardSet.create_empty_card e flash_set) in
    let flash_set := snd r in
    save_set flash_set;;
    ret flash_set.

(** [delete_set(set_name)] *)
Definition delete_set (set_name : string) : M t unit :=
  let* self := get in
  if negb (FS.exists_ (FS.lookup (sets_dir self) set_name))
  then raise FileNotFoundError
  else
    try_except
      (let* sets := lift (FS.rmtree set_name (sets_dir self)) in
       put (set_sets_dir sets self);;
       modify (fun s => set_sets_cache (delete set_name (sets_cache s)) s))
      (fun _ => raise IOError).


(** [shutil.move(sets / old_name, sets / new_name)] to a free place. *)
Definition move (old_name new_name : string) (parent : FS.dir)
  : result FS.dir :=
  match FS.lookup parent old_name with
  | Some x => Ok (FS.store new_name x (FS.remove old_name parent))
  | None => Raise FileNotFoundError
  end.

(** [rename_set(old_name, new_name)] *)
Definition rename_set (old_name new_name : string) : M t unit :=
  if String.eqb old_name new_name then ret tt
  else
    let* valid := validate_set_name new_name in
    if negb valid then raise ValueError
    else
      let* self := get in
      if negb (FS.exists_ (FS.lookup (sets_dir self) old_name))
      then raise FileNotFoundError
      else if FS.exists_ (FS.lookup (sets_dir self) new_name)
      then raise ValueError
      else
        try_except
          (let* sets := lift (move old_name new_name (sets_dir self)) in
           put (set_sets_dir sets self);;
           let* self := get in
           match sets_cache self !! old_name with
           | Some flash_set =>
               put (set_sets_cache
                      (<[new_name := FlashCardSet.set_name (VStr new_name) flash_set]>
                         (delete old_name (sets_cache self)))
                      self)
           | None => ret tt
           end)
          (fun _ => raise IOError).

(** The findings of [validate_vault_integrity]; each stands for the
    message of that kind, with the name of the set. *)
Inductive issue : Type :=
| MissingSetJson (set_name : string)
| MissingCardsJson (set_name : string)
| InvalidMetadata (set_name : string)
| MissingImagesDir (set_name : string)
| MissingSoundsDir (set_name : string).

(** The checks of one set, in the order of the source. *)
Definition set_issues (set_name : string) (s : t) : list issue :=
  let set_path := FS.lookup (sets_dir s) set_name in
  (if negb (FS.exists_ (FS.child set_path "set.json"))
   then [MissingSetJson set_name] else [])
  ++ (if negb (FS.exists_ (FS.child set_path "cards.json"))
      then [MissingCardsJson set_name] else [])
  ++ (match fst (get_set_metadata set_name s) with
      | Ok _ => []
      | Raise _ => [InvalidMetadata set_name]
      end)
  ++ (if negb (FS.exists_ (FS.child set_path "images"))
      then [MissingImagesDir set_name] else [])
  ++ (if negb (FS.exists_ (FS.child set_path "sounds"))
      then [MissingSoundsDir set_name] else []).

(** [validate_vault_integrity()]: whether the vault is sound, and the
    findings. *)
Definition validate_vault_integrity (s : t) : bool * list issue :=
  let issues := flat_map (fun set_name => set_issues set_name s)
                         (available (sets_dir s)) in
  (match issues with [] => true | _ => false end, issues).

(** What a block refers to, as [cleanup_unused_media] collects it: the
    first of [image_path], [audio_path], [video_path] that the block has
    and that is true.  Only a string can be the name of a file; a list or
    a dictionary cannot be put into the set of references. *)
Definition media_reference (b : ContentBlock.t) : result (option string) :=
  let path :=
    match ContentBlock.content b with
    | ContentBlock.ImageBlock ip _ _ _ => ip
    | ContentBlock.AudioBlock ap _ _ => ap
    | ContentBlock.VideoBlock vp _ _ _ => vp
    | ContentBlock.TextBlock _ _ _ => VNone
    end in
  if truthy path then
    match path with
    | VStr f => Ok (Some f)
    | VList _ | VDict _ => Raise TypeError
    | _ => Ok None
    end
  else Ok None.

Fixpoint collect_references (blocks : list ContentBlock.t)
    (acc : list string) : result (list string) :=
  match blocks with
  | [] => Ok acc
  | b :: rest =>
      match media_reference b with
      | Ok (Some f) => collect_references rest (acc ++ [f])
      | Ok None => collect_references rest acc
      | Raise ex => Raise ex
      end
  end.

(** The blocks of all cards, information side before answer side. *)
Definition all_blocks (flash_set : FlashCardSet.t) : list ContentBlock.t :=
  flat_map (fun card => FlashCard.information_side card
                          ++ FlashCard.answer_side card)
           (FlashCardSet.cards flash_set).

Definition is_file (x : FS.node) : bool :=
  match x with FS.File _ => true | FS.Dir _ => false end.

(** The sweep of one media folder: the files kept and the names removed. *)
Definition sweep (referenced : list string) (media : FS.dir)
  : FS.dir * list string :=
  (List.filter
     (fun fx => negb (is_file (snd fx) && negb (bool_decide (fst fx ∈ referenced))))
     media,
   map fst
     (List.filter
        (fun fx => is_file (snd fx) && negb (bool_decide (fst fx ∈ referenced)))
        media)).

(** One round of [for media_dir in ["images", "sounds"]]. *)
Definition cleanup_folder (set_name media_dir : string)
    (referenced : list string) (removed : list (string * string))
  : M t (list (string * string)) :=
  let* self := get in
  let media_path := FS.child (FS.lookup (sets_dir self) set_name) media_dir in
  if FS.exists_ media_path then
    let* media := lift (FS.iterdir media_path) in
    let '(kept, gone) := sweep referenced media in
    in_set_dir set_name (fun d => Ok (FS.store media_dir (FS.Dir kept) d));;
    ret (removed ++ map (fun f => (media_dir, f)) gone)
  else ret removed.

(** [cleanup_unused_media(set_name)]: the files removed, each with its
    folder. *)
Definition cleanup_unused_media (e : env) (set_name : string)
  : M t (list (string * string)) :=
  try_except
    (let* flash_set := load_set e set_name in
     let* referenced := lift (collect_references (all_blocks flash_set) []) in
     let* removed := cleanup_folder set_name "images" referenced [] in
     cleanup_folder set_name "sounds" referenced removed)
    (fun _ => raise IOError).

(** *** Export of one set *)







End VaultManager.

(** * Properties *)

(** ** Tactics for the monad *)

Ltac munfold :=
  unfold bind, ret, raise, lift, get, put, modify, try_except in *.

(** Splits the goal along the next [match] or [if] of the computation. *)
Ltac mcase :=
  match goal with
  | |- context [match ?x with _ => _ end] =>
      lazymatch x with
      | context [match _ with _ => _ end] => fail
      | _ => destruct x eqn:?
      end
  end.

(** Splits on the next [match] or [if] of the computation in [H]. *)
Ltac destruct_head H :=
  match type of H with
  | context [match ?x with _ => _ end] =>
      lazymatch x with
      | context [match _ with _ => _ end] => fail
      | _ => destruct x eqn:?
      end
  | context [if ?x then _ else _] =>
      lazymatch x with
      | context [match _ with _ => _ end] => fail
      | context [if _ then _ else _] => fail
      | _ => destruct x eqn:?
      end
  end.

(** ** Python lists *)

Section PyLists.
Context {A : Type}.
Implicit Types (l : list A) (x : A).

Lemma index_in_range l (i : Z) :
  (0 <= i < Z.of_nat (length l))%Z -> Py.index l i = Some (Z.to_nat i).
Proof.
  intros [H0 H1]. unfold Py.index.
  apply Z.leb_le in H0. apply Z.ltb_lt in H1. by rewrite H0, H1.
Qed.

Lemma pop_in_range l (i : Z) :
  (0 <= i < Z.of_nat (length l))%Z ->
  exists x, l !! Z.to_nat i = Some x
    /\ Py.pop l i = Ok (x, take (Z.to_nat i) l ++ drop (S (Z.to_nat i)) l).
Proof.
  intros Hi. unfold Py.pop. rewrite (index_in_range l i Hi).
  destruct (l !! Z.to_nat i) as [x|] eqn:Hx.
  - by exists x.
  - apply lookup_ge_None in Hx. lia.
Qed.

Lemma insert_in_range l (i : Z) x :
  (0 <= i <= Z.of_nat (length l))%Z ->
  Py.insert l i x = take (Z.to_nat i) l ++ x :: drop (Z.to_nat i) l.
Proof.
  intros [H0 H1]. unfold Py.insert.
  destruct (i <? 0)%Z eqn:Hneg; [apply Z.ltb_lt in Hneg; lia|].
  by rewrite Z.min_l.
Qed.

(** Taking an element out and putting it back anywhere permutes. *)
Lemma pop_insert_Permutation l (i k : nat) x :
  l !! i = Some x ->
  take k (take i l ++ drop (S i) l) ++ x :: drop k (take i l ++ drop (S i) l)
    ≡ₚ l.
Proof.
  intros Hx.
  rewrite <- Permutation_middle, take_drop.
  rewrite <- (take_drop_middle l i x Hx) at 3.
  by rewrite <- Permutation_middle.
Qed.

Lemma length_without l (i : nat) x :
  l !! i = Some x -> length (take i l ++ drop (S i) l) = pred (length l).
Proof.
  intros Hx. apply lookup_lt_Some in Hx.
  rewrite length_app, length_take, length_drop. lia.
Qed.

Lemma lookup_inserted l (k : nat) x :
  k <= length l -> (take k l ++ x :: drop k l) !! k = Some x.
Proof.
  intros Hk. rewrite lookup_app_r; rewrite length_take; [|lia].
  by replace (k - k `min` length l) with 0 by lia.
Qed.
End PyLists.

(** ** FlashCardSet.move_card *)

Section MoveCard.
Import FlashCardSet.

Definition in_range (s : FlashCardSet.t) (i : Z) : Prop :=
  (0 <= i < Z.of_nat (card_count s))%Z.

Lemma move_card_guard (s : FlashCardSet.t) (i j : Z) :
  let n := Z.of_nat (length (cards s)) in
  ((0 <=? i)%Z && (i <? n)%Z && ((0 <=? j)%Z && (j <? n)%Z)) = true
  <-> in_range s i /\ in_range s j.
Proof.
  unfold in_range, card_count. cbv zeta.
  rewrite !andb_true_iff, !Z.leb_le, !Z.ltb_lt. tauto.
Qed.

(** C10.  With both indices within [0 .. card_count - 1], [move_card]
    returns normally, the new card sequence is a permutation of the old
    one (so no card is added, removed or modified, the identifiers and
    the count are the same), the card that stood at [from_index] stands
    at [to_index], and the metadata are untouched.  With an index out of
    that range it raises [IndexError] and the set is as it was. *)
Theorem move_card_spec (s : FlashCardSet.t) (from_index to_index : Z) :
  (in_range s from_index /\ in_range s to_index ->
     exists s',
       move_card from_index to_index s = (Ok tt, s')
       /\ cards s' ≡ₚ cards s
       /\ map FlashCard.card_id (cards s') ≡ₚ map FlashCard.card_id (cards s)
       /\ card_count s' = card_count s
       /\ cards s' !! Z.to_nat to_index = cards s !! Z.to_nat from_index
       /\ s' = set_cards (cards s') s)
  /\ (~ (in_range s from_index /\ in_range s to_index) ->
        move_card from_index to_index s = (Raise IndexError, s)).
Proof.
  split.
  - intros [Hf Ht].
    assert (Hg := proj2 (move_card_guard s from_index to_index) (conj Hf Ht)).
    unfold move_card. munfold. cbv zeta in Hg. rewrite Hg. simpl.
    destruct (pop_in_range (cards s) from_index Hf) as (x & Hx & Hpop).
    rewrite Hpop. simpl.
    assert (Hlen := length_without (cards s) _ x Hx).
    unfold in_range, card_count in Hf, Ht.
    rewrite insert_in_range by (rewrite Hlen; lia).
    eexists. split; [reflexivity|]. simpl.
    assert (HP := pop_insert_Permutation (cards s) (Z.to_nat from_index)
                    (Z.to_nat to_index) x Hx).
    split; [exact HP|]. split; [by rewrite HP|].
    split; [unfold card_count; simpl; by rewrite HP|].
    split; [|reflexivity].
    rewrite Hx. apply lookup_inserted. rewrite Hlen. lia.
  - intros Hn. unfold move_card. munfold.
    destruct (_ && _) eqn:Hg; [|reflexivity].
    apply move_card_guard in Hg. contradiction.
Qed.

Definition three_cards : FlashCardSet.t :=
  CardSet (VStr "Deck") (VStr "") (VStr "default") (VList []) (VInt 1)
    (VStr "2024-01-01T00:00:00") VNone
    [FlashCard.Card (VStr "a") [] [] (VStr "Unknown") (VStr "t") VNone;
     FlashCard.Card (VStr "b") [] [] (VStr "Known") (VStr "t") VNone;
     FlashCard.Card (VStr "c") [] [] (VStr "Review") (VStr "t") VNone].

Lemma move_card_spec_witness :
  (in_range three_cards 0 /\ in_range three_cards 2)
  /\ exists s',
       move_card 0 2 three_cards = (Ok tt, s')
       /\ cards s' ≡ₚ cards three_cards
       /\ map FlashCard.card_id (cards s')
            ≡ₚ map FlashCard.card_id (cards three_cards)
       /\ card_count s' = card_count three_cards
       /\ cards s' !! Z.to_nat 2 = cards three_cards !! Z.to_nat 0
       /\ s' = set_cards (cards s') three_cards.
Proof.
  assert (H : in_range three_cards 0 /\ in_range three_cards 2)
    by (unfold in_range, card_count, three_cards; cbn; lia).
  split; [exact H|].
  exact (proj1 (move_card_spec three_cards 0 2) H).
Defined.

Example move_card_first_to_last :
  map FlashCard.card_id (cards (snd (move_card 0 2 three_cards)))
  = [VStr "b"; VStr "c"; VStr "a"].
Proof. reflexivity. Qed.

Example move_card_negative_index :
  move_card (-1) 0 three_cards = (Raise IndexError, three_cards).
Proof. reflexivity. Qed.
End MoveCard.

(** ** The cap of ten blocks per side *)

Section BlockCap.
Import FlashCard.

Definition within_cap (c : FlashCard.t) : Prop :=
  length (information_side c) <= 10 /\ length (answer_side c) <= 10.

(** A card dictionary whose information side lists eleven text blocks. *)
Definition eleven_blocks : pyval :=
  VDict [("card_id", VStr "card-1");
         ("information_side",
           VList (repeat (VDict [("block_type", VStr "text")]) 11));
         ("answer_side", VList [])].

Lemma init_within_cap (e : env) (cid : pyval) (t : nat) :
  exists c t', init e cid t = (Ok c, t') /\ within_cap c.
Proof.
  unfold init. munfold. destruct (truthy cid); simpl;
    eexists _, _; (split; [reflexivity|]); unfold within_cap; simpl; lia.
Qed.

(** On a full side [add_block_to_side] raises [ValueError] and the card is
    as it was. *)
Lemma add_block_full (side : string) (b : ContentBlock.t) (c : FlashCard.t) :
  (side = "information" /\ 10 <= length (information_side c))
  \/ (side = "answer" /\ 10 <= length (answer_side c)) ->
  add_block_to_side side b c = (Raise ValueError, c).
Proof.
  intros [[-> H]|[-> H]]; unfold add_block_to_side; munfold;
    apply Nat.leb_le in H; cbn [String.eqb Ascii.eqb Bool.eqb]; by rewrite H.
Qed.

Lemma add_block_within_cap side b c r c' :
  within_cap c -> add_block_to_side side b c = (r, c') -> within_cap c'.
Proof.
  unfold add_block_to_side, within_cap. munfold. intros [Hi Ha] H.
  destruct (String.eqb side "information").
  - destruct (10 <=? length (information_side c))%nat eqn:Hl;
      injection H as <- <-; simpl; [lia|].
    apply Nat.leb_gt in Hl. rewrite length_app. simpl. lia.
  - destruct (String.eqb side "answer"); [|injection H as <- <-; lia].
    destruct (10 <=? length (answer_side c))%nat eqn:Hl;
      injection H as <- <-; simpl; [lia|].
    apply Nat.leb_gt in Hl. rewrite length_app. simpl. lia.
Qed.

Lemma length_pop {A} (l : list A) (i : Z) x l' :
  Py.pop l i = Ok (x, l') -> S (length l') = length l.
Proof.
  unfold Py.pop. destruct (Py.index l i) as [k|]; [|done].
  destruct (l !! k) as [y|] eqn:Hy; [|done].
  intros [= <- <-]. rewrite (length_without l k y Hy).
  apply lookup_lt_Some in Hy. lia.
Qed.

Lemma length_py_insert {A} (l : list A) (i : Z) x :
  length (Py.insert l i x) = S (length l).
Proof.
  unfold Py.insert. rewrite length_app. simpl.
  rewrite length_take, length_drop. lia.
Qed.

Lemma remove_block_within_cap side i c r c' :
  within_cap c -> remove_block_from_side side i c = (r, c') -> within_cap c'.
Proof.
  unfold remove_block_from_side, within_cap. munfold. intros [Hi Ha] H.
  destruct (String.eqb side "information").
  - destruct (_ && _); [|injection H as <- <-; lia].
    destruct (Py.pop (information_side c) i) as [[x l']|] eqn:Hp;
      injection H as <- <-; simpl; [|lia].
    apply length_pop in Hp. lia.
  - destruct (String.eqb side "answer"); [|injection H as <- <-; lia].
    destruct (_ && _); [|injection H as <- <-; lia].
    destruct (Py.pop (answer_side c) i) as [[x l']|] eqn:Hp;
      injection H as <- <-; simpl; [|lia].
    apply length_pop in Hp. lia.
Qed.

Lemma move_block_within_cap side i j c r c' :
  within_cap c -> move_block side i j c = (r, c') -> within_cap c'.
Proof.
  unfold move_block, within_cap. munfold. intros [Hi Ha] H.
  destruct (String.eqb side "information").
  - destruct (negb _); [injection H as <- <-; lia|].
    destruct (Py.pop (information_side c) i) as [[x l']|] eqn:Hp;
      injection H as <- <-; simpl; [|lia].
    apply length_pop in Hp. rewrite length_py_insert. lia.
  - destruct (String.eqb side "answer"); [|injection H as <- <-; lia].
    destruct (negb _); [injection H as <- <-; lia|].
    destruct (Py.pop (answer_side c) i) as [[x l']|] eqn:Hp;
      injection H as <- <-; simpl; [|lia].
    apply length_pop in Hp. rewrite length_py_insert. lia.
Qed.

(** C9, at the failing input.  [from_dict] appends every serialized block
    without the check of [add_block_to_side]: from a dictionary that lists
    eleven blocks it builds a card with eleven blocks on the information
    side. *)
Theorem from_dict_exceeds_cap (e : env) (t : nat) :
  exists c t',
    from_dict e eleven_blocks t = (Ok c, t')
    /\ length (information_side c) = 11
    /\ ~ within_cap c.
Proof.
  eexists _, _. split; [vm_compute; reflexivity|].
  split; [reflexivity|]. unfold within_cap. simpl. lia.
Qed.
End BlockCap.

(** ** FileManager.safe_filename *)

Section SafeFilename.
Import FileManager.

(** The name [a.bbb...b] with an extension of 301 characters. *)
Definition long_extension : string :=
  "a." +:+ string_of_list_ascii (repeat (ascii_of_nat 98) 300).

(** C7, at the failing input.  When the extension alone is longer than 255
    characters the slice bound [255 - len(ext)] is negative, the stem is
    cut from the end instead, and the result keeps the whole extension:
    302 characters come back as 301. *)
Theorem safe_filename_long_extension :
  String.length long_extension = 302
  /\ String.length (safe_filename long_extension) = 301
  /\ safe_filename long_extension = suffix long_extension.
Proof. vm_compute. auto. Qed.
End SafeFilename.

(** ** VaultManager.load_set and the cache *)

Section LoadSet.
Import VaultManager.

(** C8.  When [load_set] raises, the cache and the files are exactly as
    they were before the call, the requested name has no cache entry, and
    the exception is [FileNotFoundError] (no metadata file), [ValueError]
    (malformed JSON) or [IOError] (any other failure). *)
Theorem load_set_failure_keeps_cache (e : env) (set_name : string)
    (s s' : VaultManager.t) (ex : exn) :
  load_set e set_name s = (Raise ex, s') ->
  sets_cache s' = sets_cache s
  /\ sets_dir s' = sets_dir s
  /\ sets_cache s' !! set_name = None
  /\ (ex = FileNotFoundError \/ ex = ValueError \/ ex = IOError).
Proof.
  unfold load_set, with_tick. munfold. intros H.
  destruct (sets_cache s !! set_name) eqn:Hc; [discriminate|].
  destruct (negb _); [injection H as <- <-; auto|].
  assert (Hh : forall (x : exn) (s1 : VaultManager.t) y,
             match x with
             | JSONDecodeError => fun s0 : VaultManager.t => (Raise (A:=FlashCardSet.t) ValueError, s0)
             | _ => fun s0 => (Raise IOError, s0)
             end s1 = (Raise y, s') ->
             s' = s1 /\ (y = ValueError \/ y = IOError)).
  { intros x s1 y Hx. destruct x; injection Hx as <- <-; auto. }
  destruct (FS.read_json _) as [set_data|x].
  2:{ apply Hh in H as [-> ?]. tauto. }
  destruct (FS.exists_ _).
  - destruct (FS.read_json _) as [cards_data|x].
    2:{ apply Hh in H as [-> ?]. tauto. }
    destruct (FlashCardSet.from_dict e set_data cards_data (tick s))
      as [[fs|x] n1].
    2:{ apply Hh in H as [-> ?]. simpl. tauto. }
    simpl in H. discriminate.
  - destruct (FlashCardSet.from_dict e set_data VNone (tick s))
      as [[fs|x] n1].
    2:{ apply Hh in H as [-> ?]. simpl. tauto. }
    simpl in H. discriminate.
Qed.
End LoadSet.

(** ** Directories *)

Section Directories.
Implicit Types (es : FS.dir) (n m : string) (x : FS.node).

Lemma eqb_string_refl n : String.eqb n n = true.
Proof. by apply String.eqb_eq. Qed.

Lemma eqb_string_ne n m : n <> m -> String.eqb n m = false.
Proof. by apply String.eqb_neq. Qed.

Lemma lookup_store_eq es n x : FS.lookup (FS.store n x es) n = Some x.
Proof.
  induction es as [|[k y] es IH]; simpl.
  - by rewrite eqb_string_refl.
  - destruct (String.eqb k n) eqn:Hk; simpl.
    + by rewrite eqb_string_refl.
    + by rewrite Hk.
Qed.

Lemma lookup_store_ne es n m x :
  n <> m -> FS.lookup (FS.store n x es) m = FS.lookup es m.
Proof.
  intros Hne. induction es as [|[k y] es IH]; simpl.
  - by rewrite eqb_string_ne.
  - destruct (String.eqb k n) eqn:Hk; simpl.
    + apply String.eqb_eq in Hk as ->. by rewrite !eqb_string_ne.
    + by rewrite IH.
Qed.

Lemma lookup_remove_eq es n : FS.lookup (FS.remove n es) n = None.
Proof.
  induction es as [|[k y] es IH]; simpl; [done|].
  destruct (String.eqb k n) eqn:Hk; simpl; [done|]. by rewrite Hk.
Qed.

Lemma lookup_remove_ne es n m :
  n <> m -> FS.lookup (FS.remove n es) m = FS.lookup es m.
Proof.
  intros Hne. induction es as [|[k y] es IH]; simpl; [done|].
  destruct (String.eqb k n) eqn:Hk; simpl.
  - apply String.eqb_eq in Hk as ->. by rewrite eqb_string_ne.
  - by rewrite IH.
Qed.

Lemma lookup_elem_of es n x : FS.lookup es n = Some x -> (n, x) ∈ es.
Proof.
  induction es as [|[k y] es IH]; simpl; [done|].
  destruct (String.eqb k n) eqn:Hk.
  - apply String.eqb_eq in Hk as ->. intros [= ->]. left.
  - intros H. right. auto.
Qed.

Lemma lookup_None_not_elem es n x : FS.lookup es n = None -> (n, x) ∉ es.
Proof.
  induction es as [|[k y] es IH]; simpl; [intros _; apply not_elem_of_nil|].
  destruct (String.eqb k n) eqn:Hk; [done|].
  intros H [[= -> ->]|Hin]%elem_of_cons.
  - by rewrite eqb_string_refl in Hk.
  - by apply IH in Hin.
Qed.
End Directories.

(** ** Saving and loading a set *)

Section RoundTrip.
Import VaultManager.
Context (e : env).

Lemma block_round_trip (b : ContentBlock.t) (t : nat) :
  ContentBlock.create_block_from_dict e (ContentBlock.to_dict b) t
  = (Ok b, S (S t)).
Proof. destruct b as [bid cd []]; reflexivity. Qed.

Lemma load_blocks_round_trip (bs acc : list ContentBlock.t) (t : nat) :
  exists t',
    FlashCard.load_blocks e (map ContentBlock.to_dict bs) acc t
    = (Ok (acc ++ bs), t').
Proof.
  revert acc t. induction bs as [|b bs IH]; intros acc t; simpl.
  - exists t. by rewrite app_nil_r.
  - unfold bind at 1. rewrite block_round_trip.
    destruct (IH (acc ++ [b]) (S (S t))) as [t' ->].
    exists t'. by rewrite <- app_assoc.
Qed.

Lemma card_round_trip (c : FlashCard.t) (t : nat) :
  truthy (FlashCard.card_id c) = true ->
  exists t', FlashCard.from_dict e (FlashCard.to_dict c) t = (Ok c, t').
Proof.
  intros Hid. destruct c as [cid info answ st cd ls]. simpl in Hid.
  unfold FlashCard.from_dict, FlashCard.to_dict, FlashCard.init. munfold.
  simpl. rewrite Hid. simpl.
  destruct (load_blocks_round_trip info [] (S t)) as [t1 ->]. simpl.
  destruct (load_blocks_round_trip answ [] t1) as [t2 ->]. simpl.
  by exists t2.
Qed.

Lemma load_cards_round_trip (cs acc : list FlashCard.t) (t : nat) :
  Forall (fun c => truthy (FlashCard.card_id c) = true) cs ->
  exists t',
    FlashCardSet.load_cards e (map FlashCard.to_dict cs) acc t
    = (Ok (acc ++ cs), t').
Proof.
  intros Hcs. revert acc t.
  induction Hcs as [|c cs Hc _ IH]; intros acc t; simpl.
  - exists t. by rewrite app_nil_r.
  - unfold bind at 1. destruct (card_round_trip c t Hc) as [t1 ->].
    destruct (IH (acc ++ [c]) t1) as [t' ->].
    exists t'. by rewrite <- app_assoc.
Qed.

(** [from_dict] undoes [to_dict] and [cards_to_dict]. *)
Lemma set_round_trip (S0 : FlashCardSet.t) (t : nat) :
  Forall (fun c => truthy (FlashCard.card_id c) = true) (FlashCardSet.cards S0) ->
  exists t',
    FlashCardSet.from_dict e (FlashCardSet.to_dict S0)
      (FlashCardSet.cards_to_dict S0) t = (Ok S0, t').
Proof.
  intros Hcs. destruct S0 as [nm ds ic tg dl cd la cs]. simpl in Hcs.
  unfold FlashCardSet.from_dict, FlashCardSet.to_dict,
    FlashCardSet.cards_to_dict, FlashCardSet.init. munfold. simpl.
  destruct (load_cards_round_trip cs [] (S t) Hcs) as [t1 ->]. simpl.
  by exists t1.
Qed.

Lemma in_set_dir_Ok (n : string) (f : FS.dir -> result FS.dir)
    (s s' : VaultManager.t) :
  in_set_dir n f s = (Ok tt, s') ->
  exists d d',
    FS.lookup (sets_dir s) n = Some (FS.Dir d) /\ f d = Ok d'
    /\ s' = set_sets_dir (FS.store n (FS.Dir d') (sets_dir s)) s.
Proof.
  unfold in_set_dir. munfold.
  destruct (FS.lookup (sets_dir s) n) as [[c|d]|]; [done| |done].
  destruct (f d) as [d'|] eqn:Hf; [|done].
  intros [= <-]. by exists d, d'.
Qed.

(** What a successful [save_set] leaves on disk. *)
Lemma save_set_files (S0 : FlashCardSet.t) (n : string)
    (s s1 : VaultManager.t) :
  FlashCardSet.name S0 = VStr n ->
  save_set S0 s = (Ok tt, s1) ->
  exists d,
    FS.lookup (sets_dir s1) n = Some (FS.Dir d)
    /\ FS.lookup d "set.json"
       = Some (FS.File (FS.Json (FlashCardSet.to_dict S0)))
    /\ FS.lookup d "cards.json"
       = Some (FS.File (FS.Json (FlashCardSet.cards_to_dict S0)))
    /\ sets_cache s1 = <[n := S0]> (sets_cache s)
    /\ tick s1 = tick s.
Proof.
  intros Hn. unfold save_set. rewrite Hn.
  unfold bind at 1. unfold get.
  unfold bind at 1. unfold lift.
  destruct (FS.mkdir n (sets_dir s)) as [sets|]; [|done].
  unfold bind at 1. unfold put.
  unfold bind at 1.
  destruct (in_set_dir n (FS.mkdir "images") _) as [[[]|] sa] eqn:Ha; [|done].
  unfold bind at 1.
  destruct (in_set_dir n (FS.mkdir "sounds") sa) as [[[]|] sb] eqn:Hb; [|done].
  unfold try_except.
  unfold bind at 1.
  destruct (in_set_dir n (FS.write_json "set.json" _) sb)
    as [[[]|] sc] eqn:Hc; [|done].
  unfold bind at 1.
  destruct (in_set_dir n (FS.write_json "cards.json" _) sc)
    as [[[]|] sd] eqn:Hd; [|done].
  unfold modify. intros [= <-].
  apply in_set_dir_Ok in Ha as (da & da' & _ & _ & ->).
  apply in_set_dir_Ok in Hb as (db & db' & _ & _ & ->).
  apply in_set_dir_Ok in Hc as (dc & dc' & _ & Hwc & ->).
  apply in_set_dir_Ok in Hd as (dd & dd' & Hld & Hwd & ->).
  simpl in *. rewrite lookup_store_eq in Hld. injection Hld as <-.
  unfold FS.write_json, FS.write_file in Hwc, Hwd.
  destruct (FS.lookup dc "set.json") as [[]|]; try done;
    injection Hwc as <-;
    (destruct (FS.lookup (FS.store "set.json" _ dc) "cards.json") as [[]|];
     try done; injection Hwd as <-;
     exists (FS.store "cards.json"
               (FS.File (FS.Json (FlashCardSet.cards_to_dict S0)))
               (FS.store "set.json"
                  (FS.File (FS.Json (FlashCardSet.to_dict S0))) dc));
     rewrite !lookup_store_eq, lookup_store_ne, lookup_store_eq by done;
     done).
Qed.

End RoundTrip.

(** ** Example data *)

Definition env0 : env :=
  Env (fun n => "2024-05-01T10:00:0" +:+ pretty n)
      (fun n => "id-" +:+ pretty n)
      (fun n => "default-icon-" +:+ pretty n).

Definition empty_vault : VaultManager.t := VaultManager.Vault [] ∅ None 0.

Definition deck : FlashCardSet.t :=
  FlashCardSet.CardSet (VStr "Deck") (VStr "demo") (VStr "default")
    (VList [VStr "bio"]) (VInt 2) (VStr "2024-01-01T00:00:00") VNone
    [FlashCard.Card (VStr "c1")
       [ContentBlock.Block (VStr "b1") (VStr "2024-01-01T00:00:01")
          (ContentBlock.TextBlock (VStr "What is a cell?") (VInt 12) (VStr "left"))]
       [ContentBlock.Block (VStr "b2") (VStr "2024-01-01T00:00:02")
          (ContentBlock.ImageBlock (VStr "cell.png") (VStr "cell.png")
             (VInt 640) (VInt 480))]
       (VStr "Unknown") (VStr "2024-01-01T00:00:00") VNone].

(** The vault after [save_set(deck)] and a restart (empty cache). *)
Definition deck_vault : VaultManager.t :=
  VaultManager.set_sets_cache ∅ (snd (VaultManager.save_set deck empty_vault)).

(** The files of the set [Deck], as [export_set] archives them. *)
Definition deck_files : FS.dir :=
  match FS.lookup (VaultManager.sets_dir deck_vault) "Deck" with
  | Some (FS.Dir d) => d
  | _ => []
  end.

(** A vault whose set [Bio] has a metadata file that is not JSON. *)
Definition broken_vault : VaultManager.t :=
  VaultManager.Vault [("Bio", FS.Dir [("set.json", FS.File (FS.Text "{oops"))])]
    ∅ None 0.

Section RoundTripExamples.
Import VaultManager.



Lemma load_set_failure_keeps_cache_witness :
  load_set env0 "Bio" broken_vault = (Raise ValueError, broken_vault)
  /\ sets_cache broken_vault = sets_cache broken_vault
  /\ sets_dir broken_vault = sets_dir broken_vault
  /\ sets_cache broken_vault !! "Bio" = None
  /\ (ValueError = FileNotFoundError \/ ValueError = ValueError
      \/ ValueError = IOError).
Proof.
  split; [reflexivity|].
  apply (load_set_failure_keeps_cache env0 "Bio" broken_vault broken_vault
           ValueError).
  reflexivity.
Defined.
End RoundTripExamples.

(** ** VaultManager.import_set: the exceptions *)

Section ImportSetErrors.
Import VaultManager.

(** An archive without [set.json]. *)
Definition no_metadata_zip : zip_source :=
  ZipOf [("notes.txt", FS.File (FS.Text "hello"));
         ("images", FS.Dir [("cell.png", FS.File (FS.Binary "PNG"))])].

Definition deck_zip : zip_source := ZipOf deck_files.

(** Without [set.json] in the archive, [import_set] raises [IOError]: the
    [ValueError] raised inside the [try] is caught by [except Exception]. *)
Lemma import_set_no_metadata (e : env) (tree : FS.dir)
    (new_name : option string) (s : VaultManager.t) :
  FS.rglob_parent "set.json" (FS.Dir tree) = None ->
  import_set e (ZipOf tree) new_name s = (Raise IOError, s).
Proof.
  intros H. unfold import_set. munfold. cbn [extractall]. by rewrite H.
Qed.

(** C2, at the failing inputs.  An archive without [set.json], an import
    under the archive's own name when that set exists, and an import under
    a chosen name that exists all end in [IOError], not [ValueError]; a
    chosen name that [validate_set_name] rejects is imported. *)
Theorem import_set_raises_IOError :
  import_set env0 no_metadata_zip None empty_vault
    = (Raise IOError, empty_vault)
  /\ import_set env0 deck_zip None deck_vault = (Raise IOError, deck_vault)
  /\ import_set env0 deck_zip (Some "Deck") deck_vault
     = (Raise IOError, deck_vault)
  /\ fst (validate_set_name "bad:name" deck_vault) = Ok false
  /\ fst (import_set env0 deck_zip (Some "bad:name") deck_vault)
     = Ok "bad:name"
  /\ is_ValueError IOError = false.
Proof. vm_compute. repeat split. Qed.
End ImportSetErrors.

(** ** The renaming loop *)

Section RenameLoop.
Import VaultManager.

Lemma numbered_inj (name : string) (i j : nat) :
  numbered name i = numbered name j -> i = j.
Proof.
  unfold numbered. intros H.
  apply (inj (String.app name)) in H.
  apply (inj (String.app " ")) in H.
  by apply (inj pretty) in H.
Qed.

Lemma rename_loop_spec (existing X : gset string) (name : string)
    (fuel counter : nat) :
  (forall j, counter <= j ->
     numbered name j ∈ existing -> numbered name j ∈ X) ->
  (size X <= fuel) ->
  let r := rename_loop fuel existing name counter in
  counter <= r
  /\ (numbered name r ∉ existing)
  /\ (forall j, counter <= j < r -> numbered name j ∈ existing).
Proof.
  revert X counter. induction fuel as [|fuel IH]; intros X counter HX Hsz; simpl.
  - split; [lia|]. split; [|lia].
    intros Hin. apply (HX counter) in Hin; [|lia].
    assert (HX0 : X ≡ ∅) by (apply size_empty_inv; lia).
    set_solver.
  - case_bool_decide as Hin.
    + assert (HinX := HX counter (le_n _) Hin).
      destruct (IH (X ∖ {[numbered name counter]}) (S counter)) as (Hle & Hfree & Hlow).
      * intros j Hj Hje. apply elem_of_difference. split; [apply HX; [lia|done]|].
        rewrite elem_of_singleton. intros Heq%numbered_inj. lia.
      * assert (size (X ∖ {[numbered name counter]}) = size X - 1).
        { rewrite size_difference; [|by apply singleton_subseteq_l].
          by rewrite size_singleton. }
        assert (size X <> 0).
        { intros H0. apply size_empty_inv in H0. set_solver. }
        lia.
      * split; [lia|]. split; [done|].
        intros j Hj. destruct (decide (j = counter)) as [->|]; [done|].
        apply Hlow. lia.
    + split; [lia|]. split; [done|]. lia.
Qed.

(** The automatic name is free, and every lower number from 2 on is taken. *)
Lemma auto_rename_spec (existing : gset string) (name : string) :
  let k := auto_rename existing name in
  2 <= k
  /\ (numbered name k ∉ existing)
  /\ (forall j, 2 <= j < k -> numbered name j ∈ existing).
Proof. apply (rename_loop_spec existing existing); auto. Qed.

Example auto_rename_skips_taken :
  numbered "Deck" (auto_rename {["Deck"; "Deck 2"; "Deck 3"; "Deck 5"]} "Deck")
  = "Deck 4".
Proof. reflexivity. Qed.
End RenameLoop.

(** ** The loop of [import_vault] over the staged sets *)

Section MergeLoop.
Import VaultManager.

(** [s'] differs from [s] at most in the entry [n] of [sets/] and in the
    clock. *)
Definition same_but (n : string) (s s' : VaultManager.t) : Prop :=
  icon_manager s' = icon_manager s
  /\ sets_cache s' = sets_cache s
  /\ forall m, m <> n -> FS.lookup (sets_dir s') m = FS.lookup (sets_dir s) m.

Lemma copy_set_frame e sd o n s r s' :
  copy_set e sd o n s = (r, s') -> same_but n s s'.
Proof.
  unfold copy_set, in_set_dir, with_tick, now, FS.rmtree, FS.copytree.
  munfold. intros H.
  repeat (destruct_head H; simplify_eq/=).
  all: unfold same_but; simpl; repeat split; try done.
  all: intros m Hm; rewrite ?lookup_store_ne, ?lookup_remove_ne by done; done.
Qed.

Lemma available_elem (d : FS.dir) (n : string) (x : FS.node) :
  FS.lookup d n = Some x -> is_set x = true -> n ∈ available d.
Proof.
  intros Hl Hs. unfold available. rewrite merge_sort_Permutation.
  apply list_elem_of_fmap. exists (n, x). split; [done|].
  apply list_elem_of_In, filter_In. split; [|done].
  by apply list_elem_of_In, lookup_elem_of.
Qed.

Lemma validate_set_name_spec (name : string) (s : VaultManager.t) :
  exists b, validate_set_name name s = (Ok b, s)
            /\ (b = true -> name ∉ available (sets_dir s)).
Proof.
  unfold validate_set_name, get_available_sets. munfold.
  repeat (match goal with |- context [if ?c then _ else _] => destruct c eqn:? end);
    eexists; (split; [reflexivity|]); try discriminate.
  intros _. by apply bool_decide_eq_false in Heqb2.
Qed.

(** The outcomes of the conflict resolution. *)
Inductive resolved (ui : resolver) (o : string) (ms : merge_state)
    (s : VaultManager.t) : option string -> merge_state -> Prop :=
| res_free :
    o ∉ existing_sets ms -> resolved ui o ms s (Some o) ms
| res_ignore_all :
    o ∈ existing_sets ms -> ignore_all ms = true ->
    resolved ui o ms s None (add_ignored o ms)
| res_auto :
    o ∈ existing_sets ms -> ignore_all ms = false -> ui = None ->
    resolved ui o ms s
      (Some (numbered o (auto_rename (existing_sets ms) o)))
      (add_renamed o (numbered o (auto_rename (existing_sets ms) o)) ms)
| res_ignore dialog :
    o ∈ existing_sets ms -> ignore_all ms = false -> ui = Some dialog ->
    dialog o (numbered o (auto_rename (existing_sets ms) o)) = Ignore ->
    resolved ui o ms s None (add_ignored o ms)
| res_ignore_rest dialog :
    o ∈ existing_sets ms -> ignore_all ms = false -> ui = Some dialog ->
    dialog o (numbered o (auto_rename (existing_sets ms) o)) = IgnoreAll ->
    resolved ui o ms s None (add_ignored o (set_ignore_all ms))
| res_invalid dialog new_name :
    o ∈ existing_sets ms -> ignore_all ms = false -> ui = Some dialog ->
    dialog o (numbered o (auto_rename (existing_sets ms) o)) = Import new_name ->
    resolved ui o ms s None (add_ignored o ms)
| res_import dialog new_name :
    o ∈ existing_sets ms -> ignore_all ms = false -> ui = Some dialog ->
    dialog o (numbered o (auto_rename (existing_sets ms) o)) = Import new_name ->
    new_name ∉ available (sets_dir s) ->
    resolved ui o ms s (Some new_name) (add_renamed o new_name ms)
| res_closed dialog :
    o ∈ existing_sets ms -> ignore_all ms = false -> ui = Some dialog ->
    dialog o (numbered o (auto_rename (existing_sets ms) o)) = Closed ->
    resolved ui o ms s (Some o) ms.

Lemma resolve_spec ui o ms s :
  exists out ms1,
    resolve ui o ms s = (Ok (out, ms1), s) /\ resolved ui o ms s out ms1.
Proof.
  unfold resolve.
  case_bool_decide as Hin; [|eexists _, _; split; [reflexivity|by constructor]].
  destruct (ignore_all ms) eqn:Hia;
    [eexists _, _; split; [reflexivity|by constructor]|].
  destruct ui as [dialog|];
    [|eexists _, _; split; [reflexivity|by constructor]].
  destruct (dialog o _) as [new_name| | |] eqn:Hd.
  - destruct (validate_set_name_spec new_name s) as (b & Hv & Hb).
    unfold bind. rewrite Hv. destruct b; simpl.
    + eexists _, _; split; [reflexivity|]. eapply res_import; eauto.
    + eexists _, _; split; [reflexivity|]. eapply res_invalid; eauto.
  - eexists _, _; split; [reflexivity|]. eapply res_ignore; eauto.
  - eexists _, _; split; [reflexivity|]. eapply res_ignore_rest; eauto.
  - eexists _, _; split; [reflexivity|]. eapply res_closed; eauto.
Qed.

(** The outcomes of one round of the loop. *)
Inductive stepped (e : env) (ui : resolver) (o : string) (x : FS.node)
    (ms : merge_state) (s : VaultManager.t)
  : merge_state -> VaultManager.t -> Prop :=
| step_not_dir :
    FS.is_dir (Some x) = false -> stepped e ui o x ms s ms s
| step_skipped ms1 :
    FS.is_dir (Some x) = true -> resolved ui o ms s None ms1 ->
    stepped e ui o x ms s ms1 s
| step_imported i ms1 s' :
    FS.is_dir (Some x) = true -> resolved ui o ms s (Some i) ms1 ->
    copy_set e x o i s = (Ok tt, s') ->
    stepped e ui o x ms s (add_imported i ms1) s'
| step_failed i ms1 ex s' :
    FS.is_dir (Some x) = true -> resolved ui o ms s (Some i) ms1 ->
    copy_set e x o i s = (Raise ex, s') ->
    stepped e ui o x ms s (add_ignored o ms1) s'.

Lemma import_step_spec e ui o x ms s :
  exists ms' s',
    import_step e ui (o, x) ms s = (Ok ms', s') /\ stepped e ui o x ms s ms' s'.
Proof.
  unfold import_step. cbn [fst snd].
  destruct (FS.is_dir (Some x)) eqn:Hd; cbn [negb].
  2:{ eexists _, _. split; [reflexivity|]. by constructor. }
  destruct (resolve_spec ui o ms s) as (out & ms1 & Hr & Hres).
  unfold bind at 1. rewrite Hr. destruct out as [i|].
  - unfold try_except, bind.
    destruct (copy_set e x o i s) as [[[]|ex] s'] eqn:Hc.
    + eexists _, _. split; [reflexivity|]. eapply step_imported; eauto.
    + eexists _, _. split; [reflexivity|]. eapply step_failed; eauto.
  - eexists _, _. split; [reflexivity|]. by eapply step_skipped.
Qed.

(** The loop as a relation: the rounds in order. *)
Inductive looped (e : env) (ui : resolver)
  : FS.dir -> merge_state -> VaultManager.t
    -> merge_state -> VaultManager.t -> Prop :=
| loop_nil ms s : looped e ui [] ms s ms s
| loop_cons o x rest ms s ms1 s1 ms' s' :
    stepped e ui o x ms s ms1 s1 ->
    looped e ui rest ms1 s1 ms' s' ->
    looped e ui ((o, x) :: rest) ms s ms' s'.

(** The loop never raises. *)
Lemma import_loop_spec e ui staged ms s :
  exists ms' s',
    import_loop e ui staged ms s = (Ok ms', s')
    /\ looped e ui staged ms s ms' s'.
Proof.
  revert ms s. induction staged as [|[o x] rest IH]; intros ms s; simpl.
  - eexists _, _. split; [reflexivity|constructor].
  - destruct (import_step_spec e ui o x ms s) as (ms1 & s1 & Hs & Hst).
    unfold bind. rewrite Hs.
    destruct (IH ms1 s1) as (ms' & s' & Hl & Hlo).
    eexists _, _. split; [exact Hl|]. econstructor; eauto.
Qed.

Lemma import_loop_looped e ui staged ms s ms' s' :
  import_loop e ui staged ms s = (Ok ms', s') ->
  looped e ui staged ms s ms' s'.
Proof.
  intros H. destruct (import_loop_spec e ui staged ms s) as (? & ? & H' & Hl).
  rewrite H in H'. by injection H' as <- <-.
Qed.

Lemma looped_app e ui l1 l2 ms s ms' s' :
  looped e ui (l1 ++ l2) ms s ms' s' ->
  exists ms1 s1, looped e ui l1 ms s ms1 s1 /\ looped e ui l2 ms1 s1 ms' s'.
Proof.
  revert ms s. induction l1 as [|[o x] l1 IH]; intros ms s; simpl.
  - intros H. eexists _, _. split; [constructor|done].
  - intros H. inversion H as [|? ? ? ? ? ms1 s1 ? ? Hst Hlo]; subst.
    destruct (IH _ _ Hlo) as (ms2 & s2 & Ha & Hb).
    eexists _, _. split; [|exact Hb]. econstructor; eauto.
Qed.
End MergeLoop.

(** ** Headless merge: automatic renaming *)

Section HeadlessMerge.
Import VaultManager.
Context (e : env).

(** The results only grow, and the set of taken names grows by the names
    imported. *)
Definition grows (ms ms' : merge_state) : Prop :=
  (exists imp,
     imported (results ms') = imported (results ms) ++ imp
     /\ existing_sets ms' = existing_sets ms ∪ list_to_set imp)
  /\ renamed (results ms) `prefix_of` renamed (results ms')
  /\ ignored (results ms) `prefix_of` ignored (results ms').

Lemma grows_refl ms : grows ms ms.
Proof.
  split; [|done]. exists []. rewrite app_nil_r. split; [done|set_solver].
Qed.

Lemma grows_trans ms1 ms2 ms3 : grows ms1 ms2 -> grows ms2 ms3 -> grows ms1 ms3.
Proof.
  intros ((i1 & Hi1 & He1) & Hr1 & Hg1) ((i2 & Hi2 & He2) & Hr2 & Hg2).
  split; [|split; etrans; eauto].
  exists (i1 ++ i2). rewrite Hi2, Hi1, He2, He1, app_assoc. split; [done|].
  rewrite list_to_set_app_L. set_solver.
Qed.

Lemma resolved_grows ui o ms s out ms1 :
  resolved ui o ms s out ms1 -> grows ms ms1.
Proof.
  destruct 1; try apply grows_refl;
    (split; [exists []; rewrite app_nil_r; split; [done|set_solver]|]);
    simpl; split; try done; by apply prefix_app_r.
Qed.

Lemma add_imported_grows i ms : grows ms (add_imported i ms).
Proof.
  split; [|done]. exists [i]. split; [done|]. simpl. set_solver.
Qed.

Lemma add_ignored_grows o ms : grows ms (add_ignored o ms).
Proof.
  split; [exists []; rewrite app_nil_r; split; [done|set_solver]|].
  simpl. split; [done|]. by apply prefix_app_r.
Qed.

Lemma stepped_grows ui o x ms s ms' s' :
  stepped e ui o x ms s ms' s' -> grows ms ms'.
Proof.
  destruct 1 as [|ms1 ? Hr|i ms1 s' ? Hr ?|i ms1 ex s' ? Hr ?].
  - apply grows_refl.
  - by eapply resolved_grows.
  - eapply grows_trans; [by eapply resolved_grows|apply add_imported_grows].
  - eapply grows_trans; [by eapply resolved_grows|apply add_ignored_grows].
Qed.

Lemma looped_grows ui staged ms s ms' s' :
  looped e ui staged ms s ms' s' -> grows ms ms'.
Proof.
  induction 1; [apply grows_refl|].
  eapply grows_trans; [by eapply stepped_grows|done].
Qed.

(** Without a dialog the name to import under is never a taken one. *)
Lemma resolved_headless o ms s out ms1 :
  ignore_all ms = false ->
  resolved None o ms s out ms1 ->
  ignore_all ms1 = false
  /\ exists i, out = Some i /\ i ∉ existing_sets ms.
Proof.
  intros Hia. destruct 1; try congruence.
  - split; [done|]. by eexists.
  - split; [done|]. eexists. split; [done|].
    apply (auto_rename_spec (existing_sets ms) o).
Qed.

Lemma stepped_headless o x ms s ms' s' :
  ignore_all ms = false ->
  stepped e None o x ms s ms' s' ->
  ignore_all ms' = false
  /\ forall m, m ∈ existing_sets ms ->
       FS.lookup (sets_dir s') m = FS.lookup (sets_dir s) m.
Proof.
  intros Hia.
  destruct 1 as [|ms1 ? Hr|i ms1 s' ? Hr Hc|i ms1 ex s' ? Hr Hc]; [done|..];
    destruct (resolved_headless o ms s _ ms1 Hia Hr) as (Hia1 & j & Hj & Hfree);
    simplify_eq/=; (split; [done|]).
  all: intros m Hm; apply (copy_set_frame _ _ _ _ _ _ _ Hc); congruence.
Qed.

Lemma looped_headless staged ms s ms' s' :
  ignore_all ms = false ->
  looped e None staged ms s ms' s' ->
  ignore_all ms' = false
  /\ forall m, m ∈ existing_sets ms ->
       FS.lookup (sets_dir s') m = FS.lookup (sets_dir s) m.
Proof.
  intros Hia Hl. induction Hl as [|o x rest ms s ms1 s1 ms' s' Hst Hl IH];
    [done|].
  destruct (stepped_headless _ _ _ _ _ _ Hia Hst) as [Hia1 Hk1].
  destruct (IH Hia1) as [Hia' Hk']. split; [done|].
  intros m Hm. rewrite <- Hk1 by done. apply Hk'.
  destruct (stepped_grows _ _ _ _ _ _ _ Hst) as ((imp & _ & ->) & _).
  set_solver.
Qed.

(** The copy of a staged set with a JSON object as metadata, under a new
    name, to a place where no regular file stands. *)
Lemma copy_set_renamed (t : FS.dir) (d : list (string * pyval))
    (o i : string) (s : VaultManager.t) :
  i <> o ->
  FS.lookup t "set.json" = Some (FS.File (FS.Json (VDict d))) ->
  (forall c, FS.lookup (sets_dir s) i <> Some (FS.File c)) ->
  exists s',
    copy_set e (FS.Dir t) o i s = (Ok tt, s')
    /\ FS.lookup (sets_dir s') i
       = Some (FS.Dir
           (FS.store "set.json"
              (FS.File (FS.Json (VDict
                 (Py.dict_set (Py.dict_set d "name" (VStr i))
                    "last_modified" (VStr (clock e (tick s)))))))
              t)).
Proof.
  intros Hne Hj Hnf. apply eqb_string_ne in Hne.
  unfold copy_set, in_set_dir, with_tick, now, FS.rmtree. munfold.
  destruct (FS.lookup (sets_dir s) i) as [[c|d0]|] eqn:Hl; simpl.
  - by destruct (Hnf c).
  - rewrite lookup_remove_eq. simpl. rewrite Hne. simpl.
    rewrite !lookup_store_eq. simpl. rewrite Hj. simpl.
    rewrite !lookup_store_eq. unfold FS.write_json, FS.write_file.
    rewrite Hj. simpl. eexists. split; [reflexivity|].
    simpl. by rewrite lookup_store_eq.
  - rewrite Hl. simpl. rewrite Hne. simpl.
    rewrite !lookup_store_eq. simpl. rewrite Hj. simpl.
    rewrite !lookup_store_eq. unfold FS.write_json, FS.write_file.
    rewrite Hj. simpl. eexists. split; [reflexivity|].
    simpl. by rewrite lookup_store_eq.
Qed.

Lemma import_loop_app ui (l1 l2 : FS.dir) ms s :
  import_loop e ui (l1 ++ l2) ms s
  = bind (import_loop e ui l1 ms) (import_loop e ui l2) s.
Proof.
  revert ms s. induction l1 as [|x l1 IH]; intros ms s; simpl.
  - unfold bind, ret. by destruct (import_loop e ui l2 ms s) as [[]].
  - unfold bind in *.
    destruct (import_step e ui x ms s) as [[ms1|ex] s1]; [|done].
    by rewrite IH.
Qed.

(** The loop without a dialog, at the turn of a staged set [N] whose name
    is taken: [ms1], [s1] is the state after the sets staged before it. *)
Lemma headless_loop_renames (staged pre post : FS.dir) (N : string)
    (t : FS.dir) (s0 s1 s' : VaultManager.t) (ms1 ms' : merge_state) :
  staged = pre ++ (N, FS.Dir t) :: post ->
  import_loop e None pre (merge_start (available (sets_dir s0))) s0 = (Ok ms1, s1) ->
  import_loop e None staged (merge_start (available (sets_dir s0))) s0 = (Ok ms', s') ->
  N ∈ existing_sets ms1 ->
  let k := auto_rename (existing_sets ms1) N in
  existing_sets ms1
  = list_to_set (available (sets_dir s0))
      ∪ list_to_set (imported (results ms1))
  /\ 2 <= k
  /\ (numbered N k ∉ existing_sets ms1)
  /\ (forall j, 2 <= j < k -> numbered N j ∈ existing_sets ms1)
  /\ ((N, numbered N k) ∈ renamed (results ms'))
  /\ (numbered N k ∈ imported (results ms') \/ N ∈ ignored (results ms'))
  /\ (forall d,
        FS.lookup t "set.json" = Some (FS.File (FS.Json (VDict d))) ->
        (forall c, FS.lookup (sets_dir s1) (numbered N k) <> Some (FS.File c)) ->
        numbered N k ∈ imported (results ms')
        /\ FS.lookup (sets_dir s') (numbered N k)
           = Some (FS.Dir
               (FS.store "set.json"
                  (FS.File (FS.Json (VDict
                     (Py.dict_set (Py.dict_set d "name" (VStr (numbered N k)))
                        "last_modified" (VStr (clock e (tick s1)))))))
                  t)))
  /\ (forall M x,
        FS.lookup (sets_dir s0) M = Some x -> is_set x = true ->
        FS.lookup (sets_dir s') M = Some x).
Proof.
  intros -> Hpre Hall Hin k.
  assert (Hwhole := import_loop_looped _ _ _ _ _ _ _ Hall).
  rewrite import_loop_app in Hall. unfold bind in Hall. rewrite Hpre in Hall.
  apply import_loop_looped in Hpre.
  destruct (looped_headless _ (merge_start (available (sets_dir s0))) _ _ _ eq_refl Hpre) as [Hia1 _].
  destruct (looped_grows _ _ _ _ _ _ Hpre) as ((imp & Himp & Hex) & _).
  simpl in Himp, Hex, Hall. unfold bind in Hall.
  destruct (import_step_spec e None N (FS.Dir t) ms1 s1) as (ms2 & s2 & Hs & Hst).
  rewrite Hs in Hall. apply import_loop_looped in Hall.
  destruct (auto_rename_spec (existing_sets ms1) N) as (Hk2 & Hfree & Hlow).
  fold k in Hk2, Hfree, Hlow.
  destruct (looped_grows _ _ _ _ _ _ Hall) as ((imp2 & Himp2 & Hex2) & Hren & Hign).
  destruct (stepped_headless _ _ _ _ _ _ Hia1 Hst) as [Hia2 _].
  destruct (looped_headless _ _ _ _ _ Hia2 Hall) as [_ Hkeep2].
  destruct (looped_headless _ (merge_start (available (sets_dir s0))) _ _ _ eq_refl Hwhole) as [_ Hkeep].
  assert (Hne : numbered N k <> N) by (intros Heq; by rewrite Heq in Hfree).
  split; [by rewrite Hex, Himp|]. split; [done|]. split; [done|].
  split; [done|].
  inversion Hst as [|msr ? Hr|i msr ? ? Hr Hc|i msr ex ? ? Hr Hc]; subst;
    try discriminate;
    inversion Hr; subst; try done; try congruence; fold k in Hc |- *.
  - split.
    { eapply elem_of_prefix; [|exact Hren]. simpl. set_solver. }
    split.
    { left. rewrite Himp2. simpl. set_solver. }
    split.
    + intros d Hd Hnf. split; [rewrite Himp2; simpl; set_solver|].
      destruct (copy_set_renamed t d N (numbered N k) s1 Hne Hd Hnf)
        as (s2' & Hc' & Hl').
      rewrite Hc in Hc'. injection Hc' as <-.
      rewrite Hkeep2; [done|]. simpl. set_solver.
    + intros M x HM Hx. rewrite Hkeep; [done|].
      simpl. apply elem_of_list_to_set. by eapply available_elem.
  - split.
    { eapply elem_of_prefix; [|exact Hren]. simpl. set_solver. }
    split.
    { right. eapply elem_of_prefix; [|exact Hign]. simpl. set_solver. }
    split.
    + intros d Hd Hnf.
      destruct (copy_set_renamed t d N (numbered N k) s1 Hne Hd Hnf)
        as (s2' & Hc' & Hl').
      rewrite Hc in Hc'. discriminate.
    + intros M x HM Hx. rewrite Hkeep; [done|].
      simpl. apply elem_of_list_to_set. by eapply available_elem.
Qed.
End HeadlessMerge.

(** ** Merge with a dialog: ignored sets and failed sets *)

Section IgnoredSets.
Import VaultManager.
Context (e : env).

(** The set [N] is on disk as [x], its name is taken, and nothing was
    imported under it. *)
Definition kept (N : string) (x : FS.node) (ms : merge_state)
    (s : VaultManager.t) : Prop :=
  FS.lookup (sets_dir s) N = Some x
  /\ is_set x = true
  /\ N ∈ existing_sets ms
  /\ N ∉ imported (results ms).







End IgnoredSets.

(** ** import_vault in merge mode, as a whole *)

Section ImportVaultMerge.
Import VaultManager.
Context (e : env).

(** Merging the icon sets leaves the sets, the cache and the clock alone. *)
Lemma merge_icons_frame (temp : FS.dir) (s s_i : VaultManager.t) r :
  merge_icons e temp s = (r, s_i) ->
  sets_dir s_i = sets_dir s /\ sets_cache s_i = sets_cache s
  /\ tick s_i = tick s.
Proof.
  unfold merge_icons, with_icons. munfold. intros H.
  repeat (destruct_head H; simplify_eq/=); done.
Qed.

(** Once the archive is unpacked and the icon sets are merged, the answer
    of [import_vault] is the result of the loop over the staged sets. *)
Lemma import_vault_merge_runs_loop (ui : resolver) (temp staged : FS.dir)
    (s s_i : VaultManager.t) :
  imported_sets_path temp = Some (FS.Dir staged) ->
  merge_icons e temp s = (Ok tt, s_i) ->
  exists ms' s',
    import_loop e ui staged (merge_start (available (sets_dir s))) s_i
      = (Ok ms', s')
    /\ import_vault_merge e ui (ZipOf temp) s = (Ok (Some (results ms')), s').
Proof.
  intros Hp Hi.
  destruct (merge_icons_frame _ _ _ _ Hi) as (Hsd & _ & _).
  destruct (import_loop_spec e ui staged
              (merge_start (available (sets_dir s))) s_i)
    as (ms' & s' & Hl & _).
  exists ms', s'. split; [done|].
  unfold import_vault_merge, get_available_sets. munfold. simpl.
  rewrite Hi, Hp. simpl. rewrite Hsd, Hl. done.
Qed.

Lemma import_vault_merge_inv (ui : resolver) (temp staged : FS.dir)
    (s s_i s' : VaultManager.t) (ms' : merge_state) r :
  imported_sets_path temp = Some (FS.Dir staged) ->
  merge_icons e temp s = (Ok tt, s_i) ->
  import_vault_merge e ui (ZipOf temp) s = (Ok r, s') ->
  import_loop e ui staged (merge_start (available (sets_dir s))) s_i
    = (Ok ms', s') ->
  r = Some (results ms').
Proof.
  intros Hp Hi Hv Hl.
  destruct (import_vault_merge_runs_loop ui temp staged s s_i Hp Hi)
    as (ms2 & s2 & Hl2 & Hv2).
  rewrite Hl in Hl2. injection Hl2 as <- <-.
  rewrite Hv in Hv2. by injection Hv2 as ->.
Qed.
End ImportVaultMerge.

(** ** The claims on import_vault in merge mode *)

Section MergeClaims.
Import VaultManager.

(** A vault that holds the sets [Deck] and [Deck 2]. *)
Definition two_decks_vault : VaultManager.t :=
  Vault [("Deck", FS.Dir deck_files); ("Deck 2", FS.Dir deck_files)] ∅ None 0.

(** An archive of a vault that holds the sets [Deck] and [Deck 2]. *)
Definition two_decks_archive : FS.dir :=
  [("sets", FS.Dir [("Deck", FS.Dir deck_files);
                    ("Deck 2", FS.Dir deck_files)])].

(** C4, amended.  Headless merge ([PYQT_AVAILABLE] is false).  Take a staged set
    [N] whose name is taken when its turn comes; [s_i] is the vault after
    the icon sets were merged and [ms1], [s1] the state of the loop after
    the sets staged before [N].  The taken names are those of the sets
    that existed before the import and of the sets imported so far in it.
    The number [k] chosen is at least 2, ["N k"] is not taken and every
    ["N j"] with [2 <= j < k] is.  The pair [(N, "N k")] is in the
    returned result.  The set is imported under ["N k"] or, when its own
    copy fails, reported as ignored; it is imported, with the name in its
    metadata rewritten, whenever its metadata is a JSON object, ["N k"]
    is the name of a directory entry (not too long for one) and no
    regular file stands at ["N k"].  No set that existed before the
    import is changed. *)
Theorem headless_merge_renames (e : env) (temp staged pre post : FS.dir)
    (N : string) (t : FS.dir) (s0 s_i s1 s' : VaultManager.t)
    (ms1 : merge_state) (r : import_results) :
  imported_sets_path temp = Some (FS.Dir staged) ->
  staged = pre ++ (N, FS.Dir t) :: post ->
  merge_icons e temp s0 = (Ok tt, s_i) ->
  import_loop e None pre (merge_start (available (sets_dir s0))) s_i
    = (Ok ms1, s1) ->
  import_vault_merge e None (ZipOf temp) s0 = (Ok (Some r), s') ->
  N ∈ existing_sets ms1 ->
  let k := auto_rename (existing_sets ms1) N in
  existing_sets ms1
  = list_to_set (available (sets_dir s0))
      ∪ list_to_set (imported (results ms1))
  /\ 2 <= k
  /\ (numbered N k ∉ existing_sets ms1)
  /\ (forall j, 2 <= j < k -> numbered N j ∈ existing_sets ms1)
  /\ ((N, numbered N k) ∈ renamed r)
  /\ (numbered N k ∈ imported r \/ N ∈ ignored r)
  /\ (forall d,
        FS.lookup t "set.json" = Some (FS.File (FS.Json (VDict d))) ->
        FS.is_entry_name (numbered N k) = true ->
        (forall c, FS.lookup (sets_dir s1) (numbered N k) <> Some (FS.File c)) ->
        numbered N k ∈ imported r
        /\ FS.lookup (sets_dir s') (numbered N k)
           = Some (FS.Dir
               (FS.store "set.json"
                  (FS.File (FS.Json (VDict
                     (Py.dict_set (Py.dict_set d "name" (VStr (numbered N k)))
                        "last_modified" (VStr (clock e (tick s1)))))))
                  t)))
  /\ (forall M x,
        FS.lookup (sets_dir s0) M = Some x -> is_set x = true ->
        FS.lookup (sets_dir s') M = Some x).
Proof.
  intros Hp Hst Hi Hpre Hv Hin k.
  destruct (merge_icons_frame _ _ _ _ _ Hi) as (Hsd & _ & _).
  destruct (import_vault_merge_runs_loop e None temp staged s0 s_i Hp Hi)
    as (ms' & s2 & Hl & Hv').
  rewrite Hv in Hv'. injection Hv' as -> <-.
  rewrite <- Hsd in Hpre, Hl |- *.
  destruct (headless_loop_renames e staged pre post N t s_i s1 s' ms1 ms'
              Hst Hpre Hl Hin)
    as (H1 & H2 & H3 & H4 & H5 & H6 & H7 & H8).
  repeat (split; [assumption|]). split; [|exact H8].
  intros d Hd _. exact (H7 d Hd).
Qed.

Lemma headless_merge_renames_witness :
  exists r s',
    import_vault_merge env0 None (ZipOf two_decks_archive) two_decks_vault
      = (Ok (Some r), s')
    /\ ("Deck", "Deck 3") ∈ renamed r
    /\ "Deck 3" ∈ imported r
    /\ FS.lookup (sets_dir s') "Deck"
       = FS.lookup (sets_dir two_decks_vault) "Deck".
Proof.
  eexists _, _. split; [vm_compute; reflexivity|].
  assert (Hin : "Deck" ∈ existing_sets
                  (merge_start (available (sets_dir two_decks_vault)))).
  { apply elem_of_list_to_set.
    apply (available_elem _ _ (FS.Dir deck_files)); vm_compute; reflexivity. }
  assert (Hp : imported_sets_path two_decks_archive
               = Some (FS.Dir [("Deck", FS.Dir deck_files);
                               ("Deck 2", FS.Dir deck_files)]))
    by (vm_compute; reflexivity).
  assert (Hi : merge_icons env0 two_decks_archive two_decks_vault
               = (Ok tt, two_decks_vault)) by (vm_compute; reflexivity).
  assert (Hpre : import_loop env0 None []
                   (merge_start (available (sets_dir two_decks_vault)))
                   two_decks_vault
                 = (Ok (merge_start (available (sets_dir two_decks_vault))),
                    two_decks_vault)) by reflexivity.
  match goal with
  | |- (_ ∈ renamed ?r) /\ _ /\ FS.lookup (sets_dir ?s') _ = _ =>
      assert (Hv : import_vault_merge env0 None (ZipOf two_decks_archive)
                     two_decks_vault = (Ok (Some r), s'))
        by (vm_compute; reflexivity);
      destruct (headless_merge_renames env0 two_decks_archive _
                  [] [("Deck 2", FS.Dir deck_files)] "Deck" deck_files
                  two_decks_vault two_decks_vault two_decks_vault s' _ r
                  Hp eq_refl Hi Hpre Hv Hin)
        as (_ & _ & _ & _ & Hren & _ & Himp & Hkeep)
  end.
  assert (Hk : auto_rename
                 (existing_sets
                    (merge_start (available (sets_dir two_decks_vault))))
                 "Deck" = 3) by (vm_compute; reflexivity).
  rewrite Hk in Hren, Himp.
  split; [exact Hren|].
  split.
  - refine (proj1 (Himp _ _ _ _)); [vm_compute; reflexivity|reflexivity|].
    intros c. vm_compute. discriminate.
  - rewrite (Hkeep "Deck" (FS.Dir deck_files));
      [symmetry| |]; vm_compute; reflexivity.
Defined.

(** A staged set [Deck] whose metadata are a JSON list, not an object. *)
Definition list_metadata_archive : FS.dir :=
  [("sets",
    FS.Dir [("Deck",
             FS.Dir [("set.json", FS.File (FS.Json (VList [VInt 1])))])])].

(** C4 as stated fails: the staged set [Deck] collides, the name
    [Deck 2] is chosen and the pair recorded, the directory is copied,
    but writing the name into metadata that are a list raises
    [TypeError], which the inner [except] does not catch: the set is
    reported as ignored and is not in the imported list. *)
Lemma headless_merge_not_imported :
  exists s',
    import_vault_merge env0 None (ZipOf list_metadata_archive) deck_vault
    = (Ok (Some (Results [] ["Deck"] [("Deck", "Deck 2")])), s')
    /\ "Deck" ∈ available (sets_dir deck_vault)
    /\ FS.lookup (sets_dir s') "Deck 2"
       = Some (FS.Dir [("set.json", FS.File (FS.Json (VList [VInt 1])))])
    /\ FS.lookup (sets_dir s') "Deck" = FS.lookup (sets_dir deck_vault) "Deck".
Proof.
  eexists. split; [vm_compute; reflexivity|].
  split; [|split; vm_compute; reflexivity].
  apply (available_elem _ _ (FS.Dir deck_files)); vm_compute; reflexivity.
Qed.











End MergeClaims.

(** ** Icon sets in a vault merge *)

Section MergeIcons.
Import VaultManager.
Context (e : env).

(** One bundled icon set: only its own entry of [icons/] can change, and
    after a normal return a bundled directory stands there. *)
Lemma merge_icon_set_spec (n : string) (x : FS.node) (im im' : IconManager.t) r :
  merge_icon_set (n, x) im = (r, im') ->
  (forall m, m <> n ->
     FS.lookup (IconManager.icons_dir im') m
     = FS.lookup (IconManager.icons_dir im) m)
  /\ (forall t, r = Ok tt -> x = FS.Dir t ->
        FS.lookup (IconManager.icons_dir im') n = Some (FS.Dir t)).
Proof.
  unfold merge_icon_set, FS.rmtree, FS.copytree. munfold. simpl. intros H.
  repeat (destruct_head H; simplify_eq/=).
  all: split;
    [intros m Hm; simpl;
     rewrite ?lookup_store_ne, ?lookup_remove_ne by done; done
    |intros t' Hr Hx; simplify_eq/=; try by rewrite lookup_store_eq].
Qed.

Lemma merge_icon_sets_spec (bundled : FS.dir) (im im' : IconManager.t) :
  for_each bundled merge_icon_set im = (Ok tt, im') ->
  NoDup (map fst bundled) ->
  (forall n t, (n, FS.Dir t) ∈ bundled ->
     FS.lookup (IconManager.icons_dir im') n = Some (FS.Dir t))
  /\ (forall m, m ∉ map fst bundled ->
        FS.lookup (IconManager.icons_dir im') m
        = FS.lookup (IconManager.icons_dir im) m).
Proof.
  revert im. induction bundled as [|[n x] rest IH]; intros im H Hnd.
  - simpl in H. injection H as <-. split; [|done].
    intros n t Hin. by apply not_elem_of_nil in Hin.
  - simpl in H, Hnd. apply NoDup_cons in Hnd as [Hn Hnd].
    unfold bind in H.
    destruct (merge_icon_set (n, x) im) as [[[]|ex] im1] eqn:H1; [|done].
    destruct (merge_icon_set_spec _ _ _ _ _ H1) as [Hoth Hown].
    destruct (IH im1 H Hnd) as [Hin Hout].
    split.
    + intros m t Hmt. apply elem_of_cons in Hmt as [Heq|Hm].
      * injection Heq as Hm Hxt. subst m x.
        rewrite Hout by done. by apply (Hown t).
      * by apply Hin.
    + intros m Hm. simpl in Hm. apply not_elem_of_cons in Hm as [Hne Hm].
      rewrite Hout by done. by apply Hoth.
Qed.

(** The names that the scan of [refresh_available_icons] collects. *)
Definition valid_names (l : FS.dir) : list string :=
  map fst
    (List.filter
       (fun icon_dir =>
          FS.is_dir (Some (snd icon_dir))
          && IconManager.validate_icon_set (Some (snd icon_dir))) l).

Lemma scan_spec (l : FS.dir) (im : IconManager.t) :
  for_each l
    (fun icon_dir =>
       if FS.is_dir (Some (snd icon_dir))
          && IconManager.validate_icon_set (Some (snd icon_dir))
       then IconManager.append_available (fst icon_dir)
       else ret tt) im
  = (Ok tt, IconManager.IconMgr (IconManager.icons_dir im)
              (IconManager.available_icon_sets im ++ valid_names l)).
Proof.
  revert im. induction l as [|[n x] l IH]; intros im; simpl.
  - unfold ret, valid_names. simpl. rewrite app_nil_r. by destruct im.
  - unfold bind, valid_names. simpl.
    destruct (_ && _); simpl.
    + rewrite IH. simpl. by rewrite <- app_assoc.
    + unfold ret. rewrite IH. done.
Qed.

Lemma install_default_frame (im im' : IconManager.t) r :
  IconManager.install_default_icon_collection e im = (r, im') ->
  forall m, m <> "default" ->
    FS.lookup (IconManager.icons_dir im') m
    = FS.lookup (IconManager.icons_dir im) m.
Proof.
  unfold IconManager.install_default_icon_collection, FS.mkdir. munfold.
  intros H m Hm.
  repeat (destruct_head H; simplify_eq/=);
    rewrite ?lookup_store_ne by done; done.
Qed.

(** [refresh_available_icons] never raises; it can change the entry
    [default] only, and not even that one when it validates. *)
Lemma refresh_spec (im im' : IconManager.t) r :
  IconManager.refresh_available_icons e im = (r, im') ->
  r = Ok tt
  /\ (forall m, m <> "default" ->
        FS.lookup (IconManager.icons_dir im') m
        = FS.lookup (IconManager.icons_dir im) m)
  /\ (forall x, FS.lookup (IconManager.icons_dir im) "default" = Some x ->
        IconManager.validate_icon_set (Some x) = true ->
        IconManager.icons_dir im' = IconManager.icons_dir im).
Proof.
  unfold IconManager.refresh_available_icons.
  unfold bind, modify, try_except, get. cbv beta iota.
  rewrite scan_spec. cbv beta iota.
  cbn [IconManager.available_icon_sets IconManager.icons_dir app].
  destruct (existsb (String.eqb "default")
              (valid_names (IconManager.icons_dir im))) eqn:Hex; cbn [negb].
  - unfold ret. intros [= <- <-]. simpl. auto.
  - destruct (IconManager.install_default_icon_collection e _)
      as [[[]|ex] im1] eqn:Hinst;
      unfold IconManager.append_available, modify, ret;
      intros [= <- <-]; simpl;
      (split; [done|]);
      (split; [intros m Hm;
               by rewrite (install_default_frame _ _ _ Hinst m Hm)|]);
      intros x Hx Hv; exfalso;
      (assert (Hd : "default" ∈ valid_names (IconManager.icons_dir im));
       [apply list_elem_of_fmap; exists ("default", x); split; [done|];
        apply list_elem_of_In, filter_In; split;
        [by apply list_elem_of_In, lookup_elem_of|];
        simpl; rewrite Hv, andb_true_r;
        unfold IconManager.validate_icon_set in Hv;
        by destruct x
       |apply list_elem_of_In in Hd;
        assert (existsb (String.eqb "default")
                  (valid_names (IconManager.icons_dir im)) = true)
          by (apply existsb_exists; exists "default"; split;
              [done|by apply String.eqb_eq]);
        congruence]).
Qed.

Lemma looped_icon_manager ui staged ms s ms' s' :
  looped e ui staged ms s ms' s' -> icon_manager s' = icon_manager s.
Proof.
  induction 1 as [|o x rest ms s ms1 s1 ms' s' Hst _ IH]; [done|].
  rewrite IH.
  destruct Hst as [| |i ms1 s1 ? ? Hc|i ms1 ex s1 ? ? Hc]; try done;
    by destruct (copy_set_frame _ _ _ _ _ _ _ Hc).
Qed.

(** C1, amended.  In a merge-mode vault import that returns normally,
    every bundled icon set replaces the icon set of the same name,
    whether the existing one validates or not: at the end the directory
    of the icon set is the bundled one.  (For the name [default] this is
    stated for a bundled set that validates; an incomplete [default] is
    completed by the refresh that follows.) *)
Theorem merge_replaces_icon_sets (ui : resolver) (temp bundled : FS.dir)
    (s s' : VaultManager.t) (im : IconManager.t) (name : string)
    (t : FS.dir) (r : option import_results) :
  icon_manager s = Some im ->
  imported_icons_path temp = Some (FS.Dir bundled) ->
  NoDup (map fst bundled) ->
  (name, FS.Dir t) ∈ bundled ->
  name <> "default" \/ IconManager.validate_icon_set (Some (FS.Dir t)) = true ->
  import_vault_merge e ui (ZipOf temp) s = (Ok r, s') ->
  exists im',
    icon_manager s' = Some im'
    /\ FS.lookup (IconManager.icons_dir im') name = Some (FS.Dir t).
Proof.
  intros Him Hic Hnd Hin Hname Hv.
  unfold import_vault_merge in Hv. unfold try_except in Hv.
  unfold bind at 1 in Hv. unfold lift at 1 in Hv. simpl in Hv.
  unfold bind at 1 in Hv.
  destruct (merge_icons e temp s) as [[[]|ex] s_i] eqn:Hmi.
  2:{ by destruct ex. }
  assert (Hicons : exists im',
             icon_manager s_i = Some im'
             /\ FS.lookup (IconManager.icons_dir im') name = Some (FS.Dir t)).
  { clear Hv. unfold merge_icons, with_icons in Hmi. munfold.
    rewrite Him, Hic in Hmi. simpl in Hmi.
    destruct (for_each bundled merge_icon_set im) as [[[]|ex] im1] eqn:Hfe;
      [|done].
    destruct (IconManager.refresh_available_icons e im1) as [r2 im2] eqn:Hrf.
    injection Hmi as -> <-. simpl. exists im2. split; [done|].
    destruct (merge_icon_sets_spec _ _ _ Hfe Hnd) as [Hb _].
    specialize (Hb name t Hin).
    destruct (refresh_spec _ _ _ Hrf) as (_ & Hoth & Hdef).
    destruct (decide (name = "default")) as [->|Hne].
    - destruct Hname as [?|Hval]; [done|].
      by rewrite (Hdef _ Hb Hval).
    - by rewrite Hoth. }
  destruct Hicons as (im' & Him' & Hl). exists im'. split; [|done].
  rewrite <- Him'.
  destruct (FS.exists_ (imported_sets_path temp)).
  - unfold get_available_sets in Hv. munfold. simpl in Hv.
    destruct (FS.iterdir (imported_sets_path temp)) as [staged|ex];
      [|by destruct ex].
    destruct (import_loop_spec e ui staged
                (merge_start (available (sets_dir s_i))) s_i)
      as (ms2 & s2 & Hl2 & Hlo).
    rewrite Hl2 in Hv. injection Hv as <- <-.
    by eapply looped_icon_manager.
  - munfold. by injection Hv as <- <-.
Qed.
End MergeIcons.

Section MergeIconsExamples.
Import VaultManager.

(** A complete icon set whose five images carry the tag [tag]. *)
Definition icon_set_of (tag : string) : FS.dir :=
  map (fun size =>
         (IconManager.icon_file size,
          FS.File (FS.Binary (tag +:+ "-" +:+ pretty size))))
      IconManager.icon_sizes.

(** A vault whose icon registry holds the complete sets [default] and
    [math]. *)
Definition icons_vault : VaultManager.t :=
  Vault [] ∅
    (Some (IconManager.IconMgr
             [("default", FS.Dir (icon_set_of "default"));
              ("math", FS.Dir (icon_set_of "local"))]
             ["default"; "math"]))
    0.

(** A vault archive that bundles an icon set [math] and no sets. *)
Definition icons_archive : FS.dir :=
  [("sets", FS.Dir []);
   ("icons", FS.Dir [("math", FS.Dir (icon_set_of "bundled"))])].

Definition local_icons : FS.dir :=
  match icon_manager icons_vault with
  | Some im => IconManager.icons_dir im
  | None => []
  end.

Definition merged_icons : FS.dir :=
  match icon_manager
          (snd (import_vault_merge env0 None (ZipOf icons_archive) icons_vault))
  with
  | Some im => IconManager.icons_dir im
  | None => []
  end.

(** C1 as stated fails: the icon set [math] of the vault validates, and
    the merge replaces it by the bundled one all the same. *)
Lemma merge_overwrites_valid_icon_set :
  IconManager.validate_icon_set (FS.lookup local_icons "math") = true
  /\ fst (import_vault_merge env0 None (ZipOf icons_archive) icons_vault)
     = Ok (Some (Results [] [] []))
  /\ FS.lookup merged_icons "math" = Some (FS.Dir (icon_set_of "bundled"))
  /\ FS.lookup merged_icons "math" <> FS.lookup local_icons "math".
Proof. vm_compute. repeat split; discriminate. Qed.

Lemma merge_replaces_icon_sets_witness :
  exists im',
    icon_manager
      (snd (import_vault_merge env0 None (ZipOf icons_archive) icons_vault))
    = Some im'
    /\ FS.lookup (IconManager.icons_dir im') "math"
       = Some (FS.Dir (icon_set_of "bundled")).
Proof.
  assert (Hnd : NoDup (map fst [("math", FS.Dir (icon_set_of "bundled"))]))
    by apply NoDup_singleton.
  assert (Hin : ("math", FS.Dir (icon_set_of "bundled"))
                  ∈ [("math", FS.Dir (icon_set_of "bundled"))])
    by apply list_elem_of_singleton, eq_refl.
  assert (Hne : "math" <> "default"
                \/ IconManager.validate_icon_set
                     (Some (FS.Dir (icon_set_of "bundled"))) = true)
    by (left; discriminate).
  assert (Hv : import_vault_merge env0 None (ZipOf icons_archive) icons_vault
               = (Ok (Some (Results [] [] [])),
                  snd (import_vault_merge env0 None (ZipOf icons_archive)
                         icons_vault)))
    by (vm_compute; reflexivity).
  exact (merge_replaces_icon_sets env0 None icons_archive _ icons_vault _ _
           "math" (icon_set_of "bundled") _ eq_refl eq_refl Hnd Hin Hne Hv).
Defined.
End MergeIconsExamples.

(** ** VaultManager.copy_media_file *)

Section CopyMedia.
Import VaultManager.














(** A vault whose set [Deck] already holds [cell.png] and [cell_1.png]. *)
Definition media_deck : FS.dir :=
  [("set.json", FS.File (FS.Json (FlashCardSet.to_dict deck)));
   ("images", FS.Dir [("cell.png", FS.File (FS.Binary "first"));
                      ("cell_1.png", FS.File (FS.Binary "second"))]);
   ("sounds", FS.Dir [])].

Definition media_vault : VaultManager.t :=
  Vault [("Deck", FS.Dir media_deck)] ∅ None 0.


Example copy_media_file_third_copy :
  fst (copy_media_file "cell.png" (Some (FS.File (FS.Binary "third"))) "Deck"
         "image" media_vault) = Ok "cell_2.png"
  /\ fst (copy_media_file "my:song?.mp3" (Some (FS.File (FS.Binary "x")))
            "Deck" "audio" media_vault) = Ok "my_song_.mp3".
Proof. vm_compute. done. Qed.
End CopyMedia.

(** * Further properties *)

(** ** FileManager.safe_filename, the guarantees that hold *)

Section SafeFilenameMore.
Import FileManager.

(** The name after the substitution and the strip, before the length is
    looked at. *)
Definition cleaned (filename : list ascii) : list ascii :=
  strip space_or_dot (sub_unsafe filename).

Definition all_safe (l : list ascii) : Prop :=
  Forall (fun c => is_unsafe c = false) l.

Lemma sub_unsafe_safe (l : list ascii) : all_safe (sub_unsafe l).
Proof.
  induction l as [|c l IH]; simpl; constructor; [|done].
  destruct (is_unsafe c) eqn:Hc; [reflexivity|done].
Qed.

Lemma all_safe_incl (l k : list ascii) :
  (forall c, c ∈ l -> c ∈ k) -> all_safe k -> all_safe l.
Proof.
  unfold all_safe. rewrite !Forall_forall. intros Hlk Hk c Hc. auto.
Qed.

Lemma elem_of_lstrip (p : ascii -> bool) (l : list ascii) (c : ascii) :
  c ∈ lstrip p l -> c ∈ l.
Proof.
  induction l as [|a l IH]; simpl; [done|].
  destruct (p a); [|done]. intros H. right. auto.
Qed.

Lemma elem_of_rev (l : list ascii) (c : ascii) : c ∈ rev l <-> c ∈ l.
Proof. rewrite !list_elem_of_In. symmetry. apply in_rev. Qed.

Lemma elem_of_strip (p : ascii -> bool) (l : list ascii) (c : ascii) :
  c ∈ strip p l -> c ∈ l.
Proof.
  unfold strip. rewrite elem_of_rev. intros H%elem_of_lstrip.
  apply (proj1 (elem_of_rev _ _)) in H. by apply elem_of_lstrip in H.
Qed.

Lemma elem_of_slice_to {A} (l : list A) (k : Z) (x : A) :
  x ∈ slice_to l k -> x ∈ l.
Proof.
  unfold slice_to. destruct (k <? 0)%Z; intros H;
    eapply elem_of_sublist; eauto using sublist_take.
Qed.

Lemma truncated_safe (l : list ascii) :
  all_safe l ->
  all_safe (slice_to (path_stem l) (255 - Z.of_nat (length (path_suffix l)))
              ++ path_suffix l).
Proof.
  intros Hl. apply Forall_app. split.
  - eapply all_safe_incl; [|exact Hl]. intros c Hc%elem_of_slice_to.
    unfold path_stem in Hc. destruct (suffix_start l); [|done].
    eapply elem_of_sublist; eauto using sublist_take.
  - eapply all_safe_incl; [|exact Hl]. intros c Hc.
    unfold path_suffix in Hc. destruct (suffix_start l).
    + eapply elem_of_sublist; eauto using sublist_drop.
    + by apply not_elem_of_nil in Hc.
Qed.

(** X1.  Whatever the input, the name that [safe_filename] returns is not
    empty and holds none of the nine characters of the unsafe class. *)
Theorem safe_filename_clean (filename : list ascii) :
  safe_filename_chars filename <> []
  /\ all_safe (safe_filename_chars filename).
Proof.
  unfold safe_filename_chars. fold (cleaned filename).
  assert (Hc : all_safe (cleaned filename)).
  { eapply all_safe_incl; [apply elem_of_strip|apply sub_unsafe_safe]. }
  set (name := match cleaned filename with [] => untitled | _ => cleaned filename end).
  assert (Hn : name <> [] /\ all_safe name).
  { unfold name. destruct (cleaned filename) as [|c l] eqn:Hcl.
    - split; [done|]. unfold all_safe, untitled. simpl.
      repeat constructor.
    - split; [done|exact Hc]. }
  destruct Hn as [Hne Hs]. clearbody name.
  destruct (255 <? length name)%nat eqn:Hlen; [|done].
  split; [|by apply truncated_safe].
  apply Nat.ltb_lt in Hlen.
  unfold path_stem, path_suffix. destruct (suffix_start name) as [i|] eqn:Hi.
  - intros Happ. apply app_eq_nil in Happ as [_ Hd].
    unfold suffix_start in Hi. destruct (rfind_dot name) as [k|]; [|done].
    destruct (_ && _) eqn:Hb; [|done]. injection Hi as <-.
    apply andb_true_iff in Hb as [_ Hb]. apply Nat.ltb_lt in Hb.
    apply (f_equal length) in Hd. rewrite length_drop in Hd. simpl in Hd.
    lia.
  - rewrite app_nil_r. unfold slice_to.
    change (255 - Z.of_nat (length (@nil ascii)) <? 0)%Z with false.
    change (255 - Z.of_nat (length (@nil ascii)))%Z with 255%Z.
    intros Hd. apply (f_equal length) in Hd. rewrite length_take in Hd.
    cbn [length] in Hd. lia.
Qed.

(** X2.  When the extension of the cleaned name has at most 255
    characters, the name returned has at most 255 characters. *)
Theorem safe_filename_bound (filename : list ascii) :
  length (path_suffix (cleaned filename)) <= 255 ->
  length (safe_filename_chars filename) <= 255.
Proof.
  intros Hext. unfold safe_filename_chars. fold (cleaned filename).
  destruct (cleaned filename) as [|c l] eqn:Hcl.
  - vm_compute. lia.
  - rewrite <- Hcl in Hext |- *.
    destruct (255 <? length (cleaned filename))%nat eqn:Hlen.
    + rewrite length_app. unfold slice_to.
      destruct (255 - Z.of_nat (length (path_suffix (cleaned filename))) <? 0)%Z
        eqn:Hneg; [apply Z.ltb_lt in Hneg; lia|].
      rewrite length_take. lia.
    + apply Nat.ltb_ge in Hlen. done.
Qed.

Lemma safe_filename_bound_witness :
  length (path_suffix (cleaned (list_ascii_of_string "my notes.txt"))) <= 255
  /\ length (safe_filename_chars (list_ascii_of_string "my notes.txt")) <= 255.
Proof.
  assert (H : length (path_suffix (cleaned (list_ascii_of_string "my notes.txt")))
              <= 255) by (vm_compute; lia).
  split; [exact H|].
  exact (safe_filename_bound (list_ascii_of_string "my notes.txt") H).
Defined.

Lemma lstrip_id (p : ascii -> bool) (c : ascii) (l : list ascii) :
  p c = false -> lstrip p (c :: l) = c :: l.
Proof. intros H. simpl. by rewrite H. Qed.

(** X3.  A name that is already safe comes back unchanged: no unsafe
    character, neither a space nor a dot at either end, between 1 and 255
    characters. *)
Theorem safe_filename_fixed (name : list ascii) :
  name <> [] ->
  all_safe name ->
  (forall c, head name = Some c -> space_or_dot c = false) ->
  (forall c, last name = Some c -> space_or_dot c = false) ->
  length name <= 255 ->
  safe_filename_chars name = name.
Proof.
  intros Hne Hs Hf Hl Hlen.
  assert (Hsub : sub_unsafe name = name).
  { clear -Hs. induction Hs as [|c l Hc _ IH]; simpl; [done|].
    by rewrite Hc, IH. }
  assert (Hstrip : strip space_or_dot name = name).
  { unfold strip. destruct name as [|first rest]; [done|].
    rewrite lstrip_id by (apply Hf; reflexivity).
    destruct (last (first :: rest)) as [c|] eqn:Hlast.
    - assert (Hc : space_or_dot c = false) by (by apply Hl).
      apply last_Some in Hlast as [front Hfront].
      rewrite Hfront, rev_app_distr.
      change (rev [c] ++ rev front) with (c :: rev front).
      rewrite lstrip_id by done.
      change (rev (c :: rev front)) with (rev (rev front) ++ [c]).
      by rewrite rev_involutive.
    - by apply last_None in Hlast. }
  unfold safe_filename_chars. rewrite Hsub, Hstrip.
  destruct name as [|first rest]; [done|].
  destruct (255 <? length (first :: rest))%nat eqn:Hb; [|done].
  apply Nat.ltb_lt in Hb. lia.
Qed.

Lemma safe_filename_fixed_witness :
  safe_filename_chars (list_ascii_of_string "cell_1.png")
  = list_ascii_of_string "cell_1.png"
  /\ safe_filename_chars (list_ascii_of_string "a") = list_ascii_of_string "a".
Proof.
  split.
  - apply (safe_filename_fixed (list_ascii_of_string "cell_1.png")).
    + discriminate.
    + unfold all_safe. repeat constructor.
    + intros c [= <-]. reflexivity.
    + intros c [= <-]. reflexivity.
    + simpl. lia.
  - apply (safe_filename_fixed (list_ascii_of_string "a")).
    + discriminate.
    + unfold all_safe. repeat constructor.
    + intros c [= <-]. reflexivity.
    + intros c [= <-]. reflexivity.
    + simpl. lia.
Defined.
End SafeFilenameMore.

(** ** Blocks of a card *)

Section CardBlocks.
Import FlashCard.

Definition index_ok (blocks : list ContentBlock.t) (i : Z) : Prop :=
  (0 <= i < Z.of_nat (length blocks))%Z.

Lemma index_guard (blocks : list ContentBlock.t) (i j : Z) :
  ((0 <=? i)%Z && (i <? Z.of_nat (length blocks))%Z
   && ((0 <=? j)%Z && (j <? Z.of_nat (length blocks))%Z)) = true
  <-> index_ok blocks i /\ index_ok blocks j.
Proof.
  unfold index_ok. rewrite !andb_true_iff, !Z.leb_le, !Z.ltb_lt. tauto.
Qed.

Definition blank_text : ContentBlock.t :=
  ContentBlock.Block (VStr "b0") (VStr "2024-01-01T00:00:00")
    (ContentBlock.TextBlock (VStr "") (VInt 12) (VStr "left")).

Definition sound_clip : ContentBlock.t :=
  ContentBlock.Block (VStr "b1") (VStr "2024-01-01T00:00:00")
    (ContentBlock.AudioBlock (VStr "audio/a.mp3") (VStr "") (VInt 3)).

Definition two_block_card : FlashCard.t :=
  Card (VStr "k") [blank_text; sound_clip] [sound_clip] (VStr "Unknown")
    (VStr "2024-01-01T00:00:00") VNone.

(** The side that is not [side]. *)
Definition other_side (side : string) : string :=
  if String.eqb side "information" then "answer" else "information".

(** X4.  [move_block] on a side that exists and with both indices within
    the side permutes the blocks of that side, puts the block that stood
    at [from_index] at [to_index], and leaves the other side and the
    other attributes of the card alone.  With an index out of range
    (negative ones included) it raises [IndexError], with an unknown side
    [ValueError], and the card is as it was. *)
Theorem move_block_spec (c : FlashCard.t) (side : string) (i j : Z) :
  (forall blocks, get_side_blocks side c = Ok blocks ->
     (index_ok blocks i /\ index_ok blocks j ->
        exists c' blocks',
          move_block side i j c = (Ok tt, c')
          /\ get_side_blocks side c' = Ok blocks'
          /\ blocks' ≡ₚ blocks
          /\ blocks' !! Z.to_nat j = blocks !! Z.to_nat i
          /\ get_side_blocks (other_side side) c'
             = get_side_blocks (other_side side) c
          /\ card_id c' = card_id c /\ status c' = status c
          /\ created_date c' = created_date c
          /\ last_studied c' = last_studied c)
     /\ (~ (index_ok blocks i /\ index_ok blocks j) ->
           move_block side i j c = (Raise IndexError, c)))
  /\ (get_side_blocks side c = Raise ValueError ->
        move_block side i j c = (Raise ValueError, c)).
Proof.
  unfold get_side_blocks, move_block, other_side. munfold.
  destruct (String.eqb side "information") eqn:Hi;
    [|destruct (String.eqb side "answer") eqn:Ha].
  3:{ split; [intros blocks [=]|done]. }
  all: split; [|intros [=]]; intros blocks [= <-]; cbv beta iota; split.
  all: try (intros Hn; destruct (_ && _) eqn:Hg;
            [apply index_guard in Hg; contradiction|reflexivity]).
  all: intros [Hf Ht];
    rewrite (proj2 (index_guard _ i j) (conj Hf Ht)); cbn [negb];
    match goal with
    | |- context [Py.pop ?l ?k] =>
        destruct (pop_in_range l k Hf) as (x & Hx & Hpop);
        rewrite Hpop; cbn [fst snd];
        assert (Hlen := length_without l _ x Hx);
        rewrite insert_in_range by (unfold index_ok in *; rewrite Hlen; lia);
        eexists _, _; split; [reflexivity|];
        cbn [information_side answer_side set_information_side
               set_answer_side card_id status created_date last_studied];
        rewrite ?Hi, ?Ha; cbn [String.eqb Ascii.eqb Bool.eqb];
        split; [reflexivity|];
        split; [by apply pop_insert_Permutation|];
        split; [rewrite Hx; apply lookup_inserted;
                unfold index_ok in *; rewrite Hlen; lia|];
        repeat split
    end.
Qed.

Lemma move_block_spec_witness :
  exists c' blocks',
    move_block "information" 0 1 two_block_card = (Ok tt, c')
    /\ get_side_blocks "information" c' = Ok blocks'
    /\ blocks' ≡ₚ [blank_text; sound_clip]
    /\ blocks' !! 1 = Some blank_text
    /\ answer_side c' = [sound_clip].
Proof.
  assert (Hi : index_ok (information_side two_block_card) 0
               /\ index_ok (information_side two_block_card) 1)
    by (unfold index_ok; simpl; lia).
  destruct (proj1 (proj1 (move_block_spec two_block_card "information" 0 1)
                     _ eq_refl) Hi)
    as (c' & blocks' & Hrun & Hside & Hperm & Hat & Hother & _).
  exists c', blocks'. split; [exact Hrun|]. split; [exact Hside|].
  split; [exact Hperm|]. split; [exact Hat|].
  injection Hother as Hother. exact Hother.
Defined.

(** X5.  [remove_block_from_side] with an index within the side deletes
    exactly the block at that index and keeps the others in their order;
    the other side is untouched.  Out of range, negative indices
    included, it raises [IndexError] and the card is as it was. *)
Theorem remove_block_spec (c : FlashCard.t) (side : string) (i : Z) :
  forall blocks, get_side_blocks side c = Ok blocks ->
    (index_ok blocks i ->
       exists c',
         remove_block_from_side side i c = (Ok tt, c')
         /\ get_side_blocks side c'
            = Ok (take (Z.to_nat i) blocks ++ drop (S (Z.to_nat i)) blocks)
         /\ get_side_blocks (other_side side) c'
            = get_side_blocks (other_side side) c)
    /\ (~ index_ok blocks i ->
          remove_block_from_side side i c = (Raise IndexError, c)).
Proof.
  unfold get_side_blocks, remove_block_from_side, other_side, index_ok.
  munfold.
  destruct (String.eqb side "information") eqn:Hi;
    [|destruct (String.eqb side "answer") eqn:Ha]; [| |intros blocks [=]].
  all: intros blocks [= <-]; cbv beta iota; split.
  all: try (intros Hn; destruct (_ && _) eqn:Hg; [|reflexivity];
            apply andb_true_iff in Hg as [H0 H1];
            apply Z.leb_le in H0; apply Z.ltb_lt in H1; lia).
  all: intros Hr;
    match goal with
    | |- context [Py.pop ?l ?k] =>
        destruct (pop_in_range l k Hr) as (x & Hx & Hpop)
    end;
    assert (Hg : forall n, (0 <= i < n)%Z -> ((0 <=? i)%Z && (i <? n)%Z) = true)
      by (intros n [? ?]; apply andb_true_iff; split;
          [by apply Z.leb_le|by apply Z.ltb_lt]);
    rewrite (Hg _ Hr), Hpop; cbn [fst snd];
    eexists; split; [reflexivity|];
    cbn [information_side answer_side set_information_side set_answer_side];
    rewrite ?Hi, ?Ha; cbn [String.eqb Ascii.eqb Bool.eqb]; done.
Qed.

Lemma remove_block_spec_witness :
  exists c',
    remove_block_from_side "information" 0 two_block_card = (Ok tt, c')
    /\ get_side_blocks "information" c' = Ok [sound_clip]
    /\ get_side_blocks "answer" c' = Ok [sound_clip].
Proof.
  assert (Hi : index_ok (information_side two_block_card) 0)
    by (unfold index_ok; simpl; lia).
  exact (proj1 (remove_block_spec two_block_card "information" 0 _ eq_refl) Hi).
Defined.

(** X6.  After [set_text] accepted a text, the block passes [validate];
    it accepts exactly the texts of at most 1024 characters. *)
Theorem set_text_validates (b : ContentBlock.t) (text : string) :
  ContentBlock.block_type b = "text" ->
  (String.length text <= 1024 ->
     exists b', ContentBlock.set_text text b = Ok b'
                /\ ContentBlock.validate b' = Ok true
                /\ ContentBlock.block_id b' = ContentBlock.block_id b)
  /\ (1024 < String.length text ->
        ContentBlock.set_text text b = Raise ValueError).
Proof.
  destruct b as [bid cd [tc fs al| | |]]; try discriminate. intros _.
  unfold ContentBlock.set_text, ContentBlock.validate, ContentBlock.max_chars.
  simpl ContentBlock.content. cbv iota. split; intros Hlen.
  - assert (Hb : (1024 <? String.length text)%nat = false)
      by (apply Nat.ltb_ge; lia).
    rewrite Hb. eexists. split; [reflexivity|].
    simpl. rewrite Hb. done.
  - assert (Hb : (1024 <? String.length text)%nat = true)
      by (apply Nat.ltb_lt; lia).
    by rewrite Hb.
Qed.

Lemma set_text_validates_witness :
  exists b', ContentBlock.set_text "mitochondria" blank_text = Ok b'
             /\ ContentBlock.validate b' = Ok true
             /\ ContentBlock.block_id b' = ContentBlock.block_id blank_text.
Proof.
  apply (proj1 (set_text_validates blank_text "mitochondria" eq_refl)).
  simpl. lia.
Defined.
End CardBlocks.

(** ** Cards of a set *)

Section SetCards.
Import FlashCardSet.

Lemma find_filter_other (id id' : string) (l : list FlashCard.t) :
  id' <> id ->
  List.find (fun card => str_eqb (FlashCard.card_id card) id')
    (List.filter (fun card => negb (str_eqb (FlashCard.card_id card) id)) l)
  = List.find (fun card => str_eqb (FlashCard.card_id card) id') l.
Proof.
  intros Hne. induction l as [|c l IH]; simpl; [done|].
  destruct (str_eqb (FlashCard.card_id c) id) eqn:Hc; simpl.
  - destruct (str_eqb (FlashCard.card_id c) id') eqn:Hc'; [|done].
    unfold str_eqb in Hc, Hc'. destruct (FlashCard.card_id c); try done.
    apply String.eqb_eq in Hc, Hc'. congruence.
  - by rewrite IH.
Qed.

Lemma find_filter_same (id : string) (l : list FlashCard.t) :
  List.find (fun card => str_eqb (FlashCard.card_id card) id)
    (List.filter (fun card => negb (str_eqb (FlashCard.card_id card) id)) l)
  = None.
Proof.
  induction l as [|c l IH]; simpl; [done|].
  destruct (str_eqb (FlashCard.card_id c) id) eqn:Hc; simpl; [done|].
  by rewrite Hc.
Qed.

(** X7.  [remove_card] always returns; afterwards [get_card] finds no card
    under the removed identifier and finds under every other identifier
    what it found before; the cards that remain are in their old order
    and the metadata are untouched. *)
Theorem remove_card_spec (id : string) (s : FlashCardSet.t) :
  exists s',
    remove_card id s = (Ok tt, s')
    /\ get_card id s' = None
    /\ (forall id', id' <> id -> get_card id' s' = get_card id' s)
    /\ cards s' `sublist_of` cards s
    /\ s' = set_cards (cards s') s.
Proof.
  eexists. split; [reflexivity|]. unfold get_card. simpl.
  split; [apply find_filter_same|].
  split; [intros id' Hne; by apply find_filter_other|].
  split; [|done].
  induction (cards s) as [|c l IH]; simpl; [done|].
  destruct (negb _); [by apply sublist_skip|by apply sublist_cons].
Qed.

Lemma find_app_card (f : FlashCard.t -> bool) (l : list FlashCard.t)
    (c : FlashCard.t) :
  List.find f (l ++ [c])
  = match List.find f l with
    | Some c0 => Some c0
    | None => if f c then Some c else None
    end.
Proof.
  induction l as [|a l IH]; simpl; [done|]. by destruct (f a).
Qed.

(** X8.  After [add_card], [get_card] still finds under an identifier the
    card it found before; the new card is found under its identifier only
    when no older card carries it. *)
Theorem add_card_get_card (card : FlashCard.t) (id : string)
    (s : FlashCardSet.t) :
  exists s',
    add_card card s = (Ok tt, s')
    /\ card_count s' = S (card_count s)
    /\ get_card id s'
       = match get_card id s with
         | Some older => Some older
         | None =>
             if str_eqb (FlashCard.card_id card) id then Some card else None
         end.
Proof.
  eexists. split; [reflexivity|]. unfold get_card, card_count. simpl.
  split; [rewrite length_app; simpl; lia|apply find_app_card].
Qed.

(** The cards have one of the three statuses each. *)
Definition statuses_valid (s : FlashCardSet.t) : Prop :=
  Forall (fun card =>
            existsb (str_eqb (FlashCard.status card)) FlashCard.valid_statuses
            = true)
         (cards s).

(** X9.  When every card has one of the statuses Known, Review and
    Unknown, the three filters of [get_cards_by_status] share out the
    cards: their sizes add up to the number of cards. *)
Theorem status_filters_partition (s : FlashCardSet.t) :
  statuses_valid s ->
  length (get_cards_by_status "Known" s)
  + length (get_cards_by_status "Review" s)
  + length (get_cards_by_status "Unknown" s)
  = card_count s.
Proof.
  unfold statuses_valid, get_cards_by_status, card_count.
  induction 1 as [|c l Hc _ IH]; simpl; [done|].
  unfold FlashCard.valid_statuses in Hc. simpl in Hc.
  unfold str_eqb in *. destruct (FlashCard.status c) as [| | |st| |];
    try discriminate.
  destruct (String.eqb st "Known") eqn:H1.
  - apply String.eqb_eq in H1 as ->. simpl. lia.
  - destruct (String.eqb st "Review") eqn:H2.
    + apply String.eqb_eq in H2 as ->. simpl. lia.
    + destruct (String.eqb st "Unknown") eqn:H3; [|discriminate].
      apply String.eqb_eq in H3 as ->. simpl. lia.
Qed.

Lemma status_filters_partition_witness :
  length (get_cards_by_status "Known" three_cards)
  + length (get_cards_by_status "Review" three_cards)
  + length (get_cards_by_status "Unknown" three_cards)
  = card_count three_cards.
Proof.
  apply status_filters_partition. unfold statuses_valid, three_cards. simpl.
  repeat constructor.
Defined.

(** X10.  [update_metadata] is not all-or-nothing: with a difficulty
    outside 1..5 it raises [ValueError] after the description and the tags
    given have been stored; the difficulty and the icon set stay. *)
Theorem update_metadata_partial (descr tgs icon : pyval) (z : Z)
    (s : FlashCardSet.t) :
  (z < 1 \/ 5 < z)%Z ->
  exists s',
    update_metadata descr tgs (Some z) icon s = (Raise ValueError, s')
    /\ description s' = match descr with VNone => description s | v => v end
    /\ tags s' = match tgs with
                 | VNone => tags s
                 | VList l => VList l
                 | v => VList [v]
                 end
    /\ difficulty_level s' = difficulty_level s
    /\ icon_set s' = icon_set s
    /\ cards s' = cards s.
Proof.
  intros Hz.
  assert (Hb : ((1 <=? z)%Z && (z <=? 5)%Z) = false).
  { apply andb_false_iff. rewrite Z.leb_gt, Z.leb_gt. lia. }
  unfold update_metadata. munfold. rewrite Hb.
  destruct descr, tgs; simpl; eexists; (split; [reflexivity|]); done.
Qed.

Lemma update_metadata_partial_witness :
  exists s',
    update_metadata (VStr "new text") VNone (Some 9%Z) (VStr "math") three_cards
    = (Raise ValueError, s')
    /\ description s' = VStr "new text"
    /\ icon_set s' = icon_set three_cards.
Proof.
  destruct (update_metadata_partial (VStr "new text") VNone (VStr "math") 9
              three_cards) as (s' & H & Hd & _ & _ & Hi & _); [lia|].
  exists s'. split; [exact H|]. split; [exact Hd|exact Hi].
Defined.
End SetCards.

(** ** Listing, deleting and renaming sets *)

Section SetsOnDisk.
Import VaultManager.
Context (e : env).

Lemma elem_of_lookup (es : FS.dir) (n : string) (x : FS.node) :
  (n, x) ∈ es -> exists y, FS.lookup es n = Some y.
Proof.
  induction es as [|[k y] es IH]; [by intros ?%elem_of_nil|].
  intros [[= <- <-]|Hin]%elem_of_cons; simpl.
  - rewrite eqb_string_refl. eauto.
  - destruct (String.eqb k n); eauto.
Qed.

Lemma elem_of_remove (es : FS.dir) (n m : string) (x : FS.node) :
  (m, x) ∈ FS.remove n es <-> m <> n /\ (m, x) ∈ es.
Proof.
  induction es as [|[k y] es IH]; simpl.
  - split; [by intros ?%elem_of_nil|by intros [_ ?%elem_of_nil]].
  - destruct (String.eqb k n) eqn:Hk.
    + apply String.eqb_eq in Hk as ->. rewrite IH, elem_of_cons.
      split; [tauto|]. intros [Hm [[= -> ->]|Hin]]; done.
    + apply String.eqb_neq in Hk. rewrite !elem_of_cons, IH.
      split; [intros [[= -> ->]|[? ?]]; auto|]. intros [Hm [?|?]]; auto.
Qed.

Lemma available_spec (d : FS.dir) (n : string) :
  n ∈ available d <-> exists x, (n, x) ∈ d /\ is_set x = true.
Proof.
  unfold available. rewrite merge_sort_Permutation, list_elem_of_fmap.
  split.
  - intros [[k x] [-> Hin]]. apply list_elem_of_In, filter_In in Hin as [Hin Hs].
    exists x. split; [by apply list_elem_of_In|done].
  - intros (x & Hin & Hs). exists (n, x). split; [done|].
    apply list_elem_of_In, filter_In. split; [by apply list_elem_of_In|done].
Qed.

(** X11.  [get_available_sets] returns, in ascending order, the names of
    exactly the directories of [sets/] that hold an entry [set.json]; the
    vault is as it was. *)
Theorem get_available_sets_spec (s : VaultManager.t) :
  exists names,
    get_available_sets s = (Ok names, s)
    /\ StronglySorted String.le names
    /\ forall n, n ∈ names
         <-> exists x, (n, x) ∈ sets_dir s
                       /\ FS.is_dir (Some x) = true
                       /\ FS.exists_ (FS.child (Some x) "set.json") = true.
Proof.
  exists (available (sets_dir s)). split; [reflexivity|]. split.
  - apply StronglySorted_merge_sort; apply _.
  - intros n. rewrite available_spec. unfold is_set.
    setoid_rewrite andb_true_iff. done.
Qed.

(** X12.  For the name of a directory entry.  [delete_set] of a set
    directory removes the directory and the cache entry and nothing else: the name is no longer listed, a later
    [load_set] raises [FileNotFoundError], and the other sets are as they
    were on disk and in the cache.  When a plain file stands under the
    name it raises [IOError], when nothing does [FileNotFoundError]; the
    vault is unchanged then. *)
Theorem delete_set_spec (n : string) (s : VaultManager.t) :
  FS.is_entry_name n = true ->
  (forall d, FS.lookup (sets_dir s) n = Some (FS.Dir d) ->
     exists s',
       delete_set n s = (Ok tt, s')
       /\ FS.lookup (sets_dir s') n = None
       /\ sets_cache s' !! n = None
       /\ (n ∉ available (sets_dir s'))
       /\ load_set e n s' = (Raise FileNotFoundError, s')
       /\ forall m, m <> n ->
            FS.lookup (sets_dir s') m = FS.lookup (sets_dir s) m
            /\ sets_cache s' !! m = sets_cache s !! m
            /\ (m ∈ available (sets_dir s') <-> m ∈ available (sets_dir s)))
  /\ (forall c, FS.lookup (sets_dir s) n = Some (FS.File c) ->
        delete_set n s = (Raise IOError, s))
  /\ (FS.lookup (sets_dir s) n = None ->
        delete_set n s = (Raise FileNotFoundError, s)).
Proof.
  intros _. unfold delete_set, FS.rmtree. munfold. split; [|split].
  - intros d Hd. rewrite Hd. simpl. eexists. split; [reflexivity|]. simpl.
    split; [apply lookup_remove_eq|].
    split; [apply lookup_delete_eq|].
    split.
    { rewrite available_spec. intros (x & Hin & _).
      apply elem_of_remove in Hin as [? _]. done. }
    split.
    { unfold load_set. munfold. simpl.
      by rewrite lookup_delete_eq, lookup_remove_eq. }
    intros m Hm. split; [by apply lookup_remove_ne|].
    split; [by apply lookup_delete_ne|].
    rewrite !available_spec. setoid_rewrite elem_of_remove.
    split; [intros (x & [_ ?] & ?); eauto|intros (x & ? & ?); eauto].
  - intros c Hc. by rewrite Hc.
  - intros Hn. by rewrite Hn.
Qed.


(** What a successful [rename_set] does. *)
Lemma rename_set_Ok (old new : string) (x : FS.node) (s : VaultManager.t) :
  old <> new ->
  fst (validate_set_name new s) = Ok true ->
  FS.lookup (sets_dir s) old = Some x ->
  FS.lookup (sets_dir s) new = None ->
  rename_set old new s
  = (Ok tt,
     Vault (FS.store new x (FS.remove old (sets_dir s)))
       (match sets_cache s !! old with
        | Some flash_set =>
            <[new := FlashCardSet.set_name (VStr new) flash_set]>
              (delete old (sets_cache s))
        | None => sets_cache s
        end)
       (icon_manager s) (tick s)).
Proof.
  intros Hne Hv Ho Hn. unfold rename_set, move.
  rewrite eqb_string_ne by done.
  destruct (validate_set_name_spec new s) as (b & Hb & _).
  unfold bind at 1. rewrite Hb in Hv |- *. simpl in Hv. injection Hv as ->.
  munfold. simpl. rewrite Ho, Hn. simpl.
  by destruct (sets_cache s !! old); destruct s.
Qed.


(** X14.  [rename_set] does not touch [set.json]: after a set was saved
    under its name, renamed, and the cache emptied (a restart),
    [load_set] under the new name gives a set that still carries the old
    name, while the entry that the cache held after the renaming carried
    the new one. *)
Theorem rename_keeps_stored_name (S0 : FlashCardSet.t) (old new : string)
    (s s1 s2 : VaultManager.t) :
  FlashCardSet.name S0 = VStr old ->
  Forall (fun c => truthy (FlashCard.card_id c) = true) (FlashCardSet.cards S0) ->
  old <> new ->
  save_set S0 s = (Ok tt, s1) ->
  rename_set old new s1 = (Ok tt, s2) ->
  sets_cache s2 !! new = Some (FlashCardSet.set_name (VStr new) S0)
  /\ exists S' s3,
       load_set e new (set_sets_cache ∅ s2) = (Ok S', s3)
       /\ FlashCardSet.name S' = VStr old
       /\ FlashCardSet.cards S' = FlashCardSet.cards S0.
Proof.
  intros Hn Hcs Hne Hsave Hren.
  destruct (save_set_files S0 old s s1 Hn Hsave)
    as (d & Hd & Hsj & Hcj & Hcache & _).
  assert (fst (validate_set_name new s1) = Ok true
          /\ FS.lookup (sets_dir s1) new = None) as [Hv Hfree].
  { revert Hren. unfold rename_set, move.
    rewrite eqb_string_ne by done.
    destruct (validate_set_name_spec new s1) as (b & Hb & _).
    unfold bind at 1. rewrite Hb. munfold.
    destruct b; simpl; [|done]. rewrite Hd. simpl.
    destruct (FS.lookup (sets_dir s1) new); simpl; done. }
  rewrite (rename_set_Ok old new _ s1 Hne Hv Hd Hfree) in Hren.
  injection Hren as <-. simpl.
  rewrite Hcache, lookup_insert_eq, lookup_insert_eq. split; [done|].
  destruct (set_round_trip e S0 (tick s1) Hcs) as [t1 Hrt].
  exists (FlashCardSet.set_last_accessed (VStr (clock e t1)) S0). eexists.
  split; [|by rewrite <- Hn].
  unfold load_set, with_tick. munfold. simpl.
  rewrite lookup_empty, lookup_store_eq. simpl. rewrite Hsj, Hcj. simpl.
  rewrite Hrt. simpl. reflexivity.
Qed.

End SetsOnDisk.

Section SetsOnDiskExamples.
Import VaultManager.

Lemma delete_set_spec_witness :
  FS.is_entry_name "Deck" = true
  /\ exists s',
    delete_set "Deck" deck_vault = (Ok tt, s')
    /\ FS.lookup (sets_dir s') "Deck" = None
    /\ sets_cache s' !! "Deck" = None
    /\ ("Deck" ∉ available (sets_dir s'))
    /\ load_set env0 "Deck" s' = (Raise FileNotFoundError, s').
Proof.
  assert (Hd : FS.lookup (sets_dir deck_vault) "Deck" = Some (FS.Dir deck_files))
    by (vm_compute; reflexivity).
  split; [reflexivity|].
  destruct (proj1 (delete_set_spec env0 "Deck" deck_vault eq_refl) _ Hd)
    as (s' & H1 & H2 & H3 & H4 & H5 & _).
  exists s'. repeat split; assumption.
Defined.


Definition renamed_vault : VaultManager.t :=
  snd (rename_set "Deck" "Cells" (snd (save_set deck empty_vault))).

Lemma rename_keeps_stored_name_witness :
  sets_cache renamed_vault !! "Cells"
  = Some (FlashCardSet.set_name (VStr "Cells") deck)
  /\ exists S' s3,
       load_set env0 "Cells" (set_sets_cache ∅ renamed_vault) = (Ok S', s3)
       /\ FlashCardSet.name S' = VStr "Deck"
       /\ FlashCardSet.cards S' = FlashCardSet.cards deck.
Proof.
  assert (Hsave : save_set deck empty_vault
                  = (Ok tt, snd (save_set deck empty_vault)))
    by (vm_compute; reflexivity).
  assert (Hren : rename_set "Deck" "Cells" (snd (save_set deck empty_vault))
                 = (Ok tt, renamed_vault))
    by (vm_compute; reflexivity).
  assert (Hcards : Forall (fun c => truthy (FlashCard.card_id c) = true)
                     (FlashCardSet.cards deck))
    by (repeat constructor).
  assert (Hne : "Deck" <> "Cells") by discriminate.
  exact (rename_keeps_stored_name env0 deck "Deck" "Cells" empty_vault _ _
           eq_refl Hcards Hne Hsave Hren).
Defined.
End SetsOnDiskExamples.

(** ** Saving and creating sets *)

Section SaveAndCreate.
Import VaultManager.
Context (e : env).

Lemma mkdir_Ok (k : string) (d d' : FS.dir) :
  FS.mkdir k d = Ok d' ->
  FS.is_dir (FS.lookup d' k) = true
  /\ forall j, j <> k -> FS.lookup d' j = FS.lookup d j.
Proof.
  unfold FS.mkdir. destruct (FS.lookup d k) as [[c|x]|] eqn:Hk; [done| |].
  - intros [= <-]. by rewrite Hk.
  - intros [= <-]. rewrite lookup_store_eq. split; [done|].
    intros j Hj. by apply lookup_store_ne.
Qed.

Lemma write_json_Ok (k : string) (v : pyval) (d d' : FS.dir) :
  FS.write_json k v d = Ok d' ->
  FS.lookup d' k = Some (FS.File (FS.Json v))
  /\ forall j, j <> k -> FS.lookup d' j = FS.lookup d j.
Proof.
  unfold FS.write_json, FS.write_file.
  destruct (FS.lookup d k) as [[c|x]|]; [|done|];
    intros [= <-]; rewrite lookup_store_eq; (split; [done|]);
    intros j Hj; by apply lookup_store_ne.
Qed.

(** A failing [in_set_dir] leaves the vault alone. *)
Lemma in_set_dir_Raise (n : string) (f : FS.dir -> result FS.dir)
    (s s' : VaultManager.t) (ex : exn) :
  in_set_dir n f s = (Raise ex, s') -> s' = s.
Proof.
  unfold in_set_dir. munfold.
  destruct (FS.lookup (sets_dir s) n) as [[c|d]|]; [by intros [= _ <-]| |
    by intros [= _ <-]].
  destruct (f d); [done|by intros [= _ <-]].
Qed.

(** What a successful [save_set] leaves behind. *)
Lemma save_set_layout (S0 : FlashCardSet.t) (n : string)
    (s s1 : VaultManager.t) :
  FlashCardSet.name S0 = VStr n ->
  save_set S0 s = (Ok tt, s1) ->
  exists d,
    FS.lookup (sets_dir s1) n = Some (FS.Dir d)
    /\ FS.lookup d "set.json"
       = Some (FS.File (FS.Json (FlashCardSet.to_dict S0)))
    /\ FS.lookup d "cards.json"
       = Some (FS.File (FS.Json (FlashCardSet.cards_to_dict S0)))
    /\ FS.is_dir (FS.lookup d "images") = true
    /\ FS.is_dir (FS.lookup d "sounds") = true
    /\ s1 = Vault (sets_dir s1) (<[n := S0]> (sets_cache s)) (icon_manager s)
              (tick s)
    /\ forall m, m <> n -> FS.lookup (sets_dir s1) m = FS.lookup (sets_dir s) m.
Proof.
  intros Hn. unfold save_set. rewrite Hn.
  unfold bind at 1. unfold get.
  unfold bind at 1. unfold lift.
  destruct (FS.mkdir n (sets_dir s)) as [sets|] eqn:Hmk; [|done].
  apply mkdir_Ok in Hmk as [_ Hothers].
  unfold bind at 1. unfold put.
  unfold bind at 1.
  destruct (in_set_dir n (FS.mkdir "images") _) as [[[]|] sa] eqn:Ha; [|done].
  unfold bind at 1.
  destruct (in_set_dir n (FS.mkdir "sounds") sa) as [[[]|] sb] eqn:Hb; [|done].
  unfold try_except.
  unfold bind at 1.
  destruct (in_set_dir n (FS.write_json "set.json" _) sb)
    as [[[]|] sc] eqn:Hc; [|done].
  unfold bind at 1.
  destruct (in_set_dir n (FS.write_json "cards.json" _) sc)
    as [[[]|] sd] eqn:Hd; [|done].
  unfold modify. intros [= <-].
  apply in_set_dir_Ok in Ha as (da & da' & _ & Hma & ->).
  apply in_set_dir_Ok in Hb as (db & db' & Hlb & Hmb & ->).
  apply in_set_dir_Ok in Hc as (dc & dc' & Hlc & Hwc & ->).
  apply in_set_dir_Ok in Hd as (dd & dd' & Hld & Hwd & ->).
  simpl in *. rewrite lookup_store_eq in Hlb, Hlc, Hld.
  injection Hlb as <-. injection Hlc as <-. injection Hld as <-.
  apply mkdir_Ok in Hma as [Hia _]. apply mkdir_Ok in Hmb as [Hsb Hob].
  apply write_json_Ok in Hwc as [Hsc Hoc]. apply write_json_Ok in Hwd as [Hcd Hod].
  exists dd'. rewrite lookup_store_eq. split; [done|].
  rewrite (Hod "set.json"), (Hod "images"), (Hod "sounds") by done.
  rewrite (Hoc "images"), (Hoc "sounds"), (Hob "images") by done.
  repeat (split; [done|]).
  intros m Hm. rewrite !lookup_store_ne by done. by apply Hothers.
Qed.

(** X15.  For a set whose name is the name of a directory entry.  After
    a successful [save_set] the set is listed, passes the
    checks of [validate_vault_integrity], and [load_set] returns the very
    set that was saved, from the cache, leaving the vault (and so the
    clock and [last_accessed]) alone; the other directories of [sets/] are
    as they were. *)
Theorem save_set_sound (S0 : FlashCardSet.t) (n : string)
    (s s1 : VaultManager.t) :
  FS.is_entry_name n = true ->
  FlashCardSet.name S0 = VStr n ->
  save_set S0 s = (Ok tt, s1) ->
  n ∈ available (sets_dir s1)
  /\ set_issues n s1 = []
  /\ load_set e n s1 = (Ok S0, s1)
  /\ forall m, m <> n -> FS.lookup (sets_dir s1) m = FS.lookup (sets_dir s) m.
Proof.
  intros _ Hn Hsave.
  destruct (save_set_layout S0 n s s1 Hn Hsave)
    as (d & Hd & Hsj & Hcj & Himg & Hsnd & Hs1 & Hothers).
  split.
  { apply (available_elem _ _ _ Hd). unfold is_set. simpl. by rewrite Hsj. }
  split.
  { unfold set_issues, get_set_metadata. munfold. rewrite Hd. simpl.
    rewrite Hsj, Hcj. simpl.
    destruct (FS.lookup d "images"); [|done].
    destruct (FS.lookup d "sounds"); done. }
  split; [|done].
  unfold load_set. munfold. rewrite Hs1. simpl. by rewrite lookup_insert_eq.
Qed.

(** X16.  A failing [save_set] raises [TypeError] (the name is not a
    string), [FileExistsError] (a plain file stands where a directory is
    needed) or [IOError], and the cache is as it was. *)
Theorem save_set_failure (S0 : FlashCardSet.t) (s s1 : VaultManager.t)
    (ex : exn) :
  save_set S0 s = (Raise ex, s1) ->
  sets_cache s1 = sets_cache s
  /\ (ex = TypeError \/ ex = FileExistsError \/ ex = IOError).
Proof.
  unfold save_set.
  destruct (FlashCardSet.name S0) as [| | |n| |];
    try (unfold raise; intros [= <- <-]; auto).
  unfold bind at 1. unfold get.
  unfold bind at 1. unfold lift.
  destruct (FS.mkdir n (sets_dir s)) as [sets|x] eqn:Hmk.
  2:{ intros [= <- <-]. split; [done|].
      unfold FS.mkdir in Hmk. destruct (FS.lookup _ _) as [[]|]; naive_solver. }
  apply mkdir_Ok in Hmk as [Hdir _].
  unfold bind at 1. unfold put.
  unfold bind at 1.
  destruct (in_set_dir n (FS.mkdir "images") _) as [[[]|x] sa] eqn:Ha.
  2:{ intros [= <- <-]. apply in_set_dir_Raise in Ha as Hsa. subst sa.
      split; [done|]. revert Ha. unfold in_set_dir, FS.mkdir. munfold. simpl.
      destruct (FS.lookup sets n) as [[c|d]|]; [done| |done].
      destruct (FS.lookup d "images") as [[]|]; naive_solver. }
  apply in_set_dir_Ok in Ha as (da & da' & _ & _ & ->).
  unfold bind at 1.
  destruct (in_set_dir n (FS.mkdir "sounds") _) as [[[]|x] sb] eqn:Hb.
  2:{ intros [= <- <-]. apply in_set_dir_Raise in Hb as Hsb. subst sb.
      split; [done|]. revert Hb. unfold in_set_dir, FS.mkdir. munfold. simpl.
      rewrite lookup_store_eq.
      destruct (FS.lookup da' "sounds") as [[]|]; naive_solver. }
  apply in_set_dir_Ok in Hb as (db & db' & _ & _ & ->).
  unfold try_except.
  unfold bind at 1.
  destruct (in_set_dir n (FS.write_json "set.json" _) _) as [[[]|x] sc] eqn:Hc.
  2:{ apply in_set_dir_Raise in Hc. subst sc. unfold raise.
      intros [= <- <-]. auto. }
  apply in_set_dir_Ok in Hc as (dc & dc' & _ & _ & ->).
  unfold bind at 1.
  destruct (in_set_dir n (FS.write_json "cards.json" _) _) as [[[]|x] sd] eqn:Hd.
  2:{ apply in_set_dir_Raise in Hd. subst sd. unfold raise.
      intros [= <- <-]. auto. }
  done.
Qed.

Lemma save_set_failure_witness :
  sets_cache (snd (save_set deck (Vault [("Deck", FS.File (FS.Text "x"))] ∅ None 0)))
  = ∅
  /\ (FileExistsError = TypeError \/ FileExistsError = FileExistsError
      \/ FileExistsError = IOError).
Proof.
  assert (H : save_set deck (Vault [("Deck", FS.File (FS.Text "x"))] ∅ None 0)
              = (Raise FileExistsError,
                 snd (save_set deck
                        (Vault [("Deck", FS.File (FS.Text "x"))] ∅ None 0))))
    by (vm_compute; reflexivity).
  exact (save_set_failure deck _ _ _ H).
Defined.

Lemma store_store (k : string) (x y : FS.node) (d : FS.dir) :
  FS.store k x (FS.store k y d) = FS.store k x d.
Proof.
  induction d as [|[j z] d IH]; simpl.
  - by rewrite eqb_string_refl.
  - destruct (String.eqb j k) eqn:Hj; simpl.
    + by rewrite eqb_string_refl.
    + by rewrite Hj, IH.
Qed.

(** The files of a set that was saved to a free place. *)
Definition fresh_files (S0 : FlashCardSet.t) : FS.dir :=
  [("images", FS.Dir []); ("sounds", FS.Dir []);
   ("set.json", FS.File (FS.Json (FlashCardSet.to_dict S0)));
   ("cards.json", FS.File (FS.Json (FlashCardSet.cards_to_dict S0)))].

Lemma save_set_fresh (S0 : FlashCardSet.t) (n : string) (s : VaultManager.t) :
  FlashCardSet.name S0 = VStr n ->
  FS.lookup (sets_dir s) n = None ->
  save_set S0 s
  = (Ok tt, Vault (FS.store n (FS.Dir (fresh_files S0)) (sets_dir s))
              (<[n := S0]> (sets_cache s)) (icon_manager s) (tick s)).
Proof.
  intros Hn Hfree. unfold save_set, in_set_dir, FS.mkdir. rewrite Hn.
  munfold. rewrite Hfree. simpl.
  rewrite !lookup_store_eq. simpl. rewrite !lookup_store_eq. simpl.
  rewrite !lookup_store_eq. simpl. rewrite !lookup_store_eq. simpl.
  by rewrite !store_store.
Qed.

(** The set that [create_set] builds at clock reading [t]. *)
Definition created (name : string) (description icon_set tags difficulty : pyval)
    (t : nat) : FlashCardSet.t :=
  FlashCardSet.CardSet (VStr name) description icon_set
    (if truthy tags then tags else VList []) difficulty
    (VStr (clock e t)) VNone
    [FlashCard.Card (VStr (uuid_src e (S t))) [] [] (VStr "Unknown")
       (VStr (clock e (S (S t)))) VNone].

(** X17.  For the name of a directory entry.  [create_set] with a name
    that [validate_set_name] accepts and
    under which nothing stands in [sets/] returns a set with the given
    metadata and one card with two empty sides and status Unknown; the
    set is written to its own new directory with both media folders, is
    cached and listed, and the other directories are as they were.  With
    a name that [validate_set_name] rejects it raises [ValueError] and
    the vault is unchanged. *)
Theorem create_set_spec (name : string)
    (description icon_set tags difficulty : pyval) (s : VaultManager.t) :
  FS.is_entry_name name = true ->
  (fst (validate_set_name name s) = Ok true ->
   FS.lookup (sets_dir s) name = None ->
   let flash_set := created name description icon_set tags difficulty (tick s) in
   exists s',
     create_set e name description icon_set tags difficulty s
     = (Ok flash_set, s')
     /\ FS.lookup (sets_dir s') name = Some (FS.Dir (fresh_files flash_set))
     /\ sets_cache s' !! name = Some flash_set
     /\ name ∈ available (sets_dir s')
     /\ set_issues name s' = []
     /\ forall m, m <> name ->
          FS.lookup (sets_dir s') m = FS.lookup (sets_dir s) m)
  /\ (fst (validate_set_name name s) = Ok false ->
      create_set e name description icon_set tags difficulty s
      = (Raise ValueError, s)).
Proof.
  intros _.
  destruct (validate_set_name_spec name s) as (b & Hb & _).
  rewrite Hb. simpl.
  split; intros [= ->]; unfold create_set; unfold bind at 1; rewrite Hb;
    cbn [negb]; [|reflexivity].
  intros Hfree. cbv zeta.
  unfold with_tick, FlashCardSet.init, FlashCardSet.create_empty_card,
    FlashCard.init, now, uuid4. munfold. simpl.
  rewrite save_set_fresh with (n := name) by done. simpl.
  eexists. split; [reflexivity|]. simpl.
  rewrite lookup_store_eq, lookup_insert_eq.
  split; [done|]. split; [done|].
  split.
  { eapply available_elem; [apply lookup_store_eq|done]. }
  split.
  { unfold set_issues, get_set_metadata. munfold. simpl.
    rewrite lookup_store_eq. done. }
  intros m Hm. by apply lookup_store_ne.
Qed.
End SaveAndCreate.

Section SaveAndCreateExamples.
Import VaultManager.

Lemma save_set_sound_witness :
  "Deck" ∈ available (sets_dir (snd (save_set deck empty_vault)))
  /\ set_issues "Deck" (snd (save_set deck empty_vault)) = []
  /\ load_set env0 "Deck" (snd (save_set deck empty_vault))
     = (Ok deck, snd (save_set deck empty_vault)).
Proof.
  assert (Hsave : save_set deck empty_vault
                  = (Ok tt, snd (save_set deck empty_vault)))
    by (vm_compute; reflexivity).
  destruct (save_set_sound env0 deck "Deck" empty_vault _ eq_refl eq_refl Hsave)
    as (H1 & H2 & H3 & _).
  repeat split; assumption.
Defined.

Lemma create_set_spec_witness :
  exists s',
    create_set env0 "Plants" (VStr "") (VStr "default") VNone (VInt 1) deck_vault
    = (Ok (created env0 "Plants" (VStr "") (VStr "default") VNone (VInt 1) 0), s')
    /\ ("Plants" ∈ available (sets_dir s'))
    /\ FS.lookup (sets_dir s') "Deck" = FS.lookup (sets_dir deck_vault) "Deck".
Proof.
  assert (Hv : fst (validate_set_name "Plants" deck_vault) = Ok true)
    by (vm_compute; reflexivity).
  assert (Hfree : FS.lookup (sets_dir deck_vault) "Plants" = None)
    by (vm_compute; reflexivity).
  destruct (proj1 (create_set_spec env0 "Plants" (VStr "") (VStr "default")
                     VNone (VInt 1) deck_vault eq_refl) Hv Hfree)
    as (s' & H1 & _ & _ & H4 & _ & H6).
  exists s'. split; [exact H1|]. split; [exact H4|]. by apply H6.
Defined.
End SaveAndCreateExamples.

(** ** Updating the metadata of a set *)

Section UpdateMetadata.
Import VaultManager.
Context (e : env).





End UpdateMetadata.

Section UpdateMetadataExamples.
Import VaultManager.


End UpdateMetadataExamples.

(** ** Removing unused media *)

Section CleanupMedia.
Import VaultManager.
Context (e : env).

(** A successful [load_set] changes the cache and the clock only. *)
Lemma load_set_Ok_dir (n : string) (s s0 : VaultManager.t)
    (flash_set : FlashCardSet.t) :
  load_set e n s = (Ok flash_set, s0) ->
  sets_dir s0 = sets_dir s /\ icon_manager s0 = icon_manager s.
Proof.
  unfold load_set, with_tick. munfold.
  destruct (sets_cache s !! n); [by intros [= _ <-]|].
  destruct (negb _); [done|].
  assert (Hh : forall (x : exn) (s1 : VaultManager.t),
             match x with
             | JSONDecodeError =>
                 fun s2 : VaultManager.t => (Raise (A:=FlashCardSet.t) ValueError, s2)
             | _ => fun s2 => (Raise IOError, s2)
             end s1 <> (Ok flash_set, s0))
    by (intros x s1; destruct x; discriminate).
  destruct (FS.read_json _) as [set_data|x]; [|by intros ?%Hh].
  destruct (FS.exists_ _).
  - destruct (FS.read_json _) as [cards_data|x]; [|by intros ?%Hh].
    destruct (FlashCardSet.from_dict e set_data cards_data (tick s))
      as [[fs|x] t1]; simpl; [by intros [= _ <-]|by intros ?%Hh].
  - destruct (FlashCardSet.from_dict e set_data VNone (tick s))
      as [[fs|x] t1]; simpl; [by intros [= _ <-]|by intros ?%Hh].
Qed.

(** A file is referenced when the path of some block of the set names it. *)
Definition referenced_by (flash_set : FlashCardSet.t) (f : string) : Prop :=
  exists b, b ∈ all_blocks flash_set /\ media_reference b = Ok (Some f).

Lemma collect_references_spec (blocks : list ContentBlock.t)
    (acc refs : list string) :
  collect_references blocks acc = Ok refs ->
  forall f, f ∈ refs
    <-> f ∈ acc \/ exists b, b ∈ blocks /\ media_reference b = Ok (Some f).
Proof.
  revert acc. induction blocks as [|b blocks IH]; intros acc; simpl.
  - intros [= <-] f. split; [auto|]. intros [?|(b & ?%elem_of_nil & _)]; done.
  - destruct (media_reference b) as [[g|]|] eqn:Hb; [| |done]; intros H f;
      rewrite (IH _ H f).
    + rewrite elem_of_app, list_elem_of_singleton. split.
      * intros [[?| ->]|(b' & ? & ?)]; [auto|right..].
        -- exists b. split; [left|done].
        -- exists b'. split; [by right|done].
      * intros [?|(b' & [->|?]%elem_of_cons & Hb')]; [auto| |].
        -- rewrite Hb in Hb'. injection Hb' as ->. auto.
        -- right. eauto.
    + split.
      * intros [?|(b' & ? & ?)]; [auto|right].
        exists b'. split; [by right|done].
      * intros [?|(b' & [->|?]%elem_of_cons & Hb')]; [auto| |].
        -- rewrite Hb in Hb'. discriminate.
        -- right. eauto.
Qed.

Lemma sweep_kept (refs : list string) (media : FS.dir) (f : string)
    (x : FS.node) :
  (f, x) ∈ (sweep refs media).1
  <-> (f, x) ∈ media /\ (is_file x = false \/ f ∈ refs).
Proof.
  unfold sweep. simpl. rewrite list_elem_of_In, filter_In, <- list_elem_of_In.
  simpl. destruct (is_file x); simpl.
  - rewrite negb_involutive, bool_decide_eq_true. naive_solver.
  - naive_solver.
Qed.

Lemma sweep_gone (refs : list string) (media : FS.dir) (f : string) :
  f ∈ (sweep refs media).2
  <-> exists x, (f, x) ∈ media /\ is_file x = true /\ f ∉ refs.
Proof.
  unfold sweep. simpl. rewrite list_elem_of_fmap. split.
  - intros [[g x] [-> Hin]].
    apply list_elem_of_In, filter_In in Hin as [Hin Hp]. simpl in *.
    apply andb_true_iff in Hp as [Hf Hr].
    apply negb_true_iff, bool_decide_eq_false in Hr.
    exists x. by rewrite list_elem_of_In.
  - intros (x & Hin & Hf & Hr). exists (f, x). split; [done|].
    apply list_elem_of_In, filter_In. split; [by apply list_elem_of_In|].
    simpl. rewrite Hf. simpl. by apply negb_true_iff, bool_decide_eq_false.
Qed.

(** One folder before and after its sweep, and the names removed. *)
Definition swept (refs : list string) (before after : option FS.node)
    (gone : list string) : Prop :=
  match before with
  | None => after = None /\ gone = []
  | Some (FS.Dir media) =>
      after = Some (FS.Dir (sweep refs media).1) /\ gone = (sweep refs media).2
  | Some (FS.File _) => False
  end.

Lemma cleanup_folder_Ok (n folder : string) (refs : list string)
    (removed r : list (string * string)) (s s' : VaultManager.t) :
  cleanup_folder n folder refs removed s = (Ok r, s') ->
  exists gone,
    r = removed ++ map (fun f => (folder, f)) gone
    /\ swept refs (FS.child (FS.lookup (sets_dir s) n) folder)
         (FS.child (FS.lookup (sets_dir s') n) folder) gone
    /\ sets_cache s' = sets_cache s /\ tick s' = tick s
    /\ (forall m, m <> n ->
          FS.lookup (sets_dir s') m = FS.lookup (sets_dir s) m)
    /\ (forall k, k <> folder ->
          FS.child (FS.lookup (sets_dir s') n) k
          = FS.child (FS.lookup (sets_dir s) n) k).
Proof.
  unfold cleanup_folder, in_set_dir, sweep, swept. munfold.
  destruct (FS.lookup (sets_dir s) n) as [[c|d]|] eqn:Hd; simpl.
  1,3: intros [= <- <-]; exists []; rewrite Hd; simpl;
       by rewrite app_nil_r.
  destruct (FS.lookup d folder) as [[c|media]|] eqn:Hm; simpl.
  - done.
  - rewrite Hd. simpl. intros [= <- <-]. simpl. eexists.
    split; [reflexivity|]. rewrite !lookup_store_eq. simpl.
    rewrite lookup_store_eq. split; [done|].
    split; [done|]. split; [done|].
    split; [intros m Hne; by apply lookup_store_ne|].
    intros k Hk. by apply lookup_store_ne.
  - intros [= <- <-]. exists []. rewrite Hd. simpl. rewrite Hm.
    by rewrite app_nil_r.
Qed.

(** X19.  When [cleanup_unused_media] returns, it has loaded the set (so
    the set is cached), and in each of the folders [images] and [sounds]
    that exists it has removed exactly the regular files whose name no
    block of the set gives as its image, audio or video path, and reports
    exactly those; files that a block names and subdirectories stay, and
    so do the other entries of the set and the other sets. *)
Theorem cleanup_unused_media_spec (n : string) (s s' : VaultManager.t)
    (removed : list (string * string)) :
  cleanup_unused_media e n s = (Ok removed, s') ->
  exists flash_set s0,
    load_set e n s = (Ok flash_set, s0)
    /\ sets_cache s' = sets_cache s0
    /\ (forall m, m <> n ->
          FS.lookup (sets_dir s') m = FS.lookup (sets_dir s) m)
    /\ (forall k, k <> "images" -> k <> "sounds" ->
          FS.child (FS.lookup (sets_dir s') n) k
          = FS.child (FS.lookup (sets_dir s) n) k)
    /\ forall folder, folder = "images" \/ folder = "sounds" ->
         match FS.child (FS.lookup (sets_dir s) n) folder with
         | Some (FS.Dir media) =>
             exists kept,
               FS.child (FS.lookup (sets_dir s') n) folder
               = Some (FS.Dir kept)
               /\ (forall f x,
                     (f, x) ∈ kept
                     <-> (f, x) ∈ media
                         /\ (is_file x = false \/ referenced_by flash_set f))
               /\ (forall f,
                     (folder, f) ∈ removed
                     <-> exists x, (f, x) ∈ media /\ is_file x = true
                                   /\ ~ referenced_by flash_set f)
         | Some (FS.File _) => False
         | None =>
             FS.child (FS.lookup (sets_dir s') n) folder = None
             /\ forall f, (folder, f) ∉ removed
         end.
Proof.
  unfold cleanup_unused_media. unfold try_except.
  unfold bind at 1.
  destruct (load_set e n s) as [[flash_set|x] s0] eqn:Hload; [|done].
  destruct (load_set_Ok_dir _ _ _ _ Hload) as [Hdir0 _].
  unfold bind at 1. unfold lift.
  destruct (collect_references (all_blocks flash_set) []) as [refs|x] eqn:Hrefs;
    [|done].
  assert (Href : forall f, f ∈ refs <-> referenced_by flash_set f).
  { intros f. rewrite (collect_references_spec _ _ _ Hrefs f).
    unfold referenced_by. split; [intros [?%elem_of_nil|?]; done|auto]. }
  unfold bind at 1.
  destruct (cleanup_folder n "images" refs [] s0) as [[r1|x] s1] eqn:H1; [|done].
  destruct (cleanup_folder n "sounds" refs r1 s1) as [[r2|x] s2] eqn:H2; [|done].
  intros [= <- <-].
  apply cleanup_folder_Ok in H1 as (g1 & -> & Hsw1 & Hc1 & _ & Ho1 & Hk1).
  apply cleanup_folder_Ok in H2 as (g2 & -> & Hsw2 & Hc2 & _ & Ho2 & Hk2).
  rewrite Hdir0 in *. simpl in *.
  exists flash_set, s0. split; [done|].
  split; [congruence|].
  split; [intros m Hm; rewrite Ho2, Ho1 by done; done|].
  split; [intros k Hi Hs; rewrite Hk2, Hk1 by done; done|].
  assert (Hin : forall folder f,
            (folder, f) ∈ map (fun f => ("images", f)) g1
                          ++ map (fun f => ("sounds", f)) g2
            <-> (folder = "images" /\ f ∈ g1) \/ (folder = "sounds" /\ f ∈ g2)).
  { intros folder f. rewrite elem_of_app, !list_elem_of_fmap. split.
    - intros [(g & [= -> ->] & ?)|(g & [= -> ->] & ?)]; auto.
    - intros [[-> ?]|[-> ?]]; [left|right]; eauto. }
  intros folder [-> | ->].
  - rewrite (Hk2 "images") by done. unfold swept in Hsw1.
    destruct (FS.child (FS.lookup (sets_dir s) n) "images") as [[c|media]|].
    + done.
    + destruct Hsw1 as [-> ->]. eexists. split; [done|]. split.
      * intros f x. rewrite sweep_kept, Href. done.
      * intros f. rewrite Hin, sweep_gone. setoid_rewrite Href.
        split; [intros [[_ ?]|[? _]]; done|auto].
    + destruct Hsw1 as [-> ->]. split; [done|].
      intros f. rewrite Hin. intros [[_ ?%elem_of_nil]|[? _]]; done.
  - rewrite (Hk1 "sounds") in Hsw2 by done. unfold swept in Hsw2.
    destruct (FS.child (FS.lookup (sets_dir s) n) "sounds") as [[c|media]|].
    + done.
    + destruct Hsw2 as [-> ->]. eexists. split; [done|]. split.
      * intros f x. rewrite sweep_kept, Href. done.
      * intros f. rewrite Hin, sweep_gone. setoid_rewrite Href.
        split; [intros [[? _]|[_ ?]]; done|auto].
    + destruct Hsw2 as [-> ->]. split; [done|].
      intros f. rewrite Hin. intros [[? _]|[_ ?%elem_of_nil]]; done.
Qed.
End CleanupMedia.

Section CleanupMediaExamples.
Import VaultManager.

(** The set [Deck] with the image its card shows and one that no card
    shows. *)
Definition cluttered_vault : VaultManager.t :=
  Vault [("Deck",
          FS.Dir (FS.store "images"
                    (FS.Dir [("cell.png", FS.File (FS.Binary "shown"));
                             ("old.png", FS.File (FS.Binary "stale"))])
                    deck_files))]
        ∅ None 0.

Lemma cleanup_unused_media_spec_witness :
  cleanup_unused_media env0 "Deck" cluttered_vault
  = (Ok [("images", "old.png")],
     snd (cleanup_unused_media env0 "Deck" cluttered_vault))
  /\ exists flash_set s0,
       load_set env0 "Deck" cluttered_vault = (Ok flash_set, s0)
       /\ sets_cache (snd (cleanup_unused_media env0 "Deck" cluttered_vault))
          = sets_cache s0.
Proof.
  assert (Hrun : cleanup_unused_media env0 "Deck" cluttered_vault
                 = (Ok [("images", "old.png")],
                    snd (cleanup_unused_media env0 "Deck" cluttered_vault)))
    by (vm_compute; reflexivity).
  split; [exact Hrun|].
  destruct (cleanup_unused_media_spec env0 "Deck" cluttered_vault _ _ Hrun)
    as (flash_set & s0 & Hload & Hcache & _).
  exists flash_set, s0. split; assumption.
Defined.
End CleanupMediaExamples.

(** ** The list of icon sets *)

Section IconSets.
Import IconManager.
Context (e : env).

Lemma NoDup_dir_lookup (l : FS.dir) (n : string) (x : FS.node) :
  NoDup (map fst l) -> (n, x) ∈ l -> FS.lookup l n = Some x.
Proof.
  induction l as [|[k y] l IH]; [by intros _ ?%elem_of_nil|].
  simpl. intros [Hk Hl]%NoDup_cons [[= <- <-]|Hin]%elem_of_cons.
  - by rewrite eqb_string_refl.
  - destruct (String.eqb k n) eqn:Hkn; [|by apply IH].
    apply String.eqb_eq in Hkn as ->. exfalso. apply Hk.
    apply list_elem_of_fmap. by exists (n, x).
Qed.

Lemma valid_names_spec (l : FS.dir) (n : string) :
  n ∈ valid_names l
  <-> exists x, (n, x) ∈ l /\ validate_icon_set (Some x) = true.
Proof.
  unfold valid_names. rewrite list_elem_of_fmap. split.
  - intros [[k x] [-> Hin]].
    apply list_elem_of_In, filter_In in Hin as [Hin Hp].
    apply andb_true_iff in Hp as [_ Hv]. exists x.
    by rewrite list_elem_of_In.
  - intros (x & Hin & Hv). exists (n, x). split; [done|].
    apply list_elem_of_In, filter_In. split; [by apply list_elem_of_In|].
    simpl. rewrite Hv, andb_true_r. unfold validate_icon_set in Hv.
    by destruct x.
Qed.

Lemma existsb_default (l : list string) :
  existsb (String.eqb "default") l = true <-> "default" ∈ l.
Proof.
  rewrite existsb_exists. setoid_rewrite String.eqb_eq.
  setoid_rewrite <- list_elem_of_In. naive_solver.
Qed.

Lemma exists_store (d : FS.dir) (k j : string) (x : FS.node) :
  FS.exists_ (FS.lookup d j) = true ->
  FS.exists_ (FS.lookup (FS.store k x d) j) = true.
Proof.
  intros H. destruct (String.eqb k j) eqn:Hk.
  - apply String.eqb_eq in Hk as ->. by rewrite lookup_store_eq.
  - apply String.eqb_neq in Hk. by rewrite lookup_store_ne.
Qed.

Lemma fill_sizes (sizes : list nat) (d : FS.dir) :
  let filled :=
    fold_left
      (fun d size =>
         if FS.exists_ (FS.lookup d (icon_file size)) then d
         else FS.store (icon_file size)
                (FS.File (FS.Binary (default_png e size))) d)
      sizes d in
  (forall j, FS.exists_ (FS.lookup d j) = true ->
             FS.exists_ (FS.lookup filled j) = true)
  /\ forall size, size ∈ sizes ->
       FS.exists_ (FS.lookup filled (icon_file size)) = true.
Proof.
  revert d. induction sizes as [|a sizes IH]; intros d; simpl.
  - split; [done|]. by intros size ?%elem_of_nil.
  - destruct (IH (if FS.exists_ (FS.lookup d (icon_file a)) then d
                  else FS.store (icon_file a)
                         (FS.File (FS.Binary (default_png e a))) d))
      as [Hmono Hall].
    assert (Ha : FS.exists_
                   (FS.lookup
                      (if FS.exists_ (FS.lookup d (icon_file a)) then d
                       else FS.store (icon_file a)
                              (FS.File (FS.Binary (default_png e a))) d)
                      (icon_file a)) = true).
    { destruct (FS.exists_ (FS.lookup d (icon_file a))) eqn:Hx; [done|].
      by rewrite lookup_store_eq. }
    split.
    + intros j Hj. apply Hmono.
      destruct (FS.exists_ (FS.lookup d (icon_file a))); [done|].
      by apply exists_store.
    + intros size [->|Hin]%elem_of_cons; [by apply Hmono|by apply Hall].
Qed.

Lemma fill_default_valid (d : FS.dir) :
  validate_icon_set (Some (FS.Dir (fill_default e d))) = true.
Proof.
  unfold validate_icon_set. cbn [FS.exists_ FS.is_dir negb orb FS.child].
  apply forallb_forall.
  intros size Hin. apply (proj2 (fill_sizes icon_sizes d)).
  by apply list_elem_of_In.
Qed.

(** The list and the folder after [refresh_available_icons]. *)
Lemma refresh_run (im : IconManager.t) :
  let names := valid_names (icons_dir im) in
  refresh_available_icons e im
  = (Ok tt,
     if existsb (String.eqb "default") names then IconMgr (icons_dir im) names
     else
       match FS.lookup (icons_dir im) "default" with
       | Some (FS.File _) => IconMgr (icons_dir im) names
       | Some (FS.Dir d) =>
           IconMgr (FS.store "default" (FS.Dir (fill_default e d)) (icons_dir im))
             (names ++ ["default"])
       | None =>
           IconMgr (FS.store "default" (FS.Dir (fill_default e []))
                      (icons_dir im))
             (names ++ ["default"])
       end).
Proof.
  unfold refresh_available_icons.
  unfold bind, modify, try_except, get. cbv beta iota zeta.
  rewrite scan_spec. cbv beta iota.
  cbn [available_icon_sets icons_dir app].
  destruct (existsb _ _); cbn [negb]; [reflexivity|].
  unfold install_default_icon_collection, append_available, FS.mkdir. munfold.
  cbn [available_icon_sets icons_dir].
  destruct (FS.lookup (icons_dir im) "default") as [[c|d]|] eqn:Hd;
    cbn [available_icon_sets icons_dir fst snd].
  - reflexivity.
  - rewrite Hd. reflexivity.
  - rewrite lookup_store_eq. cbn [available_icon_sets icons_dir].
    by rewrite store_store.
Qed.

(** X20.  [refresh_available_icons] never raises and starts the list
    afresh.  With distinct names in the icons folder, every name it lists
    is afterwards a complete icon set on disk (a directory with all five
    sizes), and every complete icon set is listed; [default] is listed
    unless a plain file stands in its place, being completed with the
    built-in icons when sizes are missing. *)
Theorem refresh_available_icons_spec (im : IconManager.t) :
  NoDup (map fst (icons_dir im)) ->
  exists im',
    refresh_available_icons e im = (Ok tt, im')
    /\ (forall n, n ∈ available_icon_sets im' ->
          validate_icon_set (FS.lookup (icons_dir im') n) = true)
    /\ (forall n, validate_icon_set (FS.lookup (icons_dir im) n) = true ->
          n ∈ available_icon_sets im')
    /\ ((forall c, FS.lookup (icons_dir im) "default" <> Some (FS.File c)) ->
        "default" ∈ available_icon_sets im')
    /\ forall m, m <> "default" ->
         FS.lookup (icons_dir im') m = FS.lookup (icons_dir im) m.
Proof.
  intros Hnd. eexists. split; [apply refresh_run|]. cbv zeta.
  assert (Hsound : forall n, n ∈ valid_names (icons_dir im) ->
            validate_icon_set (FS.lookup (icons_dir im) n) = true).
  { intros n (x & Hin & Hv)%valid_names_spec.
    by rewrite (NoDup_dir_lookup _ _ _ Hnd Hin). }
  assert (Hcomplete : forall n,
            validate_icon_set (FS.lookup (icons_dir im) n) = true ->
            n ∈ valid_names (icons_dir im)).
  { intros n Hv. apply valid_names_spec.
    destruct (FS.lookup (icons_dir im) n) as [x|] eqn:Hx; [|done].
    exists x. split; [by apply lookup_elem_of|done]. }
  destruct (existsb _ _) eqn:Hex.
  { apply existsb_default in Hex. simpl. repeat split; auto. }
  assert (Hdef : "default" ∉ valid_names (icons_dir im)).
  { intros Hin%existsb_default. congruence. }
  destruct (FS.lookup (icons_dir im) "default") as [[c|d]|] eqn:Hd; simpl.
  - repeat split; auto. intros Hc. by destruct (Hc c).
  - split.
    { intros n [Hn| ->%list_elem_of_singleton]%elem_of_app.
      + rewrite lookup_store_ne by (intros <-; done). by apply Hsound.
      + rewrite lookup_store_eq. apply fill_default_valid. }
    split; [intros n Hn; apply elem_of_app; auto|].
    split; [intros _; apply elem_of_app; right; by left|].
    intros m Hm. by rewrite lookup_store_ne.
  - split.
    { intros n [Hn| ->%list_elem_of_singleton]%elem_of_app.
      + rewrite lookup_store_ne by (intros <-; done). by apply Hsound.
      + rewrite lookup_store_eq. apply fill_default_valid. }
    split; [intros n Hn; apply elem_of_app; auto|].
    split; [intros _; apply elem_of_app; right; by left|].
    intros m Hm. by rewrite lookup_store_ne.
Qed.

(** X21.  For the name of a directory entry.  [delete_icon_set] refuses
    [default] with [ValueError] and an
    absent name with [FileNotFoundError], the manager being unchanged.
    For another name under which a directory stands it removes the
    directory and rescans: the name is no longer on disk nor listed, and
    every icon set other than [default] is as it was. *)
Theorem delete_icon_set_spec (n : string) (im : IconManager.t) :
  FS.is_entry_name n = true ->
  (n = "default" -> delete_icon_set e n im = (Raise ValueError, im))
  /\ (n <> "default" -> FS.lookup (icons_dir im) n = None ->
      delete_icon_set e n im = (Raise FileNotFoundError, im))
  /\ (forall d, n <> "default" ->
        FS.lookup (icons_dir im) n = Some (FS.Dir d) ->
        exists im',
          delete_icon_set e n im = (Ok tt, im')
          /\ FS.lookup (icons_dir im') n = None
          /\ (n ∉ available_icon_sets im')
          /\ forall m, m <> n -> m <> "default" ->
               FS.lookup (icons_dir im') m = FS.lookup (icons_dir im) m).
Proof.
  intros _. unfold delete_icon_set. split; [by intros ->|].
  split.
  - intros Hn Hl. rewrite eqb_string_ne by done. munfold. by rewrite Hl.
  - intros d Hn Hl. rewrite eqb_string_ne by done.
    unfold FS.rmtree. munfold. rewrite Hl. cbn [FS.exists_].
    rewrite refresh_run. cbv zeta. cbn [icons_dir].
    eexists. split; [reflexivity|].
    assert (Hgone : n ∉ valid_names (FS.remove n (icons_dir im))).
    { intros (x & Hin & _)%valid_names_spec.
      apply elem_of_remove in Hin as [? _]. done. }
    destruct (existsb _ _); cbn [icons_dir available_icon_sets].
    { split; [apply lookup_remove_eq|]. split; [done|].
      intros m Hm _. by apply lookup_remove_ne. }
    destruct (FS.lookup (FS.remove n (icons_dir im)) "default") as [[c|x]|];
      cbn [icons_dir available_icon_sets].
    + split; [apply lookup_remove_eq|]. split; [done|].
      intros m Hm _. by apply lookup_remove_ne.
    + rewrite lookup_store_ne by done.
      split; [apply lookup_remove_eq|].
      split.
      { intros [?| ->%list_elem_of_singleton]%elem_of_app; done. }
      intros m Hm Hd. rewrite lookup_store_ne by done.
      by apply lookup_remove_ne.
    + rewrite lookup_store_ne by done.
      split; [apply lookup_remove_eq|].
      split.
      { intros [?| ->%list_elem_of_singleton]%elem_of_app; done. }
      intros m Hm Hd. rewrite lookup_store_ne by done.
      by apply lookup_remove_ne.
Qed.
End IconSets.

Section IconSetsExamples.
Import IconManager.

(** An icons folder with a complete set [math] and a set [draft] that
    lacks sizes. *)
Definition icon_shelf : IconManager.t :=
  IconMgr
    [("math", FS.Dir (map (fun size => (icon_file size, FS.File (FS.Binary "m")))
                        icon_sizes));
     ("draft", FS.Dir [("256.png", FS.File (FS.Binary "d"))])]
    ["stale"].

Lemma refresh_available_icons_spec_witness :
  exists im',
    refresh_available_icons env0 icon_shelf = (Ok tt, im')
    /\ available_icon_sets im' = ["math"; "default"].
Proof.
  assert (Hnd : NoDup (map fst (icons_dir icon_shelf)))
    by (vm_compute; repeat constructor; set_solver).
  destruct (refresh_available_icons_spec env0 icon_shelf Hnd)
    as (im' & Hrun & _).
  exists im'. split; [exact Hrun|].
  assert (Hc : (refresh_available_icons env0 icon_shelf).2
               = (refresh_available_icons env0 icon_shelf).2) by reflexivity.
  rewrite Hrun in Hc at 1. simpl in Hc. rewrite Hc.
  vm_compute. reflexivity.
Defined.

Lemma delete_icon_set_spec_witness :
  exists im',
    delete_icon_set env0 "draft" icon_shelf = (Ok tt, im')
    /\ FS.lookup (icons_dir im') "draft" = None
    /\ ("draft" ∉ available_icon_sets im').
Proof.
  assert (Hn : "draft" <> "default") by discriminate.
  assert (Hl : FS.lookup (icons_dir icon_shelf) "draft"
               = Some (FS.Dir [("256.png", FS.File (FS.Binary "d"))]))
    by (vm_compute; reflexivity).
  destruct (proj2 (proj2 (delete_icon_set_spec env0 "draft" icon_shelf eq_refl))
              _ Hn Hl) as (im' & H1 & H2 & H3 & _).
  exists im'. repeat split; assumption.
Defined.
End IconSetsExamples.

(** ** Editing a card *)

Section CardEdits.
Import FlashCard.

(** A call of one of the three methods that change the sides of a card. *)
Inductive edit : Type :=
| AddBlock (side : string) (block : ContentBlock.t)
| RemoveBlock (side : string) (block_index : Z)
| MoveBlock (side : string) (from_index to_index : Z).

Definition apply_edit (ed : edit) : M FlashCard.t unit :=
  match ed with
  | AddBlock side block => add_block_to_side side block
  | RemoveBlock side i => remove_block_from_side side i
  | MoveBlock side i j => move_block side i j
  end.

(** The calls one after the other; a call that raises is passed over. *)
Fixpoint apply_edits (eds : list edit) (c : FlashCard.t) : FlashCard.t :=
  match eds with
  | [] => c
  | ed :: eds' => apply_edits eds' (snd (apply_edit ed c))
  end.

(** X22.  However a new card is edited with [add_block_to_side],
    [remove_block_from_side] and [move_block], with whatever arguments
    and whether the calls succeed or raise, neither side ever has more
    than ten blocks. *)
Theorem edits_within_cap (e : env) (cid : pyval) (t : nat) (eds : list edit) :
  exists c t',
    init e cid t = (Ok c, t')
    /\ length (information_side (apply_edits eds c)) <= 10
    /\ length (answer_side (apply_edits eds c)) <= 10.
Proof.
  destruct (init_within_cap e cid t) as (c & t' & Hinit & Hcap).
  exists c, t'. split; [done|]. fold (within_cap (apply_edits eds c)).
  clear Hinit. revert c Hcap. induction eds as [|ed eds IH]; intros c Hcap; [done|].
  simpl. apply IH.
  destruct ed as [side b|side i|side i j]; simpl.
  - destruct (add_block_to_side side b c) as [r c'] eqn:H.
    eapply add_block_within_cap; eauto.
  - destruct (remove_block_from_side side i c) as [r c'] eqn:H.
    eapply remove_block_within_cap; eauto.
  - destruct (move_block side i j c) as [r c'] eqn:H.
    eapply move_block_within_cap; eauto.
Qed.
End CardEdits.

(** ** Importing one set *)

Section ImportSet.
Import VaultManager.
Context (e : env).

(** The name that the metadata [meta] of an archive give. *)
Definition archived_name (meta : list (string * pyval)) : pyval :=
  from_option id (VStr "Unknown") (Py.dict_lookup meta "name").

(** The files that [import_set] installs for the archive [tree] under a
    chosen name: [set.json] is rewritten when the name differs from the
    archived one. *)
Definition installed (tree : FS.dir) (meta : list (string * pyval))
    (n : string) : FS.dir :=
  if str_eqb (archived_name meta) n then tree
  else FS.store "set.json"
         (FS.File (FS.Json (VDict (Py.dict_set meta "name" (VStr n))))) tree.

(** X23.  For an archive with [set.json], a JSON object, at its root and
    no [icons] folder, and the name of a directory entry under which
    nothing stands in [sets/], [import_set] with that name returns the
    name and installs the files of the archive in a directory of that
    name, [set.json] carrying the new name when it differs from the
    archived one; the set is listed, and the other directories and the
    cache are as they were.  The name is not checked by
    [validate_set_name]. *)
Theorem import_set_spec (tree : FS.dir) (meta : list (string * pyval))
    (n : string) (s : VaultManager.t) :
  FS.lookup tree "set.json" = Some (FS.File (FS.Json (VDict meta))) ->
  FS.lookup tree "icons" = None ->
  FS.is_entry_name n = true ->
  FS.lookup (sets_dir s) n = None ->
  exists s',
    import_set e (ZipOf tree) (Some n) s = (Ok n, s')
    /\ FS.lookup (sets_dir s') n = Some (FS.Dir (installed tree meta n))
    /\ (forall f, f <> "set.json" ->
          FS.lookup (installed tree meta n) f = FS.lookup tree f)
    /\ n ∈ available (sets_dir s')
    /\ (forall m, m <> n ->
          FS.lookup (sets_dir s') m = FS.lookup (sets_dir s) m)
    /\ sets_cache s' = sets_cache s
    /\ icon_manager s' = icon_manager s.
Proof.
  intros Hsj Hicons Hn Hfree.
  assert (Hna : n ∉ available (sets_dir s)).
  { intros (x & Hin & _)%available_spec.
    apply elem_of_lookup in Hin as [y Hy]. congruence. }
  assert (Htruthy : negb (String.eqb n "") = true).
  { unfold FS.is_entry_name in Hn. by repeat apply andb_true_iff in Hn as [Hn _]. }
  assert (Hset : is_set (FS.Dir (installed tree meta n)) = true).
  { unfold is_set, installed. simpl. destruct (str_eqb _ _).
    - by rewrite Hsj.
    - by rewrite lookup_store_eq. }
  unfold import_set, get_available_sets, name_in, Py.get_default, Py.setitem,
    FS.write_json, FS.write_file, FS.copytree.
  munfold. cbn [extractall FS.rglob_parent]. rewrite Hsj.
  cbn [FS.exists_ FS.get_dir from_option id FS.read_json truthy].
  rewrite Hsj. cbn [FS.read_json]. rewrite Htruthy. cbn [from_option id andb].
  rewrite (bool_decide_eq_false_2 _ Hna).
  fold (archived_name meta).
  destruct (str_eqb (archived_name meta) n) eqn:Hsame; cbn [negb];
    cbn [FS.put_dir FS.get_dir from_option id]; rewrite ?Hsj;
    cbn [FS.put_dir FS.get_dir from_option id];
    rewrite Hfree; cbn [FS.exists_ sets_dir set_sets_dir];
    rewrite Hfree; cbn [sets_dir set_sets_dir icon_manager].
  all: assert (Hic : forall l, FS.lookup l "icons" = FS.lookup tree "icons" ->
                 FS.exists_ (FS.lookup l "icons") = false)
         by (intros l ->; by rewrite Hicons).
  - rewrite (Hic tree eq_refl). cbn [andb].
    destruct (icon_manager s) as [im|] eqn:Him;
      (eexists; split; [reflexivity|]);
      unfold installed; rewrite Hsame;
      cbn [sets_dir sets_cache icon_manager set_sets_dir snd];
      rewrite lookup_store_eq; (split; [done|]);
      (split; [intros f Hf; by rewrite ?lookup_store_ne|]);
      (split; [eapply available_elem; [apply lookup_store_eq|];
               unfold installed in Hset; by rewrite Hsame in Hset|]);
      (split; [intros m Hm; by apply lookup_store_ne|done]).
  - assert (Hne : "set.json" <> "icons") by discriminate.
    rewrite (Hic _ (lookup_store_ne _ _ _ _ Hne)). cbn [andb].
    destruct (icon_manager s) as [im|] eqn:Him;
      (eexists; split; [reflexivity|]);
      unfold installed; rewrite Hsame;
      cbn [sets_dir sets_cache icon_manager set_sets_dir snd];
      rewrite lookup_store_eq; (split; [done|]);
      (split; [intros f Hf; by rewrite ?lookup_store_ne|]);
      (split; [eapply available_elem; [apply lookup_store_eq|];
               unfold installed in Hset; by rewrite Hsame in Hset|]);
      (split; [intros m Hm; by apply lookup_store_ne|done]).
Qed.
End ImportSet.

Section ImportSetExamples.
Import VaultManager.

Lemma import_set_spec_witness :
  exists s',
    import_set env0 deck_zip (Some "Deck 2") deck_vault = (Ok "Deck 2", s')
    /\ ("Deck 2" ∈ available (sets_dir s'))
    /\ FS.lookup (sets_dir s') "Deck" = FS.lookup (sets_dir deck_vault) "Deck".
Proof.
  assert (Hsj : { meta | FS.lookup deck_files "set.json"
                         = Some (FS.File (FS.Json (VDict meta))) })
    by (eexists; vm_compute; reflexivity).
  destruct Hsj as [meta Hsj].
  assert (Hicons : FS.lookup deck_files "icons" = None)
    by (vm_compute; reflexivity).
  assert (Hn : FS.is_entry_name "Deck 2" = true) by reflexivity.
  assert (Hfree : FS.lookup (sets_dir deck_vault) "Deck 2" = None)
    by (vm_compute; reflexivity).
  destruct (import_set_spec env0 deck_files meta "Deck 2" deck_vault
              Hsj Hicons Hn Hfree)
    as (s' & H1 & _ & _ & H4 & H5 & _).
  exists s'. split; [exact H1|]. split; [exact H4|]. by apply H5.
Defined.
End ImportSetExamples.

(** ** The exceptions of load_set *)

Section LoadSetErrors.
Import VaultManager.
Context (e : env).

(** X24.  For a set that is not cached, [load_set] raises
    [FileNotFoundError] when there is no [set.json]; [ValueError] when
    [set.json], or [cards.json] beside a [set.json] that is JSON, is text
    that is not JSON; and [IOError] when [set.json] is not text or is a
    directory, and also when it is a JSON object without the key [name]
    (the card file being absent or JSON).  The vault is unchanged in each
    case. *)
Theorem load_set_errors (n : string) (s : VaultManager.t) :
  sets_cache s !! n = None ->
  let set_file := FS.child (FS.lookup (sets_dir s) n) "set.json" in
  let cards_file := FS.child (FS.lookup (sets_dir s) n) "cards.json" in
  (set_file = None -> load_set e n s = (Raise FileNotFoundError, s))
  /\ (forall txt, set_file = Some (FS.File (FS.Text txt)) ->
        load_set e n s = (Raise ValueError, s))
  /\ (forall v txt,
        set_file = Some (FS.File (FS.Json v)) ->
        cards_file = Some (FS.File (FS.Text txt)) ->
        load_set e n s = (Raise ValueError, s))
  /\ (forall b, set_file = Some (FS.File (FS.Binary b)) ->
        load_set e n s = (Raise IOError, s))
  /\ (forall d, set_file = Some (FS.Dir d) ->
        load_set e n s = (Raise IOError, s))
  /\ (forall meta,
        set_file = Some (FS.File (FS.Json (VDict meta))) ->
        Py.dict_lookup meta "name" = None ->
        (cards_file = None \/ exists v, cards_file = Some (FS.File (FS.Json v))) ->
        load_set e n s = (Raise IOError, s)).
Proof.
  intros Hc. cbv zeta. unfold load_set, with_tick. munfold. rewrite Hc.
  split; [by intros ->|].
  split; [by intros txt ->|].
  split; [by intros v txt -> ->|].
  split; [by intros b ->|].
  split; [by intros d ->|].
  intros meta -> Hname Hcards.
  unfold FlashCardSet.from_dict, Py.getitem. munfold. simpl. rewrite Hname.
  destruct Hcards as [-> | [v ->]]; simpl; by destruct s.
Qed.

End LoadSetErrors.

Section LoadSetErrorsExamples.
Import VaultManager.

Lemma load_set_errors_witness :
  sets_cache broken_vault !! "Bio" = None
  /\ load_set env0 "Bio" broken_vault = (Raise ValueError, broken_vault).
Proof.
  assert (Hc : sets_cache broken_vault !! "Bio" = None)
    by (vm_compute; reflexivity).
  split; [exact Hc|].
  exact (proj1 (proj2 (load_set_errors env0 "Bio" broken_vault Hc))
           "{oops" eq_refl).
Defined.
End LoadSetErrorsExamples.

(** ** Icon sets during the import of one set *)

Section ImportSetIcons.
Import VaultManager.
Context (e : env).

(** A complete icon set is complete and the same after the merge of one
    bundled icon set, whether that merge returns or raises. *)
Lemma import_icon_set_keeps (bundled : string * FS.node)
    (im im' : IconManager.t) (r : result unit) (n : string) (x : FS.node) :
  import_icon_set bundled im = (r, im') ->
  FS.lookup (IconManager.icons_dir im) n = Some x ->
  IconManager.validate_icon_set (Some x) = true ->
  FS.lookup (IconManager.icons_dir im') n = Some x.
Proof.
  destruct bundled as [k node]. unfold import_icon_set, FS.rmtree, FS.copytree.
  munfold. cbn [fst snd]. intros H Hn Hv.
  destruct (FS.is_dir (Some node)); [|by injection H as <- <-].
  cbv beta in H.
  destruct (String.eqb k n) eqn:Hk.
  - apply String.eqb_eq in Hk. subst k. rewrite Hn, Hv in H. cbn in H.
    by injection H as <- <-.
  - apply String.eqb_neq in Hk.
    repeat (destruct_head H; simplify_eq/=);
      rewrite ?lookup_store_ne, ?lookup_remove_ne by done; done.
Qed.

Lemma import_icon_sets_keep (bundled : FS.dir)
    (im im' : IconManager.t) (r : result unit) (n : string) (x : FS.node) :
  for_each bundled import_icon_set im = (r, im') ->
  FS.lookup (IconManager.icons_dir im) n = Some x ->
  IconManager.validate_icon_set (Some x) = true ->
  FS.lookup (IconManager.icons_dir im') n = Some x.
Proof.
  revert im. induction bundled as [|b bundled IH]; intros im; simpl.
  - unfold ret. by intros [= <- <-].
  - unfold bind.
    destruct (import_icon_set b im) as [[[]|ex] im1] eqn:Hb; intros H Hn Hv.
    + eapply IH; [exact H| |done]. eapply import_icon_set_keeps; eauto.
    + injection H as <- <-. eapply import_icon_set_keeps; eauto.
Qed.

(** The icon manager after [import_set]: as before, or as the merge of
    the bundled icon sets and the rescan left it. *)
Lemma import_set_icons (z : zip_source) (new_name : option string)
    (s s' : VaultManager.t) (r : result string) :
  import_set e z new_name s = (r, s') ->
  icon_manager s' = icon_manager s
  \/ exists im bundled r1 im1,
       icon_manager s = Some im
       /\ icon_manager s' = Some im1
       /\ (for_each bundled import_icon_set;;
           IconManager.refresh_available_icons e)%py im = (r1, im1).
Proof.
  unfold import_set, get_available_sets, with_icons. munfold. intros H.
  repeat (destruct_head H; simplify_eq; try (cbv beta iota in H));
    simpl in *; auto.
  all: right; eexists _, _, _, _;
    (split; [first [eassumption | reflexivity]|]);
    (split; [reflexivity|]);
    match goal with
    | Hp : for_each _ _ _ = _ |- _ => rewrite Hp
    end;
    first [eassumption | reflexivity].
Qed.

(** The name under which [import_set] imports, when it comes to that:
    the new name when one is given, the name that the metadata of the
    archive give otherwise. *)
Definition import_target (z : zip_source) (new_name : option string)
  : option string :=
  let archived :=
    match extractall z with
    | Ok temp =>
        match FS.rglob_parent "set.json" (FS.Dir temp) with
        | Some parent =>
            match FS.read_json
                    (FS.lookup (default [] (FS.get_dir temp parent)) "set.json")
            with
            | Ok set_data =>
                match Py.get_default set_data "name" (VStr "Unknown") with
                | Ok (VStr original_name) => Some original_name
                | _ => None
                end
            | Raise _ => None
            end
        | None => None
        end
    | Raise _ => None
    end in
  match new_name with
  | Some given => if truthy (VStr given) then Some given else archived
  | None => archived
  end.

(** X25.  When the name to import under is the name of a directory
    entry, [import_set] does not change a complete icon set: an icon set
    that had all five sizes before the call is there, the same, after it,
    whatever the archive bundles under that name and whether the call
    returns or raises. *)
Theorem import_set_keeps_icon_sets (z : zip_source)
    (new_name : option string) (s s' : VaultManager.t) (r : result string)
    (im : IconManager.t) (n : string) (x : FS.node) :
  (forall target,
     import_target z new_name = Some target ->
     FS.is_entry_name target = true) ->
  icon_manager s = Some im ->
  FS.lookup (IconManager.icons_dir im) n = Some x ->
  IconManager.validate_icon_set (Some x) = true ->
  import_set e z new_name s = (r, s') ->
  exists im',
    icon_manager s' = Some im'
    /\ FS.lookup (IconManager.icons_dir im') n = Some x.
Proof.
  intros _ Him Hn Hv Hrun.
  destruct (import_set_icons _ _ _ _ _ Hrun)
    as [Hsame|(im0 & bundled & r1 & im1 & Him0 & Him1 & Hmerge)].
  { exists im. split; [congruence|done]. }
  rewrite Him in Him0. injection Him0 as <-.
  exists im1. split; [done|].
  unfold bind in Hmerge.
  destruct (for_each bundled import_icon_set im) as [[[]|ex] im2] eqn:Hloop.
  - assert (Hn2 := import_icon_sets_keep _ _ _ _ _ _ Hloop Hn Hv).
    destruct (refresh_spec e _ _ _ Hmerge) as (_ & Hother & Hdefault).
    destruct (String.eqb n "default") eqn:Hd.
    + apply String.eqb_eq in Hd as ->.
      by rewrite (Hdefault x Hn2 Hv).
    + apply String.eqb_neq in Hd. by rewrite Hother.
  - injection Hmerge as <- <-.
    exact (import_icon_sets_keep _ _ _ _ _ _ Hloop Hn Hv).
Qed.
End ImportSetIcons.

Section ImportSetIconsExamples.
Import VaultManager.

(** The archive of [Deck] with an icon set [math] bundled. *)
Definition deck_with_icons : zip_source :=
  ZipOf (FS.store "icons" (FS.Dir [("math", FS.Dir (icon_set_of "bundled"))])
           deck_files).

Lemma import_set_keeps_icon_sets_witness :
  import_target deck_with_icons None = Some "Deck"
  /\ import_set env0 deck_with_icons None icons_vault
     = (Ok "Deck", snd (import_set env0 deck_with_icons None icons_vault))
  /\ exists im',
       icon_manager (snd (import_set env0 deck_with_icons None icons_vault))
       = Some im'
       /\ FS.lookup (IconManager.icons_dir im') "math"
          = Some (FS.Dir (icon_set_of "local")).
Proof.
  assert (Hrun : import_set env0 deck_with_icons None icons_vault
                 = (Ok "Deck",
                    snd (import_set env0 deck_with_icons None icons_vault)))
    by (vm_compute; reflexivity).
  assert (Hv : IconManager.validate_icon_set
                 (Some (FS.Dir (icon_set_of "local"))) = true)
    by (vm_compute; reflexivity).
  assert (Htarget : import_target deck_with_icons None = Some "Deck")
    by (vm_compute; reflexivity).
  assert (Hname : forall target,
            import_target deck_with_icons None = Some target ->
            FS.is_entry_name target = true).
  { intros target Ht. rewrite Htarget in Ht. injection Ht as <-. reflexivity. }
  split; [exact Htarget|]. split; [exact Hrun|].
  exact (import_set_keeps_icon_sets env0 deck_with_icons None icons_vault _ _
           _ "math" _ Hname eq_refl eq_refl Hv Hrun).
Defined.
End ImportSetIconsExamples.

(** ** Exporting a set and importing it elsewhere *)

Section ExportImport.
Import VaultManager.
Context (e : env).


End ExportImport.

Section ExportImportExamples.
Import VaultManager.

End ExportImportExamples.

(** ** The integrity check *)

Section Integrity.
Import VaultManager.

(** What the checks of [validate_vault_integrity] ask of a set. *)
Definition set_sound (n : string) (s : VaultManager.t) : Prop :=
  exists d v,
    FS.lookup (sets_dir s) n = Some (FS.Dir d)
    /\ FS.lookup d "set.json" = Some (FS.File (FS.Json v))
    /\ FS.exists_ (FS.lookup d "cards.json") = true
    /\ FS.exists_ (FS.lookup d "images") = true
    /\ FS.exists_ (FS.lookup d "sounds") = true.

Lemma set_issues_nil (n : string) (s : VaultManager.t) :
  set_issues n s = [] <-> set_sound n s.
Proof.
  unfold set_issues, set_sound, get_set_metadata. munfold. split.
  - intros H.
    apply app_eq_nil in H as [H1 H]. apply app_eq_nil in H as [H2 H].
    apply app_eq_nil in H as [H3 H]. apply app_eq_nil in H as [H4 H5].
    destruct (FS.lookup (sets_dir s) n) as [[c|d]|]; simpl in *;
      [done| |done].
    destruct (FS.lookup d "set.json") as [[[v|t|b]|x]|] eqn:Hsj; try done.
    exists d, v. split; [done|]. split; [done|].
    destruct (FS.lookup d "cards.json"); [|done].
    destruct (FS.lookup d "images"); [|done].
    destruct (FS.lookup d "sounds"); done.
  - intros (d & v & -> & Hsj & Hc & Hi & Hs). simpl.
    rewrite Hsj, Hc, Hi, Hs. done.
Qed.

Lemma flat_map_nil {A B} (f : A -> list B) (l : list A) :
  flat_map f l = [] <-> forall x, x ∈ l -> f x = [].
Proof.
  induction l as [|a l IH]; simpl.
  - split; [by intros _ x ?%elem_of_nil|done].
  - split.
    + intros [Ha Hl]%app_eq_nil x [->|Hin]%elem_of_cons; [done|].
      by apply IH.
    + intros H. rewrite (H a) by left. simpl. apply IH.
      intros x Hx. apply H. by right.
Qed.

(** X27.  With distinct names in [sets/], [validate_vault_integrity]
    reports the vault sound exactly when every listed set is a directory
    whose [set.json] is a JSON document and which has entries
    [cards.json], [images] and [sounds]; every finding concerns a listed
    set, and a missing [set.json] is never among the findings, since only
    directories with [set.json] are listed. *)
Theorem integrity_spec (s : VaultManager.t) :
  NoDup (map fst (sets_dir s)) ->
  ((validate_vault_integrity s).1 = true
   <-> forall n, n ∈ available (sets_dir s) -> set_sound n s)
  /\ (forall i, i ∈ (validate_vault_integrity s).2 ->
        exists n, n ∈ available (sets_dir s) /\ i ∈ set_issues n s)
  /\ forall n, MissingSetJson n ∉ (validate_vault_integrity s).2.
Proof.
  intros Hnd. unfold validate_vault_integrity. cbn [fst snd].
  split; [|split].
  - setoid_rewrite <- set_issues_nil. rewrite <- flat_map_nil.
    destruct (flat_map _ _); split; done.
  - intros i Hi. apply list_elem_of_In, in_flat_map in Hi as (n & Hn & Hi).
    exists n. by rewrite !list_elem_of_In.
  - intros n Hi. apply list_elem_of_In, in_flat_map in Hi as (m & Hm & Hi).
    apply list_elem_of_In, available_spec in Hm as (x & Hin & Hset).
    assert (Hl := NoDup_dir_lookup _ _ _ Hnd Hin).
    unfold set_issues in Hi. rewrite Hl in Hi.
    unfold is_set in Hset. apply andb_true_iff in Hset as [_ Hsj].
    rewrite Hsj in Hi. cbn [negb app] in Hi.
    apply in_app_or in Hi as [Hi|Hi];
      [destruct (negb _); [destruct Hi as [[=]|[]]|destruct Hi]|].
    apply in_app_or in Hi as [Hi|Hi];
      [destruct (fst _); [destruct Hi|destruct Hi as [[=]|[]]]|].
    apply in_app_or in Hi as [Hi|Hi];
      destruct (negb _); try destruct Hi as [[=]|[]]; try destruct Hi.
Qed.

Lemma integrity_spec_witness :
  NoDup (map fst (sets_dir deck_vault))
  /\ (validate_vault_integrity deck_vault).1 = true
  /\ forall n, n ∈ available (sets_dir deck_vault) -> set_sound n deck_vault.
Proof.
  assert (Hnd : NoDup (map fst (sets_dir deck_vault)))
    by (vm_compute; repeat constructor; set_solver).
  assert (Hok : (validate_vault_integrity deck_vault).1 = true)
    by (vm_compute; reflexivity).
  split; [exact Hnd|]. split; [exact Hok|].
  exact (proj1 (proj1 (integrity_spec deck_vault Hnd)) Hok).
Defined.
End Integrity.
